(** * Working with EMIT L2B Mineralogy: the aggregation and export cells

    A shallow embedding of the array code of the tutorial notebook
    [python/tutorials/Working_with_EMIT_L2B_Mineralogy.ipynb]: the weight
    table clean-up (section 3), the band-depth aggregation into
    [mineral_abundance] (section 3.1) and the export cells (section 4),
    together with the grid remapper the notebook calls through
    [emit_tools].  Around them: the lists of URLs (section 1.2), the table
    of library entries [min_df] and the masks of the browse functions
    (section 2), the choice of the mineral columns (section 3) and the
    total abundance (section 3.1).

    Samples are [float64] in the notebook.  The development has two
    readings of them.  In the first a sample is either an exact rational or
    NaN: NaN propagation, the comparisons with NaN and the replacement of
    NaN are as numpy has them, while rounding, signed zeros and infinities
    are left out; most properties are stated on it.  In the second, module
    [F64], a sample is an IEEE 754 binary64 value with its rounding, signed
    zeros and infinities; the properties about the value of the accumulated
    sums and about the order of the rows are stated on it. *)

From Stdlib Require Import QArith Qcanon ZArith.
From Stdlib Require SpecFloat.
From stdpp Require Import base decidable option list numbers strings pretty gmap.

Set Default Proof Using "Type".

(** ** Samples *)

Inductive num : Type :=
  | Fin (q : Qc)
  | NaN.

Definition of_Z (z : Z) : num := Fin (Qc_of_Z z).

(** [np.isnan] *)
Definition isnan (x : num) : bool :=
  match x with NaN => true | Fin _ => false end.

(** [x + y] and [x * y] on floats: NaN is absorbing, also for [0 * nan]. *)
Definition add (x y : num) : num :=
  match x, y with
  | Fin a, Fin b => Fin (a + b)%Qc
  | _, _ => NaN
  end.

Definition mul (x y : num) : num :=
  match x, y with
  | Fin a, Fin b => Fin (a * b)%Qc
  | _, _ => NaN
  end.

(** [x == y]: false as soon as one side is NaN. *)
Definition eqb (x y : num) : bool :=
  match x, y with
  | Fin a, Fin b => bool_decide (a = b)
  | _, _ => false
  end.

(** A boolean promoted to a float, as in [mask * values]. *)
Definition of_bool (b : bool) : num := if b then of_Z 1 else of_Z 0.

Global Instance num_eq_dec : EqDecision num.
Proof. solve_decision. Defined.

(** [x.astype(int)] of a float, to a 64-bit integer: truncation toward
    zero.  numpy gives the most negative 64-bit integer for NaN and for a
    number whose truncation is outside the 64-bit range. *)
Definition trunc (x : num) : Z :=
  match x with
  | Fin q =>
      let z := (Qnum (this q) ÷ Zpos (Qden (this q)))%Z in
      if bool_decide (- 9223372036854775808 ≤ z < 9223372036854775808)%Z
      then z else (- 9223372036854775808)%Z
  | NaN => (- 9223372036854775808)%Z
  end.

(** ** Arrays

    A two-dimensional [ndarray] is its shape and its index function; the
    index function is only read inside the shape. *)

Record ndarray (A : Type) : Type := mk_ndarray {
  shape : nat * nat;
  item : nat → nat → A;
}.
Arguments mk_ndarray {A} _ _.
Arguments shape {A} _.
Arguments item {A} _ _ _.

(** The (y, x, band) array [mineral_abundance]. *)
Record ndarray3 : Type := mk_ndarray3 {
  shape3 : nat * nat * nat;
  item3 : nat → nat → nat → num;
}.

(** [np.array(rows)] for a rectangular list of rows. *)
Definition array {A} (d : A) (rows : list (list A)) : ndarray A :=
  mk_ndarray (length rows, length (default [] (head rows)))
             (λ i j, default d (rows !! i ≫= (.!! j))).

(** [a.tolist()] *)
Definition tolist {A} (a : ndarray A) : list (list A) :=
  (λ i, (λ j, item a i j) <$> seq 0 (shape a).2) <$> seq 0 (shape a).1.

Definition tolist3 (a : ndarray3) : list (list (list num)) :=
  (λ i, (λ j, (λ k, item3 a i j k) <$> seq 0 (shape3 a).2)
          <$> seq 0 (shape3 a).1.2) <$> seq 0 (shape3 a).1.1.

(** [np.zeros((h, w, n))] *)
Definition zeros (h w n : nat) : ndarray3 :=
  mk_ndarray3 (h, w, n) (λ _ _ _, of_Z 0).

(** *** Exceptions *)

Inductive exn : Type := KeyError | IndexError | ValueError.

Global Instance exn_eq_dec : EqDecision exn.
Proof. solve_decision. Defined.

Inductive result (A : Type) : Type :=
  | Ok (a : A)
  | Raise (e : exn).
Arguments Ok {A} _.
Arguments Raise {A} _.

Global Instance result_bind : MBind result := λ A B k r,
  match r with Ok a => k a | Raise e => Raise e end.

Definition or_raise {A} (e : exn) (o : option A) : result A :=
  match o with Some a => Ok a | None => Raise e end.

(** *** Broadcasting *)

(** The common length of two axes, when they can be broadcast together. *)
Definition broadcast_dim (n m : nat) : option nat :=
  if decide (n = m) then Some n
  else if decide (n = 1) then Some m
  else if decide (m = 1) then Some n
  else None.

(** Index into an axis of length [n] that may have been stretched. *)
Definition stretch (n i : nat) : nat := if decide (n = 1) then 0 else i.

Definition broadcast_shape (s t : nat * nat) : option (nat * nat) :=
  h ← broadcast_dim s.1 t.1; w ← broadcast_dim s.2 t.2; Some (h, w).

(** [a op b], elementwise with broadcasting; [ValueError] when the operands
    cannot be broadcast together. *)
Definition map2 {A B C} (f : A → B → C) (a : ndarray A) (b : ndarray B)
    : result (ndarray C) :=
  match broadcast_shape (shape a) (shape b) with
  | None => Raise ValueError
  | Some s =>
      Ok (mk_ndarray s (λ i j,
            f (item a (stretch (shape a).1 i) (stretch (shape a).2 j))
              (item b (stretch (shape b).1 i) (stretch (shape b).2 j))))
  end.

(** [a op x] for a scalar [x]. *)
Definition map_scalar {A B} (f : A → B) (a : ndarray A) : ndarray B :=
  mk_ndarray (shape a) (λ i j, f (item a i j)).

(** Whether an operand of shape [s] can be broadcast to the shape [t] of
    the array that is updated in place. *)
Definition broadcastable_to (s t : nat * nat) : bool :=
  bool_decide ((s.1 = t.1 ∨ s.1 = 1) ∧ (s.2 = t.2 ∨ s.2 = 1)).

(** [acc[..., m] += rhs] *)
Definition iadd_band (acc : ndarray3) (m : nat) (rhs : ndarray num)
    : result ndarray3 :=
  if broadcastable_to (shape rhs) (shape3 acc).1 then
    Ok (mk_ndarray3 (shape3 acc) (λ i j k,
          if decide (k = m)
          then add (item3 acc i j k)
                   (item rhs (stretch (shape rhs).1 i) (stretch (shape rhs).2 j))
          else item3 acc i j k))
  else Raise ValueError.

(** ** The dataset and the weight table *)

(** [ds_min]: the data variables of the (orthorectified) granule by name. *)
Abbreviation Dataset := (gmap string (ndarray num)).

(** f'group_{group}_mineral_id' and f'group_{group}_band_depth' *)
Definition mineral_id_var (group : Z) : string :=
  "group_" +:+ pretty group +:+ "_mineral_id".
Definition band_depth_var (group : Z) : string :=
  "group_" +:+ pretty group +:+ "_band_depth".

(** One row of [mineral_groupings]: the library ["Index"], the spectral
    ["Group"], and the row's entries in the [mineral_names] columns, in the
    order of [mineral_names] (an empty cell of the spreadsheet reads as
    NaN, an unknown but non-zero quantity as -1). *)
Record grouping : Type := mk_grouping {
  Index : Z;
  Group : Z;
  abundances : list num;
}.

Abbreviation DataFrame := (list grouping).

(** [mineral_abundance_ref[np.isnan(mineral_abundance_ref)] = 0] *)
Definition nan_to_zero (x : num) : num := if isnan x then of_Z 0 else x.

(** [mineral_abundance_ref[mineral_abundance_ref == -1] = 1] *)
Definition sentinel_to_one (x : num) : num :=
  if eqb x (of_Z (-1)) then of_Z 1 else x.

(** [mineral_abundance_ref]: [np.array(mineral_groupings[mineral_names])]
    after the two replacements. *)
Definition mineral_abundance_ref (mineral_groupings : DataFrame)
    : list (list num) :=
  fmap sentinel_to_one
    <$> (fmap nan_to_zero <$> (abundances <$> mineral_groupings)).

(** ** The aggregation loop *)

(** A [for] loop over [xs] on a state that is updated in place: the state
    reached, and the exception that stopped the loop, if any. *)
Fixpoint for_each {A S} (f : A → S → S * option exn) (xs : list A) (s : S)
    : S * option exn :=
  match xs with
  | [] => (s, None)
  | x :: xs =>
      match f x s with
      | (s', None) => for_each f xs s'
      | (s', Some e) => (s', Some e)
      end
  end.

(** A statement that either updates the state or raises and leaves it as
    it was. *)
Definition attempt {S} (f : S → result S) (s : S) : S * option exn :=
  match f s with Ok s' => (s', None) | Raise e => (s, Some e) end.

(** [mineral_abundance[np.isnan(mineral_abundance)] = 0] *)
Definition clean (acc : ndarray3) : ndarray3 :=
  mk_ndarray3 (shape3 acc) (λ i j k, nan_to_zero (item3 acc i j k)).

(** [np.all(mineral_abundance == 0, axis=-1)] at the cell (i, j) *)
Definition all_zero (acc : ndarray3) (i j : nat) : bool :=
  forallb (λ k, eqb (item3 acc i j k) (of_Z 0)) (seq 0 (shape3 acc).2).

(** [mineral_abundance[np.all(mineral_abundance == 0, axis=-1),:] = np.nan] *)
Definition mark_missing (acc : ndarray3) : ndarray3 :=
  mk_ndarray3 (shape3 acc) (λ i j k,
    if all_zero acc i j then NaN else item3 acc i j k).

(** What running the cell leaves behind: the finished array, or the
    exception together with the array as the loops left it (none when the
    allocation itself failed). *)
Inductive outcome : Type :=
  | Done (out : ndarray3)
  | Raised (e : exn) (partial : option ndarray3).

Section aggregation.
Context (ds_min : Dataset) (mineral_names : list string)
        (mineral_groupings : DataFrame).

(** The right-hand side of the update for mineral [_m] and row [_c];
    [None] when the row has no entry for the mineral and is skipped. *)
Definition row_term (_m _c : nat) : result (option (ndarray num)) :=
  row ← or_raise KeyError (mineral_groupings !! _c);
  entry ← or_raise KeyError (abundances row !! _m);
  if isnan entry then Ok None
  else
    let group := Group row in
    ids ← or_raise KeyError (ds_min !! mineral_id_var group);
    let mask := map_scalar (λ v, eqb v (of_Z (Index row))) ids in
    depth ← or_raise KeyError (ds_min !! band_depth_var group);
    masked ← map2 (λ b v, mul (of_bool b) v) mask depth;
    ref_row ← or_raise IndexError (mineral_abundance_ref mineral_groupings !! _c);
    weight ← or_raise IndexError (ref_row !! _m);
    Ok (Some (map_scalar (λ v, mul v weight) masked)).

(** The body of the inner loop. *)
Definition body (_m _c : nat) (acc : ndarray3) : result ndarray3 :=
  rhs ← row_term _m _c;
  match rhs with
  | None => Ok acc
  | Some rhs => iadd_band acc _m rhs
  end.

(** The two nested loops of the cell. *)
Definition accumulate (acc : ndarray3) : ndarray3 * option exn :=
  for_each (λ _m,
      for_each (λ _c, attempt (body _m _c))
               (seq 0 (length mineral_groupings)))
    (seq 0 (length mineral_names)) acc.

(** The whole cell: allocation, the loops, the two replacements. *)
Definition mineral_abundance : outcome :=
  match ds_min !! "group_1_band_depth" with
  | None => Raised KeyError None
  | Some depth =>
      let acc := zeros (shape depth).1 (shape depth).2 (length mineral_names) in
      match accumulate acc with
      | (acc, Some e) => Raised e (Some acc)
      | (acc, None) => Done (mark_missing (clean acc))
      end
  end.

(** [mineral_abundance_xarray[name]]: the band of the result that carries
    the mineral's name. *)
Definition band (out : ndarray3) (k : nat) : ndarray num :=
  mk_ndarray (shape3 out).1 (λ i j, item3 out i j k).

Definition mineral_abundance_xarray (out : ndarray3) : Dataset :=
  list_to_map (imap (λ _x name, (name, band out _x)) mineral_names).
End aggregation.

(** The fill values of the orthorectified layers become NaN (section 2.1):
    [ds_min[var].data[ds_min[var].data == -9999] = np.nan] for every
    variable. *)
Definition fill_to_nan (ds_min : Dataset) : Dataset :=
  map_scalar (λ v, if eqb v (of_Z (-9999)) then NaN else v) <$> ds_min.

(** ** Export (section 4) *)

(** The samples of a layer on disk: floats, or integers after
    [astype(int)]. *)
Inductive samples : Type :=
  | Floats (a : ndarray num)
  | Ints (a : ndarray Z).

Record DataArray : Type := mk_DataArray {
  data : samples;
  nodata : option Z;
}.

Record raster_file : Type := mk_raster_file {
  raster_path : string;
  driver : string;
  bands : list samples;
  file_nodata : option Z;
}.

(** [np.nan_to_num(a, nan=fill)] *)
Definition nan_to_num (fill : Z) (a : ndarray num) : ndarray num :=
  map_scalar (λ v, if isnan v then of_Z fill else v) a.

(** [a.astype(int)] *)
Definition astype_int (a : ndarray num) : ndarray Z := map_scalar trunc a.

(** [dat_out.rio.write_nodata(v, encoded=True, inplace=True)] *)
Definition write_nodata (v : Z) (dat_out : DataArray) : DataArray :=
  mk_DataArray (data dat_out) (Some v).

(** [dat_out.rio.to_raster(raster_path=path, driver=drv)]: a
    two-dimensional [DataArray] is written as one band.  The nodata value
    of the array is declared in a file of floats; a band of 64-bit
    integers is written without a nodata value. *)
Definition to_raster (path drv : string) (dat_out : DataArray) : raster_file :=
  mk_raster_file path drv [data dat_out]
    match data dat_out with
    | Floats _ => nodata dat_out
    | Ints _ => None
    end.

Section export.
Context (out_folder granule_id : string).

(** Section 4.1: the categorical layer. *)
Definition export_mineral_id (ds_min : Dataset) : result raster_file :=
  let out_name := granule_id +:+ "_group_1_mineral_id.tif" in
  layer ← or_raise KeyError (ds_min !! "group_1_mineral_id");
  let filled := nan_to_num (-9999) layer in
  let dat_out := mk_DataArray (Ints (astype_int filled)) None in
  let dat_out := write_nodata (-9999) dat_out in
  Ok (to_raster (out_folder +:+ out_name) "COG" dat_out).

(** Section 4.2: the band depth. *)
Definition export_band_depth (ds_min : Dataset) : result raster_file :=
  let out_name := granule_id +:+ "_group_1_band_depth.tif" in
  layer ← or_raise KeyError (ds_min !! "group_1_band_depth");
  let dat_out := mk_DataArray (Floats (nan_to_num (-9999) layer)) None in
  let dat_out := write_nodata (-9999) dat_out in
  Ok (to_raster (out_folder +:+ out_name) "COG" dat_out).

(** Section 4.3: one band of the abundance. *)
Definition export_abundance (abundance : Dataset) : result raster_file :=
  let out_name := granule_id +:+ "_Calcite.tif" in
  layer ← or_raise KeyError (abundance !! "Calcite");
  let dat_out := mk_DataArray (Floats (nan_to_num (-9999) layer)) None in
  let dat_out := write_nodata (-9999) dat_out in
  Ok (to_raster (out_folder +:+ out_name) "COG" dat_out).
End export.

(** The nodata value a written file declares, if the cell has written a
    file and the file declares one. *)
Definition declared_nodata (written : result raster_file) : option Z :=
  match written with
  | Ok file => file_nodata file
  | Raise _ => None
  end.

(** ** The grid remapper *)

(** Modelled from the spec: the marker of a cell that has no source
    ("missing"). *)
Definition missing : num := NaN.

(** Modelled from the spec: a cell of the index map is valid when its raw
    indices are positive (a non-positive raw value means no source). *)
Definition valid (raw : Z * Z) : bool :=
  bool_decide (0 < raw.1)%Z && bool_decide (0 < raw.2)%Z.

(** Modelled from the spec: the one-based raw indices as a zero-based
    (row, column). *)
Definition decode (raw : Z * Z) : nat * nat :=
  (Z.to_nat (raw.1 - 1), Z.to_nat (raw.2 - 1)).

(** Modelled from the spec: (r, c) lies within [0, R) x [0, C). *)
Definition in_bounds (s rc : nat * nat) : bool :=
  bool_decide (rc.1 < s.1) && bool_decide (rc.2 < s.2).

(** Modelled from the spec: one output cell of one layer. *)
Definition remap_cell (source : ndarray num) (raw : Z * Z) : num :=
  if valid raw && in_bounds (shape source) (decode raw)
  then item source (decode raw).1 (decode raw).2
  else missing.

(** Modelled from the spec: [remap], the index gather of section 4.1 (the
    notebook calls it as [et.ortho_xr]; the [emit_tools] module that defines
    it is not among the sources).  Every output cell whose index-map entry
    is valid and inside the source takes the source sample it points to;
    every other output cell is missing. *)
Definition remap (source_layers : list (ndarray num))
    (index_map : ndarray (Z * Z)) : list (ndarray num) :=
  (λ source, mk_ndarray (shape index_map)
               (λ i j, remap_cell source (item index_map i j)))
    <$> source_layers.

(** Modelled from the spec: the index map that sends every cell of an
    (R, C) grid to itself. *)
Definition identity_map (s : nat * nat) : ndarray (Z * Z) :=
  mk_ndarray s (λ i j, (Z.of_nat i + 1, Z.of_nat j + 1)%Z).

(** ** Reading the aggregation cell by cell *)

(** The sample of a variable at a cell (NaN when the variable is absent). *)
Definition layer (ds : Dataset) (var : string) (i j : nat) : num :=
  match ds !! var with Some a => item a i j | None => NaN end.

(** The row has an entry (a defined weight) for mineral [m]. *)
Definition has_entry (r : grouping) (m : nat) : bool :=
  match abundances r !! m with Some e => negb (isnan e) | None => false end.

(** The resolved weight of the row for mineral [m]. *)
Definition weight (r : grouping) (m : nat) : num :=
  sentinel_to_one (nan_to_zero (default NaN (abundances r !! m))).

(** The id layer of the row's group holds the row's index at the cell. *)
Definition matches (ds : Dataset) (r : grouping) (i j : nat) : bool :=
  eqb (layer ds (mineral_id_var (Group r)) i j) (of_Z (Index r)).

(** The band depth of the row's group at the cell. *)
Definition magnitude (ds : Dataset) (r : grouping) (i j : nat) : num :=
  layer ds (band_depth_var (Group r)) i j.

(** What one update adds at a cell. *)
Definition term (ds : Dataset) (r : grouping) (m i j : nat) : num :=
  mul (mul (of_bool (matches ds r i j)) (magnitude ds r i j)) (weight r m).

(** The sum of a list of samples, from 0. *)
Definition sum_list (xs : list num) : num := foldl add (of_Z 0) xs.

(** The masked band depth of a row, [(ids == Index) * depth], read from the
    row itself. *)
Definition masked_depth (ds : Dataset) (r : grouping) : result (ndarray num) :=
  ids ← or_raise KeyError (ds !! mineral_id_var (Group r));
  depth ← or_raise KeyError (ds !! band_depth_var (Group r));
  map2 (λ b v, mul (of_bool b) v)
       (map_scalar (λ v, eqb v (of_Z (Index r))) ids) depth.

(** The right-hand side of the update of row [r] for mineral [m], read from
    the row itself. *)
Definition rhs_of (ds : Dataset) (r : grouping) (m : nat)
    : result (option (ndarray num)) :=
  entry ← or_raise KeyError (abundances r !! m);
  if isnan entry then Ok None
  else
    masked ← masked_depth ds r;
    Ok (Some (map_scalar (λ v, mul v (weight r m)) masked)).

(** The update of row [r] for mineral [m] raises nothing on a grid of
    shape [s]. *)
Definition fits (ds : Dataset) (s : nat * nat) (r : grouping) (m : nat) : bool :=
  match rhs_of ds r m with
  | Ok (Some rhs) => broadcastable_to (shape rhs) s
  | Ok None => true
  | Raise _ => false
  end.

(** What the update of row [r] for mineral [m] adds at the cell (i, j). *)
Definition addend (ds : Dataset) (r : grouping) (m i j : nat) : num :=
  match rhs_of ds r m with
  | Ok (Some rhs) => item rhs (stretch (shape rhs).1 i) (stretch (shape rhs).2 j)
  | _ => of_Z 0
  end.

(** What the rows of the table add at (i, j) for mineral [m], in all. *)
Definition accumulated (ds : Dataset) (tbl : DataFrame) (m i j : nat) : num :=
  sum_list ((λ r, addend ds r m i j) <$> tbl).

(** The updates of the two loops, in the order they are run. *)
Definition updates (n_minerals n_rows : nat) : list (nat * nat) :=
  _m ← seq 0 n_minerals; _c ← seq 0 n_rows; [(_m, _c)].

(** The effect of the update [(m, c)] on the value at (i, j, k). *)
Definition update_cell (ds : Dataset) (tbl : DataFrame) (i j k : nat)
    (a : num) (u : nat * nat) : num :=
  match tbl !! u.2 with
  | Some r => if decide (k = u.1) then add a (addend ds r k i j) else a
  | None => a
  end.

(** The value the loops accumulate at (i, j) for mineral [m]: one step per
    row, from 0. *)
Definition cell_step (ds : Dataset) (m i j : nat) (a : num) (r : grouping)
    : num :=
  if has_entry r m then add a (term ds r m i j) else a.

Definition cell_acc (ds : Dataset) (tbl : DataFrame) (m i j : nat) : num :=
  foldl (cell_step ds m i j) (of_Z 0) tbl.

(** What the row adds at (i, j) for mineral [m], as a summand. *)
Definition contribution (ds : Dataset) (m i j : nat) (r : grouping) : num :=
  if has_entry r m then term ds r m i j else of_Z 0.

(** The value the cell reports at (i, j) for mineral [k], from the
    accumulated values of all [n] minerals. *)
Definition reported (n : nat) (acc : nat → num) (k : nat) : num :=
  if forallb (λ m, eqb (nan_to_zero (acc m)) (of_Z 0)) (seq 0 n) then NaN
  else nan_to_zero (acc k).

(** A layer is present and has the shape [s]. *)
Definition has_shape (s : nat * nat) (o : option (ndarray num)) : bool :=
  match o with Some a => bool_decide (shape a = s) | None => false end.

(** The id layer and the band depth of the row's group are present with
    the shape [s] of the output grid. *)
Definition good (ds : Dataset) (s : nat * nat) (r : grouping) : bool :=
  has_shape s (ds !! mineral_id_var (Group r))
  && has_shape s (ds !! band_depth_var (Group r)).

(** The layers of the row's group are present, but cannot be broadcast
    together and to the output grid of shape [s]. *)
Definition clashes (ds : Dataset) (s : nat * nat) (r : grouping) : bool :=
  match ds !! mineral_id_var (Group r), ds !! band_depth_var (Group r) with
  | Some ids, Some depth =>
      match broadcast_shape (shape ids) (shape depth) with
      | Some t => negb (broadcastable_to t s)
      | None => true
      end
  | _, _ => false
  end.

(** The shape of the output grid: that of the band depth of group 1. *)
Definition grid (ds : Dataset) : nat * nat :=
  match ds !! "group_1_band_depth" with
  | Some depth => shape depth
  | None => (0, 0)
  end.

(** The inputs the cell is written for: the band depth of group 1 is
    present, and every row of the table has one entry per mineral name and
    belongs to a group whose two layers have the shape of the grid. *)
Definition well_formed (ds : Dataset) (names : list string) (tbl : DataFrame)
    : bool :=
  match ds !! "group_1_band_depth" with
  | Some depth =>
      forallb (λ r, bool_decide (length (abundances r) = length names)
                    && good ds (shape depth) r) tbl
  | None => false
  end.

(** The update [(m, c)] raises nothing on a grid of shape [s]: its row is
    in the table and its right-hand side fits the grid. *)
Definition runnable (ds : Dataset) (tbl : DataFrame) (s : nat * nat)
    (u : nat * nat) : bool :=
  match tbl !! u.2 with
  | Some r => fits ds s r u.1
  | None => false
  end.

(** The value of the result at (i, j) for band [k], inside its shape. *)
Definition result_at (o : outcome) (i j k : nat) : option num :=
  match o with
  | Done out =>
      if bool_decide (i < (shape3 out).1.1 ∧ j < (shape3 out).1.2
                      ∧ k < (shape3 out).2)
      then Some (item3 out i j k) else None
  | Raised _ _ => None
  end.

(** ** Finished runs and totals *)

(** The finished array, as nested lists. *)
Definition finished (o : outcome) : option (list (list (list num))) :=
  match o with Done out => Some (tolist3 out) | Raised _ _ => None end.

(** The exception, and the array as the loops left it. *)
Definition left_behind (o : outcome)
    : option (exn * option (list (list (list num)))) :=
  match o with
  | Done _ => None
  | Raised e partial => Some (e, tolist3 <$> partial)
  end.

(** The paired layers of some group differ in shape. *)
Definition mismatched (ds : Dataset) (group : Z) : bool :=
  match ds !! mineral_id_var group, ds !! band_depth_var group with
  | Some ids, Some depth => negb (bool_decide (shape ids = shape depth))
  | _, _ => false
  end.

(** The total of the values of a cell over [n] minerals. *)
Definition total (n : nat) (value : nat → num) : num :=
  sum_list (value <$> seq 0 n).

(** A sample that is a number and not negative. *)
Definition nonneg (x : num) : Prop :=
  match x with Fin q => (0 ≤ q)%Qc | NaN => False end.

(** The single row of the example: library entry 5 of group 1 with weight
    2 for the first mineral and no entry for the [n] others. *)
Definition single_row (n : nat) : grouping :=
  mk_grouping 5 1 (of_Z 2 :: replicate n NaN).

(** ** Scenes and tables for the examples *)

(** One cell in which group 1 finds library entry 5 with band depth 4. *)
Definition scene_cell : Dataset :=
  {[ "group_1_mineral_id" := array NaN [[of_Z 5]];
     "group_1_band_depth" := array NaN [[of_Z 4]] ]}.

(** A row of two cells, read by group 1 only: entry 5 with band depth 3,
    then entry 7 with band depth 1. *)
Definition scene_row : Dataset :=
  {[ "group_1_mineral_id" := array NaN [[of_Z 5; of_Z 7]];
     "group_1_band_depth" := array NaN [[of_Z 3; of_Z 1]] ]}.

(** A one-cell scene: group 1 finds library entry 5 with band depth 3,
    group 2 finds nothing and has no band depth. *)
Definition scene_nan_depth : Dataset :=
  {[ "group_1_mineral_id" := array NaN [[of_Z 5]];
     "group_1_band_depth" := array NaN [[of_Z 3]];
     "group_2_mineral_id" := array NaN [[of_Z 0]];
     "group_2_band_depth" := array NaN [[NaN]] ]}.

(** A row of two cells after orthorectification: the first cell is a fill
    cell in both groups, the second holds entry 5 (group 1) and entry 9
    (group 2). *)
Definition scene_with_fill : Dataset :=
  fill_to_nan
    {[ "group_1_mineral_id" := array NaN [[of_Z (-9999); of_Z 5]];
       "group_1_band_depth" := array NaN [[of_Z (-9999); of_Z 3]];
       "group_2_mineral_id" := array NaN [[of_Z (-9999); of_Z 9]];
       "group_2_band_depth" := array NaN [[of_Z (-9999); of_Z 4]] ]}.

(** A grid of two rows and two columns on which the band depth of group 2
    has three columns, one more than its id layer. *)
Definition scene_mismatched : Dataset :=
  {[ "group_1_mineral_id" := array NaN [[of_Z 5; of_Z 7]; [of_Z 7; of_Z 7]];
     "group_1_band_depth" := array NaN [[of_Z 3; of_Z 1]; [of_Z 1; of_Z 1]];
     "group_2_mineral_id" := array NaN [[of_Z 9; of_Z 9]; [of_Z 9; of_Z 9]];
     "group_2_band_depth" :=
       array NaN [[of_Z 4; of_Z 4; of_Z 4]; [of_Z 4; of_Z 4; of_Z 4]] ]}.

(** Entry 5 of group 1 with weight 2, entry 9 of group 2 with weight 1. *)
Definition table_two_groups : DataFrame :=
  [ mk_grouping 5 1 [of_Z 2]; mk_grouping 9 2 [of_Z 1] ].

(** Entry 5 of group 1 counts for the first mineral, entry 9 of group 2
    for the second. *)
Definition table_two_minerals : DataFrame :=
  [ mk_grouping 5 1 [of_Z 2; NaN]; mk_grouping 9 2 [NaN; of_Z 1] ].

(** An id layer with a missing cell, and an abundance with one. *)
Definition scene_to_export : Dataset :=
  {[ "group_1_mineral_id" := array NaN [[of_Z 5; NaN]];
     "group_1_band_depth" := array NaN [[of_Z 3; NaN]] ]}.

Definition abundance_to_export : Dataset :=
  mineral_abundance_xarray ["Calcite"; "Hematite"]
    (mk_ndarray3 (1, 2, 2)
       (λ _ j k, if decide (j = 0) then of_Z (Z.of_nat k + 6) else NaN)).

(** A source of two rows and two columns. *)
Definition source_2x2 : ndarray num :=
  array NaN [[of_Z 10; of_Z 11]; [of_Z 12; of_Z 13]].

(** An index map of one row: a valid entry, a no-source marker, and an
    entry that points outside a source of two rows and two columns. *)
Definition glt_row : ndarray (Z * Z) :=
  array (0, 0)%Z [[(2, 1)%Z; (0, 0)%Z; (3, 1)%Z]].

(** ** The total abundance (section 3.1) *)



(** A sample that is NaN or a number that is not negative. *)
Definition nan_or_nonneg (x : num) : Prop :=
  match x with Fin q => (0 ≤ q)%Qc | NaN => True end.

(** ** The lists of granule URLs (section 1.2) *)

Definition newline : Ascii.ascii := Ascii.ascii_of_nat 10.

(** The lines of a text file as iterating over the file yields them: each
    line with its newline, the last one without when the text does not end
    in a newline.  The text is taken as [open] decodes it, line ends
    already translated to a newline. *)
Fixpoint readlines (text : string) : list string :=
  match text with
  | "" => []
  | String c text =>
      if decide (c = newline) then String c "" :: readlines text
      else
        match readlines text with
        | [] => [String c ""]
        | line :: lines => String c line :: lines
        end
  end.

(** [s.rstrip(c)] for a single character [c]: every trailing [c] is
    removed. *)
Fixpoint rstrip (c : Ascii.ascii) (s : string) : string :=
  match s with
  | "" => ""
  | String x s =>
      match rstrip c s with
      | "" => if decide (x = c) then "" else String x ""
      | t => String x t
      end
  end.

(** [[line.rstrip('\n') for line in f]] *)
Definition min_urls (text : string) : list string :=
  rstrip newline <$> readlines text.

(** [fs.open(min_urls[0])]: the URL that is opened. *)
Definition first_url (text : string) : result string :=
  or_raise IndexError (min_urls text !! 0).

(** ** The table of library entries (section 2) *)

(** A row of [min_df]: the columns the dictionary of the No_Match row
    names. *)
Record entry : Type := mk_entry {
  index : Z;
  mineral_name : string;
  record : num;
  url : string;
  group : num;
  library : string;
  spatial_ref : Z;
}.

(** A pandas frame: its rows, each with its index label. *)
Abbreviation frame := (list (Z * entry)).

(** [pd.DataFrame(columns)]: the rows are labelled 0, 1, ... *)
Definition range_index (rows : list entry) : frame :=
  imap (λ i row, (Z.of_nat i, row)) rows.

(** [df.loc[label] = row]: the rows that carry the label are overwritten;
    without such a row the frame is enlarged by one row at its end. *)
Definition loc_set (label : Z) (row : entry) (df : frame) : frame :=
  if bool_decide (label ∈ df.*1)
  then (λ p, if bool_decide (p.1 = label) then (label, row) else p) <$> df
  else df ++ [(label, row)].

(** [df.sort_index()]: the rows in the order of their labels (an insertion
    sort; on distinct labels every sort gives this order). *)
Fixpoint insert_row (p : Z * entry) (df : frame) : frame :=
  match df with
  | [] => [p]
  | q :: df => if decide (p.1 ≤ q.1)%Z then p :: q :: df else q :: insert_row p df
  end.

Definition sort_index (df : frame) : frame := foldr insert_row [] df.

(** [df.reset_index(drop=True)] *)
Definition reset_index (df : frame) : frame := range_index df.*2.

Definition No_Match : entry :=
  mk_entry 0 "No_Match" (of_Z (-1)) "NA" (of_Z 1) "NA" 0.

(** [min_df], from the entries of the granule's library in their order. *)
Definition min_df (reference : list entry) : frame :=
  let min_df := range_index reference in
  let min_df := loc_set (-1) No_Match min_df in
  reset_index (sort_index min_df).

(** ** The band depth of one mineral (sections 2.2 and 2.3) *)

(** [sep in s] *)
Fixpoint contains (sep s : string) : bool :=
  String.prefix sep s
  || match s with "" => false | String _ s => contains sep s end.

(** The pieces of [s] between the occurrences of a non-empty [sep], found
    from the left; [skip] counts the characters of an occurrence that are
    still to be passed over. *)
Fixpoint split_go (sep : string) (skip : nat) (s : string) : list string :=
  match skip, s with
  | _, "" => [""]
  | S skip, String _ s => split_go sep skip s
  | 0, String c s' =>
      if String.prefix sep s
      then "" :: split_go sep (String.length sep - 1) s'
      else
        match split_go sep 0 s' with
        | [] => []
        | piece :: pieces => String c piece :: pieces
        end
  end.

(** [s.split(sep)] *)
Definition split (sep s : string) : result (list string) :=
  if decide (sep = "") then Raise ValueError else Ok (split_go sep 0 s).

(** The label of a mineral in the dropdown list, from the text [percent]
    that [str] gives for its share of the scene. *)
Definition dropdown_name (percent x : string) : string :=
  percent +:+ " %: " +:+ x.

(** [x.split(' %:')[0]] *)
Definition percent_of (x : string) : result string :=
  pieces ← split " %:" x; or_raise IndexError (head pieces).

(** [min_select.split('%: ')[-1]] *)
Definition selected_name (min_select : string) : result string :=
  pieces ← split "%: " min_select; or_raise IndexError (last pieces).

(** [l.index(x)]: the first position of [x] in [l]. *)
Definition list_index (x : string) (l : list string) : result nat :=
  or_raise ValueError (fst <$> list_find (λ y, y = x) l).

(** [a.where(cond)]: the samples at which [cond] holds, NaN elsewhere.
    The two arrays are variables of datasets on one grid. *)
Definition where_ (a : ndarray num) (cond : ndarray bool)
    : result (ndarray num) :=
  map2 (λ v (b : bool), if b then v else NaN) a cond.

(** [mask] of [min_browse] *)
Definition min_browse (ds_min : Dataset) (min_df : frame) (min_select : string)
    : result (ndarray num) :=
  depth ← or_raise KeyError (ds_min !! "group_1_band_depth");
  ids ← or_raise KeyError (ds_min !! "group_1_mineral_id");
  name ← selected_name min_select;
  k ← list_index name (mineral_name <$> min_df.*2);
  where_ depth (map_scalar (λ v, eqb v (of_Z (Z.of_nat k))) ids).

(** [mask] of [min_browse_g2] *)
Definition min_browse_g2 (ds_min : Dataset) (min_df : frame)
    (min_select : string) : result (ndarray num) :=
  depth ← or_raise KeyError (ds_min !! "group_2_band_depth");
  ids ← or_raise KeyError (ds_min !! "group_2_mineral_id");
  name ← selected_name min_select;
  k ← list_index name (mineral_name <$> min_df.*2);
  where_ depth (map_scalar (λ v, eqb v (of_Z (Z.of_nat k))) ids).

(** [mask] of [min_browse_fit_g2]: the fit of group 1, scaled by two. *)
Definition min_browse_fit_g2 (ds_min_unc ds_min : Dataset) (min_df : frame)
    (min_select : string) : result (ndarray num) :=
  fit ← or_raise KeyError (ds_min_unc !! "group_1_fit");
  ids ← or_raise KeyError (ds_min !! "group_1_mineral_id");
  name ← selected_name min_select;
  k ← list_index name (mineral_name <$> min_df.*2);
  mask ← where_ fit (map_scalar (λ v, eqb v (of_Z (Z.of_nat k))) ids);
  Ok (map_scalar (λ v, mul v (of_Z 2)) mask).

(** ** The columns of the weight table (section 3) *)

(** [[x for _x, x in enumerate(columns) if p _x]] *)
Definition columns_where (p : nat → bool) (columns : list string)
    : list string :=
  (imap (λ _x x, (_x, x)) columns) ≫= (λ c, if p c.1 then [c.2] else []).

(** [df.drop(labels, axis=1)], on the column labels: every column that
    carries one of the labels goes; [KeyError] for a label that no column
    carries. *)
Definition drop_columns (labels columns : list string)
    : result (list string) :=
  if forallb (λ x, bool_decide (x ∈ columns)) labels
  then Ok (filter (λ x, x ∉ labels) columns)
  else Raise KeyError.

(** The column labels of [mineral_groupings] after the experimental
    columns are dropped, and [mineral_names]; [frame_columns] are the
    column labels of the frame [pd.read_csv] has returned. *)
Definition kept_columns (frame_columns : list string) : result (list string) :=
  drop_columns (columns_where (λ _x, bool_decide (17 ≤ _x)) frame_columns)
               frame_columns.

Definition mineral_names (frame_columns : list string) : result (list string) :=
  columns ← kept_columns frame_columns;
  Ok (columns_where (λ _x, bool_decide (6 < _x) && bool_decide (_x < 17))
                    columns).

(** ** Further scenes for the examples *)

(** A row of two cells as orthorectification leaves it: a fill cell, then
    entry 5 with band depth 3. *)
Definition scene_orthorectified : Dataset :=
  {[ "group_1_mineral_id" := array NaN [[of_Z (-9999); of_Z 5]];
     "group_1_band_depth" := array NaN [[of_Z (-9999); of_Z 3]] ]}.

(** [mask] holds the samples of [layer] at the cells of the grid whose id
    is [id], and NaN at the others. *)
Definition keeps (mask layer ids : ndarray num) (id : Z) : Prop :=
  shape mask = shape layer
  ∧ ∀ i j, i < (shape layer).1 → j < (shape layer).2 →
      item mask i j
      = if eqb (item ids i j) (of_Z id) then item layer i j else NaN.

(** A row of two cells read by both groups, the fit of group 1 on the same
    row, and a library of two entries. *)
Definition scene_two_groups : Dataset :=
  {[ "group_1_mineral_id" := array NaN [[of_Z 2; of_Z 1]];
     "group_1_band_depth" := array NaN [[of_Z 3; of_Z 4]];
     "group_2_mineral_id" := array NaN [[of_Z 0; of_Z 2]];
     "group_2_band_depth" := array NaN [[NaN; of_Z 5]] ]}.

Definition scene_fit : Dataset :=
  {[ "group_1_fit" := array NaN [[of_Z 1; of_Z 1]] ]}.

Definition library_two_entries : list entry :=
  [ mk_entry 1 "Hematite" (of_Z 11) "u1" (of_Z 1) "lib" 0;
    mk_entry 2 "Calcite" (of_Z 12) "u2" (of_Z 2) "lib" 0 ].

(** ** The aggregation cell in float64

    The cell of section 3.1 once more, on IEEE 754 binary64 samples with
    their rounding, signed zeros and infinities: the arithmetic is that of
    [SpecFloat] (round to nearest, ties to even).  The layers and the
    weights are float64 arrays.  Arrays, exceptions, broadcasting and the
    loop are those of the sections above. *)

Module F64.
Import SpecFloat.

Abbreviation float := spec_float.

Global Instance float_eq_dec : EqDecision float.
Proof. solve_decision. Defined.

(** [np.isnan] *)
Definition isnan (x : float) : bool :=
  match x with S754_nan => true | _ => false end.

(** [x + y], [x * y] and [x == y] on float64. *)
Definition add : float → float → float := SFadd 53 1024.
Definition mul : float → float → float := SFmul 53 1024.
Definition eqb : float → float → bool := SFeqb.

(** An integer as a float64 (rounded to the nearest one). *)
Definition of_Z (z : Z) : float := binary_normalize 53 1024 z 0 false.

(** A boolean promoted to a float, as in [mask * values]. *)
Definition of_bool (b : bool) : float := if b then of_Z 1 else of_Z 0.

(** The (y, x, band) array [mineral_abundance]. *)
Record ndarray3 : Type := mk_ndarray3 {
  shape3 : nat * nat * nat;
  item3 : nat → nat → nat → float;
}.

Definition tolist3 (a : ndarray3) : list (list (list float)) :=
  (λ i, (λ j, (λ k, item3 a i j k) <$> seq 0 (shape3 a).2)
          <$> seq 0 (shape3 a).1.2) <$> seq 0 (shape3 a).1.1.

(** [np.zeros((h, w, n))] *)
Definition zeros (h w n : nat) : ndarray3 :=
  mk_ndarray3 (h, w, n) (λ _ _ _, of_Z 0).

(** [acc[..., m] += rhs] *)
Definition iadd_band (acc : ndarray3) (m : nat) (rhs : ndarray float)
    : result ndarray3 :=
  if broadcastable_to (shape rhs) (shape3 acc).1 then
    Ok (mk_ndarray3 (shape3 acc) (λ i j k,
          if decide (k = m)
          then add (item3 acc i j k)
                   (item rhs (stretch (shape rhs).1 i) (stretch (shape rhs).2 j))
          else item3 acc i j k))
  else Raise ValueError.

(** [ds_min] and the rows of [mineral_groupings], on float64 samples. *)
Abbreviation Dataset := (gmap string (ndarray float)).

Record grouping : Type := mk_grouping {
  Index : Z;
  Group : Z;
  abundances : list float;
}.

Abbreviation DataFrame := (list grouping).

(** [mineral_abundance_ref[np.isnan(mineral_abundance_ref)] = 0] *)
Definition nan_to_zero (x : float) : float := if isnan x then of_Z 0 else x.

(** [mineral_abundance_ref[mineral_abundance_ref == -1] = 1] *)
Definition sentinel_to_one (x : float) : float :=
  if eqb x (of_Z (-1)) then of_Z 1 else x.

Definition mineral_abundance_ref (mineral_groupings : DataFrame)
    : list (list float) :=
  fmap sentinel_to_one
    <$> (fmap nan_to_zero <$> (abundances <$> mineral_groupings)).

(** [mineral_abundance[np.isnan(mineral_abundance)] = 0] *)
Definition clean (acc : ndarray3) : ndarray3 :=
  mk_ndarray3 (shape3 acc) (λ i j k, nan_to_zero (item3 acc i j k)).

(** [np.all(mineral_abundance == 0, axis=-1)] at the cell (i, j) *)
Definition all_zero (acc : ndarray3) (i j : nat) : bool :=
  forallb (λ k, eqb (item3 acc i j k) (of_Z 0)) (seq 0 (shape3 acc).2).

(** [mineral_abundance[np.all(mineral_abundance == 0, axis=-1),:] = np.nan] *)
Definition mark_missing (acc : ndarray3) : ndarray3 :=
  mk_ndarray3 (shape3 acc) (λ i j k,
    if all_zero acc i j then S754_nan else item3 acc i j k).

Inductive outcome : Type :=
  | Done (out : ndarray3)
  | Raised (e : exn) (partial : option ndarray3).

Section aggregation.
Context (ds_min : Dataset) (mineral_names : list string)
        (mineral_groupings : DataFrame).

(** The right-hand side of the update for mineral [_m] and row [_c];
    [None] when the row has no entry for the mineral and is skipped. *)
Definition row_term (_m _c : nat) : result (option (ndarray float)) :=
  row ← or_raise KeyError (mineral_groupings !! _c);
  entry ← or_raise KeyError (abundances row !! _m);
  if isnan entry then Ok None
  else
    let group := Group row in
    ids ← or_raise KeyError (ds_min !! mineral_id_var group);
    let mask := map_scalar (λ v, eqb v (of_Z (Index row))) ids in
    depth ← or_raise KeyError (ds_min !! band_depth_var group);
    masked ← map2 (λ b v, mul (of_bool b) v) mask depth;
    ref_row ← or_raise IndexError (mineral_abundance_ref mineral_groupings !! _c);
    weight ← or_raise IndexError (ref_row !! _m);
    Ok (Some (map_scalar (λ v, mul v weight) masked)).

(** The body of the inner loop. *)
Definition body (_m _c : nat) (acc : ndarray3) : result ndarray3 :=
  rhs ← row_term _m _c;
  match rhs with
  | None => Ok acc
  | Some rhs => iadd_band acc _m rhs
  end.

(** The two nested loops of the cell. *)
Definition accumulate (acc : ndarray3) : ndarray3 * option exn :=
  for_each (λ _m,
      for_each (λ _c, attempt (body _m _c))
               (seq 0 (length mineral_groupings)))
    (seq 0 (length mineral_names)) acc.

(** The whole cell: allocation, the loops, the two replacements. *)
Definition mineral_abundance : outcome :=
  match ds_min !! "group_1_band_depth" with
  | None => Raised KeyError None
  | Some depth =>
      let acc := zeros (shape depth).1 (shape depth).2 (length mineral_names) in
      match accumulate acc with
      | (acc, Some e) => Raised e (Some acc)
      | (acc, None) => Done (mark_missing (clean acc))
      end
  end.
End aggregation.

(** *** Reading the float64 cell by cell *)

(** The finished array, as nested lists. *)
Definition finished (o : outcome) : option (list (list (list float))) :=
  match o with Done out => Some (tolist3 out) | Raised _ _ => None end.

(** A zero of either sign; a sample that is neither NaN nor infinite. *)
Definition is_zero (x : float) : bool :=
  match x with S754_zero _ => true | _ => false end.

Definition isfinite (x : float) : bool :=
  match x with S754_zero _ | S754_finite _ _ _ => true | _ => false end.

(** [spec_float] also holds pairs of a mantissa and an exponent that are no
    binary64 value; this holds of the binary64 values. *)
Definition is_float64 (x : float) : bool := valid_binary 53 1024 x.

(** Two samples are the same float64 value: equal, or zeros of either
    sign. *)
Definition same (x y : float) : Prop :=
  x = y ∨ (is_zero x = true ∧ is_zero y = true).

(** The sample of a variable at a cell (NaN when the variable is absent). *)
Definition layer (ds : Dataset) (var : string) (i j : nat) : float :=
  match ds !! var with Some a => item a i j | None => S754_nan end.

(** The row has an entry (a defined weight) for mineral [m]. *)
Definition has_entry (r : grouping) (m : nat) : bool :=
  match abundances r !! m with Some e => negb (isnan e) | None => false end.

(** The resolved weight of the row for mineral [m]. *)
Definition weight (r : grouping) (m : nat) : float :=
  sentinel_to_one (nan_to_zero (default S754_nan (abundances r !! m))).

(** The id layer of the row's group holds the row's index at the cell. *)
Definition matches (ds : Dataset) (r : grouping) (i j : nat) : bool :=
  eqb (layer ds (mineral_id_var (Group r)) i j) (of_Z (Index r)).

(** The band depth of the row's group at the cell. *)
Definition magnitude (ds : Dataset) (r : grouping) (i j : nat) : float :=
  layer ds (band_depth_var (Group r)) i j.

(** What one update adds at a cell: [(ids == Index) * depth * weight]. *)
Definition term (ds : Dataset) (r : grouping) (m i j : nat) : float :=
  mul (mul (of_bool (matches ds r i j)) (magnitude ds r i j)) (weight r m).

(** The right-hand side of the update of row [r] for mineral [m], read from
    the row itself. *)
Definition rhs_of (ds : Dataset) (r : grouping) (m : nat)
    : result (option (ndarray float)) :=
  entry ← or_raise KeyError (abundances r !! m);
  if isnan entry then Ok None
  else
    ids ← or_raise KeyError (ds !! mineral_id_var (Group r));
    depth ← or_raise KeyError (ds !! band_depth_var (Group r));
    masked ← map2 (λ b v, mul (of_bool b) v)
                  (map_scalar (λ v, eqb v (of_Z (Index r))) ids) depth;
    Ok (Some (map_scalar (λ v, mul v (weight r m)) masked)).

(** The update of row [r] for mineral [m] raises nothing on a grid of
    shape [s]. *)
Definition fits (ds : Dataset) (s : nat * nat) (r : grouping) (m : nat) : bool :=
  match rhs_of ds r m with
  | Ok (Some rhs) => broadcastable_to (shape rhs) s
  | Ok None => true
  | Raise _ => false
  end.

(** What the update of row [r] for mineral [m] adds at the cell (i, j), if
    it adds anything. *)
Definition added (ds : Dataset) (m i j : nat) (r : grouping) : option float :=
  match rhs_of ds r m with
  | Ok (Some rhs) =>
      Some (item rhs (stretch (shape rhs).1 i) (stretch (shape rhs).2 j))
  | _ => None
  end.

(** The terms the rows add at (i, j) for mineral [m], in the order of the
    table, and a sum of float64 terms taken from left to right from 0.0. *)
Definition terms (ds : Dataset) (tbl : DataFrame) (m i j : nat) : list float :=
  omap (added ds m i j) tbl.

Definition sum_list (xs : list float) : float := foldl add (of_Z 0) xs.


(** The effect of the update [(m, c)] on the value at (i, j, k). *)
Definition update_cell (ds : Dataset) (tbl : DataFrame) (i j k : nat)
    (a : float) (u : nat * nat) : float :=
  match tbl !! u.2 with
  | Some r =>
      if decide (k = u.1)
      then match added ds k i j r with Some t => add a t | None => a end
      else a
  | None => a
  end.

(** The update [(m, c)] raises nothing on a grid of shape [s]. *)
Definition runnable (ds : Dataset) (tbl : DataFrame) (s : nat * nat)
    (u : nat * nat) : bool :=
  match tbl !! u.2 with
  | Some r => fits ds s r u.1
  | None => false
  end.

(** The value the cell reports at (i, j) for mineral [k], from the
    accumulated values of all [n] minerals. *)
Definition reported (n : nat) (acc : nat → float) (k : nat) : float :=
  if forallb (λ m, eqb (nan_to_zero (acc m)) (of_Z 0)) (seq 0 n) then S754_nan
  else nan_to_zero (acc k).

(** The rows with an entry for the mineral whose index is found at the
    cell, and the float64 sum, in the order of the table, of the products
    [depth * weight] of these rows. *)
Definition matching_rows (ds : Dataset) (tbl : DataFrame) (m i j : nat)
    : list grouping :=
  filter (λ r, has_entry r m && matches ds r i j) tbl.

Definition weighted_sum (ds : Dataset) (tbl : DataFrame) (m i j : nat) : float :=
  sum_list ((λ r, mul (magnitude ds r i j) (weight r m))
              <$> matching_rows ds tbl m i j).

(** At the cell, every row that has an entry for the mineral and does not
    match has a finite band depth and a finite weight: what it adds is
    [0.0 * depth * weight], a zero.  (The band depth of a row that matches
    is a binary64 value.) *)
Definition others_finite (ds : Dataset) (tbl : DataFrame) (m i j : nat) : bool :=
  forallb (λ r, negb (has_entry r m)
                || if matches ds r i j then is_float64 (magnitude ds r i j)
                   else isfinite (magnitude ds r i j) && isfinite (weight r m))
          tbl.


(** A layer is present and has the shape [s]. *)
Definition has_shape (s : nat * nat) (o : option (ndarray float)) : bool :=
  match o with Some a => bool_decide (shape a = s) | None => false end.

Definition good (ds : Dataset) (s : nat * nat) (r : grouping) : bool :=
  has_shape s (ds !! mineral_id_var (Group r))
  && has_shape s (ds !! band_depth_var (Group r)).

(** The shape of the output grid: that of the band depth of group 1. *)
Definition grid (ds : Dataset) : nat * nat :=
  match ds !! "group_1_band_depth" with
  | Some depth => shape depth
  | None => (0, 0)
  end.

(** The inputs the cell is written for: the band depth of group 1 is
    present, and every row of the table has one entry per mineral name and
    belongs to a group whose two layers have the shape of the grid. *)
Definition well_formed (ds : Dataset) (names : list string) (tbl : DataFrame)
    : bool :=
  match ds !! "group_1_band_depth" with
  | Some depth =>
      forallb (λ r, bool_decide (length (abundances r) = length names)
                    && good ds (shape depth) r) tbl
  | None => false
  end.

(** A scene of one cell: library entry 5 of group 1 with band depth 1.0. *)
Definition scene_unit : Dataset :=
  {[ "group_1_mineral_id" := array S754_nan [[of_Z 5]];
     "group_1_band_depth" := array S754_nan [[of_Z 1]] ]}.

(** A row of two cells, read by group 1 only: entry 5 with band depth 3,
    then entry 7 with band depth 1. *)
Definition scene_row : Dataset :=
  {[ "group_1_mineral_id" := array S754_nan [[of_Z 5; of_Z 7]];
     "group_1_band_depth" := array S754_nan [[of_Z 3; of_Z 1]] ]}.

(** A one-cell scene: group 1 finds library entry 5 with band depth 3,
    group 2 finds nothing and has no band depth. *)
Definition scene_nan_depth : Dataset :=
  {[ "group_1_mineral_id" := array S754_nan [[of_Z 5]];
     "group_1_band_depth" := array S754_nan [[of_Z 3]];
     "group_2_mineral_id" := array S754_nan [[of_Z 0]];
     "group_2_band_depth" := array S754_nan [[S754_nan]] ]}.

(** Entry 5 of group 1 with weight 2, entry 9 of group 2 with weight 1. *)
Definition table_two_groups : DataFrame :=
  [ mk_grouping 5 1 [of_Z 2]; mk_grouping 9 2 [of_Z 1] ].

(** Entry 5 of group 1 counts for the first mineral, entry 9 of group 2
    for the second. *)
Definition table_two_minerals : DataFrame :=
  [ mk_grouping 5 1 [of_Z 2; S754_nan]; mk_grouping 9 2 [S754_nan; of_Z 1] ].




Definition table_cancelling : DataFrame :=
  [ mk_grouping 5 1 [of_Z 9007199254740992]; mk_grouping 5 1 [of_Z 1];
    mk_grouping 5 1 [of_Z (-9007199254740992)] ].



End F64.

(** * Properties *)

(** Closed goals are settled by evaluation. *)
Ltac by_compute :=
  first [ vm_compute; reflexivity
        | apply (bool_decide_unpack _); vm_compute; exact I ].

(** ** Arithmetic of samples *)

Lemma of_Z_0 : of_Z 0 = Fin 0%Qc.
Proof. unfold of_Z. by rewrite Z2Qc_inj_0. Qed.

Lemma of_Z_1 : of_Z 1 = Fin 1%Qc.
Proof. unfold of_Z. by rewrite Z2Qc_inj_1. Qed.

Lemma add_comm x y : add x y = add y x.
Proof. destruct x, y; simpl; try done. by rewrite Qcplus_comm. Qed.

Lemma add_assoc x y z : add x (add y z) = add (add x y) z.
Proof. destruct x, y, z; simpl; try done. by rewrite Qcplus_assoc. Qed.

Lemma add_0_r x : add x (of_Z 0) = x.
Proof. rewrite of_Z_0. destruct x; simpl; try done. by rewrite Qcplus_0_r. Qed.

Lemma add_0_l x : add (of_Z 0) x = x.
Proof. by rewrite add_comm, add_0_r. Qed.

Lemma add_NaN_r x : add x NaN = NaN.
Proof. by destruct x. Qed.

Lemma mul_NaN_r x : mul x NaN = NaN.
Proof. by destruct x. Qed.

Lemma mul_0_l x : isnan x = false → mul (of_Z 0) x = of_Z 0.
Proof. rewrite of_Z_0. destruct x; simpl; try done. by rewrite Qcmult_0_l. Qed.

Lemma mul_1_l x : mul (of_Z 1) x = x.
Proof. rewrite of_Z_1. destruct x; simpl; try done. by rewrite Qcmult_1_l. Qed.

Lemma mul_1_r x : mul x (of_Z 1) = x.
Proof. rewrite of_Z_1. destruct x; simpl; try done. by rewrite Qcmult_1_r. Qed.


Lemma eqb_eq x y : eqb x y = true ↔ x = y ∧ isnan x = false.
Proof.
  destruct x as [a|], y as [b|]; simpl; rewrite ?bool_decide_eq_true;
    split; try done; try (by intros [? ?]).
  - by intros ->.
  - by intros [[= ->] _].
Qed.

Lemma nan_to_zero_Fin x : isnan x = false → nan_to_zero x = x.
Proof. unfold nan_to_zero. by intros ->. Qed.

Lemma isnan_nan_to_zero x : isnan (nan_to_zero x) = false.
Proof. by destruct x. Qed.

Lemma isnan_sentinel_to_one x : isnan (sentinel_to_one x) = isnan x.
Proof. unfold sentinel_to_one. destruct x; simpl; [by case_bool_decide | done]. Qed.

Lemma foldl_add a xs : foldl add a xs = add a (sum_list xs).
Proof.
  unfold sum_list. induction xs as [|x xs IH] using rev_ind.
  - by rewrite add_0_r.
  - by rewrite !foldl_app; cbn [foldl]; rewrite IH, add_assoc.
Qed.

Lemma sum_cons x xs : sum_list (x :: xs) = add x (sum_list xs).
Proof. unfold sum_list at 1. cbn [foldl]. by rewrite foldl_add, add_0_l. Qed.

(** ** Broadcasting of equal shapes *)

Lemma broadcast_shape_same s : broadcast_shape s s = Some s.
Proof.
  destruct s as [h w]. unfold broadcast_shape, broadcast_dim; simpl.
  by rewrite !decide_True.
Qed.

Lemma broadcastable_to_same s : broadcastable_to s s = true.
Proof. apply bool_decide_eq_true. naive_solver. Qed.

Lemma stretch_lt n i : i < n → stretch n i = i.
Proof. unfold stretch. case_decide; lia. Qed.

(** ** The update of one row *)

Lemma ref_lookup tbl c r m :
  tbl !! c = Some r →
  mineral_abundance_ref tbl !! c ≫= (.!! m)
  = (λ e, sentinel_to_one (nan_to_zero e)) <$> abundances r !! m.
Proof.
  intros Hr. unfold mineral_abundance_ref.
  rewrite !list_lookup_fmap, Hr. simpl.
  rewrite !list_lookup_fmap. by destruct (abundances r !! m).
Qed.

Lemma has_shape_Some s o :
  has_shape s o = true → ∃ a, o = Some a ∧ shape a = s.
Proof.
  destruct o as [a|]; simpl; [|done].
  intros H%bool_decide_eq_true. eauto.
Qed.

Lemma row_term_rhs_of ds tbl m c r :
  tbl !! c = Some r → row_term ds tbl m c = rhs_of ds r m.
Proof.
  intros Hr. pose proof (ref_lookup tbl c r m Hr) as Href.
  unfold row_term, rhs_of, masked_depth, weight. rewrite Hr. cbn.
  destruct (abundances r !! m) as [e|]; [|done]. cbn.
  destruct (isnan e); [done|].
  destruct (ds !! mineral_id_var (Group r)) as [ids|]; [|done]. cbn.
  destruct (ds !! band_depth_var (Group r)) as [depth|]; [|done]. cbn.
  destruct (map2 _ _ _) as [masked|]; [|done]. cbn.
  destruct (mineral_abundance_ref tbl !! c) as [ref_row|]; cbn in Href |- *;
    [|done].
  by rewrite Href.
Qed.

Lemma body_fits ds tbl s n m c r acc :
  tbl !! c = Some r → shape3 acc = (s, n) → fits ds s r m = true →
  ∃ acc', body ds tbl m c acc = Ok acc' ∧ shape3 acc' = (s, n) ∧
    ∀ i j k,
      item3 acc' i j k = update_cell ds tbl i j k (item3 acc i j k) (m, c).
Proof.
  intros Hr Hs Hfit. unfold body. rewrite (row_term_rhs_of _ _ _ _ _ Hr).
  unfold update_cell, addend, fits in *. cbn [fst snd]. rewrite Hr.
  destruct (rhs_of ds r m) as [[rhs|]|e] eqn:Hrhs; [| |done]; cbn.
  - unfold iadd_band. rewrite Hs. cbn [fst]. rewrite Hfit.
    eexists. split; [reflexivity|]. split; [reflexivity|].
    intros i j k. cbn. case_decide as Hk; [|done]. subst k. by rewrite Hrhs.
  - exists acc. split; [done|]. split; [done|].
    intros i j k. case_decide as Hk; [|done]. subst k.
    by rewrite Hrhs, add_0_r.
Qed.

Lemma body_unfit ds tbl s n m c acc :
  shape3 acc = (s, n) → runnable ds tbl s (m, c) = false →
  ∃ e, body ds tbl m c acc = Raise e.
Proof.
  intros Hs. unfold runnable, body. cbn [fst snd].
  destruct (tbl !! c) as [r|] eqn:Hr.
  - rewrite (row_term_rhs_of _ _ _ _ _ Hr). unfold fits.
    destruct (rhs_of ds r m) as [[rhs|]|e]; cbn; [|done|by eexists].
    intros Hfit. unfold iadd_band. rewrite Hs. cbn [fst]. rewrite Hfit.
    by eexists.
  - intros _. unfold row_term. rewrite Hr. by eexists.
Qed.

Lemma for_each_app {A S} (f : A → S → S * option exn) xs ys s :
  for_each f (xs ++ ys) s =
  match for_each f xs s with
  | (s', None) => for_each f ys s'
  | (s', Some e) => (s', Some e)
  end.
Proof.
  revert s. induction xs as [|x xs IH]; intros s; simpl; [done|].
  destruct (f x s) as [s' [e|]]; [done|]. apply IH.
Qed.

(** The nested loops run the updates in order. *)
Lemma accumulate_updates ds names tbl acc :
  accumulate ds names tbl acc =
  for_each (λ u, attempt (body ds tbl u.1 u.2))
           (updates (length names) (length tbl)) acc.
Proof.
  unfold accumulate, updates. generalize (seq 0 (length names)) as ms.
  intros ms. revert acc. induction ms as [|m ms IH]; intros acc; [done|].
  cbn [for_each mbind list_bind]. rewrite for_each_app.
  assert (∀ cs acc, for_each (λ _c, attempt (body ds tbl m _c)) cs acc
    = for_each (λ u, attempt (body ds tbl u.1 u.2))
               (cs ≫= λ _c, [(m, _c)]) acc) as ->.
  { clear. induction cs as [|c cs IH]; intros acc; [done|]. simpl.
    destruct (attempt _ _) as [s' [e|]]; [done|]. apply IH. }
  destruct (for_each _ _ acc) as [s' [e|]]; [done|]. apply IH.
Qed.

(** A run of updates that all fit: it finishes, and every cell has taken
    the updates in order. *)
Lemma for_each_updates ds tbl s n us acc :
  shape3 acc = (s, n) →
  Forall (λ u, runnable ds tbl s u = true) us →
  ∃ acc', for_each (λ u, attempt (body ds tbl u.1 u.2)) us acc = (acc', None)
    ∧ shape3 acc' = (s, n)
    ∧ ∀ i j k,
        item3 acc' i j k
        = foldl (update_cell ds tbl i j k) (item3 acc i j k) us.
Proof.
  intros Hs Hus. revert acc Hs.
  induction Hus as [|[m c] us Hu _ IH]; intros acc Hs.
  - by exists acc.
  - unfold runnable in Hu. cbn [fst snd] in Hu.
    destruct (tbl !! c) as [r|] eqn:Hr; [|done].
    destruct (body_fits ds tbl s n m c r acc Hr Hs Hu)
      as (acc1 & Hbody & Hs1 & Hcells).
    destruct (IH acc1 Hs1) as (acc' & Hrun & Hs' & Hcells').
    exists acc'. cbn [for_each]. unfold attempt at 1. simpl. rewrite Hbody.
    split; [done|]. split; [done|]. intros i j k.
    rewrite Hcells'. simpl. by rewrite Hcells.
Qed.

(** A run with an update that does not fit stops with an exception. *)
Lemma for_each_unfit ds tbl s n us acc :
  shape3 acc = (s, n) →
  forallb (runnable ds tbl s) us = false →
  ∃ acc' e,
    for_each (λ u, attempt (body ds tbl u.1 u.2)) us acc = (acc', Some e).
Proof.
  intros Hs Hus. revert acc Hs.
  induction us as [|[m c] us IH]; intros acc Hs; [done|].
  cbn [forallb] in Hus. cbn [for_each]. unfold attempt at 1. cbn [fst snd].
  destruct (runnable ds tbl s (m, c)) eqn:Hu.
  - unfold runnable in Hu. cbn [fst snd] in Hu.
    destruct (tbl !! c) as [r|] eqn:Hr; [|done].
    destruct (body_fits ds tbl s n m c r acc Hr Hs Hu) as (acc1 & -> & Hs1 & _).
    by apply IH.
  - destruct (body_unfit ds tbl s n m c acc Hs Hu) as [e ->]. by eexists _, _.
Qed.

Lemma foldl_add_addend ds k i j a tbl :
  foldl (λ a r, add a (addend ds r k i j)) a tbl
  = add a (accumulated ds tbl k i j).
Proof.
  unfold accumulated. rewrite <-foldl_add. by rewrite foldl_fmap.
Qed.

Lemma foldl_update_block ds i j k m pre suf a :
  foldl (update_cell ds (pre ++ suf) i j k) a
        (seq (length pre) (length suf) ≫= λ _c, [(m, _c)])
  = if decide (k = m)
    then foldl (λ a r, add a (addend ds r k i j)) a suf else a.
Proof.
  revert pre a. induction suf as [|r suf IH]; intros pre a.
  - simpl. by case_decide.
  - cbn [length seq mbind list_bind app foldl].
    replace (pre ++ r :: suf) with ((pre ++ [r]) ++ suf)
      by by rewrite <-app_assoc.
    replace (S (length pre)) with (length (pre ++ [r]))
      by (rewrite length_app; simpl; lia).
    rewrite IH. unfold update_cell. cbn [fst snd].
    rewrite <-app_assoc. cbn [app]. rewrite list_lookup_middle by done.
    by case_decide.
Qed.

Lemma updates_S n_minerals n_rows :
  updates (S n_minerals) n_rows
  = updates n_minerals n_rows ++ (seq 0 n_rows ≫= λ _c, [(n_minerals, _c)]).
Proof.
  unfold updates. rewrite seq_S, bind_app. simpl. by rewrite app_nil_r.
Qed.

Lemma foldl_updates ds tbl i j k a n_minerals :
  foldl (update_cell ds tbl i j k) a (updates n_minerals (length tbl))
  = if decide (k < n_minerals) then add a (accumulated ds tbl k i j) else a.
Proof.
  induction n_minerals as [|m IH].
  - done.
  - rewrite updates_S, foldl_app, IH.
    pose proof (foldl_update_block ds i j k m [] tbl) as Hb. simpl in Hb.
    rewrite Hb, foldl_add_addend.
    repeat case_decide; try lia; done.
Qed.

(** The updates all fit when every row fits for every mineral. *)
Lemma runnable_updates ds tbl s n :
  Forall (λ u, runnable ds tbl s u = true) (updates n (length tbl))
  ↔ ∀ m r, m < n → r ∈ tbl → fits ds s r m = true.
Proof.
  rewrite Forall_forall. split.
  - intros Hrun m r Hm [c Hc]%list_elem_of_lookup_1.
    specialize (Hrun (m, c)). unfold runnable in Hrun. cbn [fst snd] in Hrun.
    rewrite Hc in Hrun. apply Hrun.
    apply list_elem_of_bind. exists m. split; [|apply elem_of_seq; lia].
    apply list_elem_of_bind. exists c. split; [by apply list_elem_of_singleton|].
    apply elem_of_seq. apply lookup_lt_Some in Hc. lia.
  - intros Hfits [m c] Hu.
    apply list_elem_of_bind in Hu as (m' & Hu & Hm).
    apply list_elem_of_bind in Hu as (c' & Hu & Hc).
    apply list_elem_of_singleton in Hu as [= <- <-].
    apply elem_of_seq in Hm, Hc.
    destruct (lookup_lt_is_Some_2 tbl c) as [r Hr]; [lia|].
    unfold runnable. cbn [fst snd]. rewrite Hr.
    apply Hfits; [lia|]. by eapply list_elem_of_lookup_2.
Qed.

(** The loops when all updates fit: they finish, and have added at every
    cell what the rows add. *)
Lemma accumulate_runnable ds names tbl s acc :
  shape3 acc = (s, length names) →
  Forall (λ u, runnable ds tbl s u = true)
         (updates (length names) (length tbl)) →
  ∃ acc',
    accumulate ds names tbl acc = (acc', None)
    ∧ shape3 acc' = (s, length names)
    ∧ ∀ i j k,
        item3 acc' i j k
        = if decide (k < length names)
          then add (item3 acc i j k) (accumulated ds tbl k i j)
          else item3 acc i j k.
Proof.
  intros Hs Hrun. rewrite accumulate_updates.
  destruct (for_each_updates ds tbl _ _ _ _ Hs Hrun) as (acc' & -> & Hs' & Hcells).
  exists acc'. split; [done|]. split; [done|]. intros i j k.
  by rewrite Hcells, foldl_updates.
Qed.

(** *** Well-formed inputs *)

Lemma foldl_cell_step ds tbl m i j a :
  foldl (cell_step ds m i j) a tbl = foldl add a (contribution ds m i j <$> tbl).
Proof.
  revert a. induction tbl as [|r tbl IH]; intros a; [done|].
  cbn [foldl fmap list_fmap]. rewrite IH. f_equal.
  unfold cell_step, contribution. case_match; [done|]. by rewrite add_0_r.
Qed.

Lemma cell_acc_sum ds tbl m i j :
  cell_acc ds tbl m i j = sum_list (contribution ds m i j <$> tbl).
Proof. apply foldl_cell_step. Qed.

Lemma good_rhs_of ds s r m :
  good ds s r = true → m < length (abundances r) →
  (has_entry r m = false ∧ rhs_of ds r m = Ok None)
  ∨ (has_entry r m = true
     ∧ ∃ rhs, rhs_of ds r m = Ok (Some rhs) ∧ shape rhs = s
       ∧ ∀ i j, i < s.1 → j < s.2 → item rhs i j = term ds r m i j).
Proof.
  intros [(ids & Hids & Hsi)%has_shape_Some
          (depth & Hdepth & Hsd)%has_shape_Some]%andb_prop Hm.
  destruct (lookup_lt_is_Some_2 _ _ Hm) as [e He].
  unfold rhs_of, has_entry, masked_depth. rewrite He. cbn.
  destruct (isnan e); [by left|right]. split; [done|].
  rewrite Hids, Hdepth. cbn. unfold map2. cbn [map_scalar shape].
  rewrite Hsi, Hsd, broadcast_shape_same. cbn.
  eexists. split; [reflexivity|]. split; [done|]. intros i j Hi Hj. cbn.
  rewrite !stretch_lt by done.
  unfold term, matches, magnitude, layer. by rewrite Hids, Hdepth.
Qed.

Lemma good_fits ds s r m :
  good ds s r = true → m < length (abundances r) → fits ds s r m = true.
Proof.
  intros Hgood Hm. unfold fits.
  destruct (good_rhs_of ds s r m Hgood Hm)
    as [[_ ->]|(_ & rhs & -> & <- & _)]; [done|].
  apply broadcastable_to_same.
Qed.

Lemma good_addend ds s r m i j :
  good ds s r = true → m < length (abundances r) → i < s.1 → j < s.2 →
  addend ds r m i j = contribution ds m i j r.
Proof.
  intros Hgood Hm Hi Hj. unfold addend, contribution.
  destruct (good_rhs_of ds s r m Hgood Hm)
    as [[-> ->]|(-> & rhs & -> & Hs & Hitem)]; [done|].
  rewrite Hs, !stretch_lt by done. by apply Hitem.
Qed.

Lemma well_formed_rows ds names tbl depth r :
  ds !! "group_1_band_depth" = Some depth →
  well_formed ds names tbl = true → r ∈ tbl →
  length (abundances r) = length names ∧ good ds (shape depth) r = true.
Proof.
  intros Hd Hwf Hr. unfold well_formed in Hwf. rewrite Hd in Hwf.
  rewrite forallb_forall in Hwf. apply list_elem_of_In, Hwf in Hr.
  by apply andb_prop in Hr as [Hlen%bool_decide_eq_true Hgood].
Qed.

Lemma well_formed_runnable ds names tbl depth :
  ds !! "group_1_band_depth" = Some depth →
  well_formed ds names tbl = true →
  Forall (λ u, runnable ds tbl (shape depth) u = true)
         (updates (length names) (length tbl)).
Proof.
  intros Hd Hwf. apply runnable_updates. intros m r Hm Hr.
  destruct (well_formed_rows ds names tbl depth r Hd Hwf Hr) as [Hlen Hgood].
  apply good_fits; [done|lia].
Qed.

Lemma well_formed_accumulated ds names tbl depth k i j :
  ds !! "group_1_band_depth" = Some depth →
  well_formed ds names tbl = true →
  i < (shape depth).1 → j < (shape depth).2 → k < length names →
  accumulated ds tbl k i j = cell_acc ds tbl k i j.
Proof.
  intros Hd Hwf Hi Hj Hk. rewrite cell_acc_sum. unfold accumulated. f_equal.
  apply list_fmap_ext. intros c r Hr%list_elem_of_lookup_2.
  destruct (well_formed_rows ds names tbl depth r Hd Hwf Hr) as [Hlen Hgood].
  apply (good_addend ds (shape depth)); [done|lia|done..].
Qed.

(** The loops on well-formed inputs: they finish, and leave at every cell
    the accumulated value. *)
Lemma accumulate_cells ds names tbl depth :
  ds !! "group_1_band_depth" = Some depth →
  well_formed ds names tbl = true →
  ∃ acc,
    accumulate ds names tbl
      (zeros (shape depth).1 (shape depth).2 (length names)) = (acc, None)
    ∧ shape3 acc = (shape depth, length names)
    ∧ ∀ i j k, i < (shape depth).1 → j < (shape depth).2 → k < length names →
        item3 acc i j k = cell_acc ds tbl k i j.
Proof.
  intros Hd Hwf.
  assert (shape3 (zeros (shape depth).1 (shape depth).2 (length names))
          = (shape depth, length names)) as Hs0 by by destruct (shape depth).
  destruct (accumulate_runnable ds names tbl _ _ Hs0
              (well_formed_runnable ds names tbl depth Hd Hwf))
    as (acc & Hrun & Hs & Hcells).
  exists acc. split; [done|]. split; [done|]. intros i j k Hi Hj Hk.
  rewrite Hcells, decide_True by done. cbn [zeros item3]. rewrite add_0_l.
  by apply (well_formed_accumulated ds names tbl depth).
Qed.

(** ** The shape of the accumulator *)

Lemma iadd_band_shape acc m rhs acc' :
  iadd_band acc m rhs = Ok acc' → shape3 acc' = shape3 acc.
Proof. unfold iadd_band. case_match; [|done]. by intros [= <-]. Qed.

Lemma body_shape ds tbl m c acc acc' :
  body ds tbl m c acc = Ok acc' → shape3 acc' = shape3 acc.
Proof.
  unfold body. destruct (row_term ds tbl m c) as [[rhs|]|e]; simpl.
  - apply iadd_band_shape.
  - by intros [= <-].
  - done.
Qed.

Lemma for_each_shape ds tbl us acc :
  shape3 (for_each (λ u, attempt (body ds tbl u.1 u.2)) us acc).1 = shape3 acc.
Proof.
  revert acc. induction us as [|u us IH]; intros acc; [done|].
  cbn [for_each]. unfold attempt at 1.
  destruct (body ds tbl u.1 u.2 acc) as [acc1|e] eqn:Hb; [|done].
  rewrite IH. by eapply body_shape.
Qed.

Lemma accumulate_shape ds names tbl acc :
  shape3 (accumulate ds names tbl acc).1 = shape3 acc.
Proof. rewrite accumulate_updates. apply for_each_shape. Qed.

(** ** The two replacements *)

Lemma all_zero_clean acc i j :
  all_zero (clean acc) i j
  = forallb (λ k, isnan (item3 acc i j k) || eqb (item3 acc i j k) (of_Z 0))
            (seq 0 (shape3 acc).2).
Proof.
  unfold all_zero, clean. cbn [shape3 item3].
  induction (seq 0 (shape3 acc).2) as [|k ks IH]; [done|].
  cbn [forallb]. rewrite IH. f_equal.
  by destruct (item3 acc i j k).
Qed.

Lemma forallb_seq_ext (f g : nat → bool) n :
  (∀ k, k < n → f k = g k) → forallb f (seq 0 n) = forallb g (seq 0 n).
Proof.
  intros Hfg. induction n as [|n IH]; [done|].
  rewrite seq_S, !forallb_app. cbn [forallb plus].
  rewrite IH, Hfg by (intros; auto with lia). done.
Qed.

Lemma reported_ext n acc acc' k :
  (∀ m, m < n → acc m = acc' m) → k < n →
  reported n acc k = reported n acc' k.
Proof.
  intros Hacc Hk. unfold reported.
  rewrite (forallb_seq_ext _ (λ m, eqb (nan_to_zero (acc' m)) (of_Z 0)))
    by (by intros m Hm; rewrite Hacc).
  by rewrite Hacc.
Qed.

Lemma item3_mark_missing_clean acc i j k :
  item3 (mark_missing (clean acc)) i j k
  = reported (shape3 acc).2 (λ m, item3 acc i j m) k.
Proof. done. Qed.

(** The finished array of well-formed inputs, cell by cell. *)
Lemma mineral_abundance_cells ds names tbl depth :
  ds !! "group_1_band_depth" = Some depth →
  well_formed ds names tbl = true →
  ∃ out,
    mineral_abundance ds names tbl = Done out
    ∧ shape3 out = (shape depth, length names)
    ∧ ∀ i j k, i < (shape depth).1 → j < (shape depth).2 → k < length names →
        item3 out i j k
        = reported (length names) (λ m, cell_acc ds tbl m i j) k.
Proof.
  intros Hd Hwf.
  destruct (accumulate_cells ds names tbl depth Hd Hwf) as (acc & Hacc & Hs & Hcells).
  unfold mineral_abundance. rewrite Hd. cbn zeta. rewrite Hacc.
  eexists. split; [done|]. split; [done|]. intros i j k Hi Hj Hk.
  rewrite item3_mark_missing_clean, Hs. cbn [snd].
  apply reported_ext; [|done]. intros m Hm. by apply Hcells.
Qed.

Lemma result_at_cells ds names tbl depth i j k :
  ds !! "group_1_band_depth" = Some depth →
  well_formed ds names tbl = true →
  i < (shape depth).1 → j < (shape depth).2 → k < length names →
  result_at (mineral_abundance ds names tbl) i j k
  = Some (reported (length names) (λ m, cell_acc ds tbl m i j) k).
Proof.
  intros Hd Hwf Hi Hj Hk.
  destruct (mineral_abundance_cells ds names tbl depth Hd Hwf)
    as (out & -> & Hs & Hcells).
  unfold result_at. rewrite Hs. cbn [fst snd].
  rewrite bool_decide_true by done. by rewrite Hcells.
Qed.

(** ** Weights, terms and the grid *)

Lemma isnan_weight r m : isnan (weight r m) = false.
Proof. unfold weight. by rewrite isnan_sentinel_to_one, isnan_nan_to_zero. Qed.

Lemma term_match ds r m i j :
  matches ds r i j = true →
  term ds r m i j = mul (magnitude ds r i j) (weight r m).
Proof. intros Hm. unfold term. rewrite Hm. cbn [of_bool]. by rewrite mul_1_l. Qed.

Lemma well_formed_depth ds names tbl :
  well_formed ds names tbl = true →
  ∃ depth, ds !! "group_1_band_depth" = Some depth.
Proof. unfold well_formed. case_match; [eauto|done]. Qed.

Lemma grid_shape ds depth :
  ds !! "group_1_band_depth" = Some depth → grid ds = shape depth.
Proof. unfold grid. by intros ->. Qed.


(** ** Runs that finish *)

Lemma Forall_runnable_forallb ds tbl s us :
  Forall (λ u, runnable ds tbl s u = true) us
  ↔ forallb (runnable ds tbl s) us = true.
Proof.
  rewrite forallb_forall, Forall_forall.
  split; intros H u Hu; apply H; by apply list_elem_of_In.
Qed.

(** The cell when all updates fit: it finishes, and reports at every cell
    what the rows have added. *)
Lemma mineral_abundance_runnable ds names tbl depth :
  ds !! "group_1_band_depth" = Some depth →
  Forall (λ u, runnable ds tbl (shape depth) u = true)
         (updates (length names) (length tbl)) →
  ∃ out,
    mineral_abundance ds names tbl = Done out
    ∧ shape3 out = (shape depth, length names)
    ∧ ∀ i j k, k < length names →
        item3 out i j k
        = reported (length names) (λ m, accumulated ds tbl m i j) k.
Proof.
  intros Hd Hrun.
  assert (shape3 (zeros (shape depth).1 (shape depth).2 (length names))
          = (shape depth, length names)) as Hs0 by by destruct (shape depth).
  destruct (accumulate_runnable ds names tbl _ _ Hs0 Hrun)
    as (acc & Hacc & Hs & Hcells).
  unfold mineral_abundance. rewrite Hd. cbn zeta. rewrite Hacc.
  eexists. split; [done|]. split; [done|]. intros i j k Hk.
  rewrite item3_mark_missing_clean, Hs. cbn [snd].
  apply reported_ext; [|done]. intros m Hm.
  by rewrite Hcells, decide_True, add_0_l by done.
Qed.

(** A cell that finishes has run updates that all fit. *)
Lemma mineral_abundance_Done ds names tbl out :
  mineral_abundance ds names tbl = Done out →
  ∃ depth,
    ds !! "group_1_band_depth" = Some depth
    ∧ Forall (λ u, runnable ds tbl (shape depth) u = true)
             (updates (length names) (length tbl)).
Proof.
  unfold mineral_abundance.
  destruct (ds !! "group_1_band_depth") as [depth|]; [|done]. cbn zeta.
  intros Hdone. exists depth. split; [done|].
  apply Forall_runnable_forallb.
  destruct (forallb _ _) eqn:Hall; [done|].
  rewrite accumulate_updates in Hdone.
  assert (shape3 (zeros (shape depth).1 (shape depth).2 (length names))
          = (shape depth, length names)) as Hs0 by by destruct (shape depth).
  destruct (for_each_unfit ds tbl _ _ _ _ Hs0 Hall) as (acc & e & Hrun).
  by rewrite Hrun in Hdone.
Qed.

(** ** Rows with and without an entry *)

Lemma rhs_of_entry ds r m :
  has_entry r m = true →
  rhs_of ds r m
  = masked ← masked_depth ds r;
    Ok (Some (map_scalar (λ v, mul v (weight r m)) masked)).
Proof.
  unfold has_entry, rhs_of.
  destruct (abundances r !! m) as [e|]; [|done]. cbn.
  by intros ->%negb_true_iff.
Qed.

Lemma addend_no_entry ds r m i j :
  has_entry r m = false → addend ds r m i j = of_Z 0.
Proof.
  unfold has_entry, addend, rhs_of.
  destruct (abundances r !! m) as [e|]; [|done]. cbn.
  by intros ->%negb_false_iff.
Qed.

Lemma masked_depth_same ds r r' :
  Index r = Index r' → Group r = Group r' →
  masked_depth ds r = masked_depth ds r'.
Proof. unfold masked_depth. by intros -> ->. Qed.

(** ** The accumulated values in float64

    The loops once more, on float64 samples: what they accumulate at a
    cell is a sum of rounded products, taken with rounded additions in the
    order of the table. *)

Section float64.
Import SpecFloat F64.

(** *** Arithmetic of float64 samples *)


Lemma same_refl x : same x x.
Proof. by left. Qed.


Lemma same_trans x y z : same x y → same y z → same x z.
Proof.
  intros [->|[Hx Hy]] [->|[Hy' Hz]]; try (by left); by right.
Qed.


Lemma add_zero_r_f64 x z : is_zero z = true → same (add x z) x.
Proof.
  destruct z as [sz| | |]; try done. intros _.
  destruct x as [sx|sx| |sx mx ex]; try (by left).
  destruct sx, sz; (by left) || (by right).
Qed.


Lemma add_same_l x x' t : same x x' → same (add x t) (add x' t).
Proof.
  intros [->|[Hx Hx']]; [by left|].
  destruct x as [sx| | |], x' as [sx'| | |]; try done.
  destruct t as [st| | |]; try (by left).
  right. by destruct sx, sx', st.
Qed.

Lemma mul_zero_l_f64 z d :
  is_zero z = true → isfinite d = true → is_zero (mul z d) = true.
Proof. destruct z; try done. by destruct d. Qed.

(** [1.0 * x] is [x]. *)
Lemma mul_1_l_f64 x : valid_binary 53 1024 x = true → mul (of_Z 1) x = x.
Proof.
  destruct x as [s|s| |s m e]; try done.
  intros [Hcan%Z.eqb_eq Hle]%andb_prop.
  change (of_Z 1) with (S754_finite false 4503599627370496 (-52)).
  unfold mul, SFmul. cbn [xorb].
  assert ((4503599627370496 * m)%positive = Pos.iter xO m 52) as ->
    by (by vm_compute).
  set (M := Pos.iter xO m 52).
  assert (Zdigits2 (Zpos M) = Zpos (digits2_pos m) + 52)%Z as Hdig.
  { subst M. cbn [Pos.iter Zdigits2 digits2_pos]. rewrite !Pos2Z.inj_succ. lia. }
  unfold binary_round_aux, shr_fexp. rewrite Hdig.
  replace (Z.pos (digits2_pos m) + 52 + (-52 + e))%Z
    with (Z.pos (digits2_pos m) + e)%Z by lia.
  rewrite Hcan.
  replace (e - (-52 + e))%Z with 52%Z by lia.
  subst M. cbn [Pos.iter shr shr_record_of_loc iter_pos shr_1 orb shr_m
                loc_of_shr_record round_nearest_even Zdigits2].
  replace (-52 + e + 52)%Z with e by lia.
  rewrite Hcan, Z.sub_diag. cbn [shr shr_m]. by rewrite Hle.
Qed.

Lemma nan_to_zero_same x y : same x y → same (nan_to_zero x) (nan_to_zero y).
Proof.
  intros [->|[Hx Hy]]; [by left|].
  destruct x, y; try done. by right.
Qed.

Lemma eqb_zero_same x y : same x y → eqb x (of_Z 0) = eqb y (of_Z 0).
Proof.
  intros [->|[Hx Hy]]; [done|].
  by destruct x, y.
Qed.






Lemma reported_same n acc acc' k :
  (∀ m, m < n → same (acc m) (acc' m)) → k < n →
  same (reported n acc k) (reported n acc' k).
Proof.
  intros Hacc Hk. unfold reported.
  rewrite (forallb_seq_ext _ (λ m, eqb (nan_to_zero (acc' m)) (of_Z 0))).
  - case_match; [by left|]. by apply nan_to_zero_same, Hacc.
  - intros m Hm. by apply eqb_zero_same, nan_to_zero_same, Hacc.
Qed.


(** *** The update of one row *)

Lemma ref_lookup_f64 tbl c r m :
  tbl !! c = Some r →
  mineral_abundance_ref tbl !! c ≫= (.!! m)
  = (λ e, sentinel_to_one (nan_to_zero e)) <$> abundances r !! m.
Proof.
  intros Hr. unfold mineral_abundance_ref.
  rewrite !list_lookup_fmap, Hr. simpl.
  rewrite !list_lookup_fmap. by destruct (abundances r !! m).
Qed.

Lemma has_shape_Some_f64 s o :
  has_shape s o = true → ∃ a, o = Some a ∧ shape a = s.
Proof.
  destruct o as [a|]; simpl; [|done].
  intros H%bool_decide_eq_true. eauto.
Qed.

Lemma row_term_rhs_of_f64 ds tbl m c r :
  tbl !! c = Some r → row_term ds tbl m c = rhs_of ds r m.
Proof.
  intros Hr. pose proof (ref_lookup_f64 tbl c r m Hr) as Href.
  unfold row_term, rhs_of, weight. rewrite Hr. cbn.
  destruct (abundances r !! m) as [e|]; [|done]. cbn.
  destruct (isnan e); [done|].
  destruct (ds !! mineral_id_var (Group r)) as [ids|]; [|done]. cbn.
  destruct (ds !! band_depth_var (Group r)) as [depth|]; [|done]. cbn.
  destruct (map2 _ _ _) as [masked|]; [|done]. cbn.
  destruct (mineral_abundance_ref tbl !! c) as [ref_row|]; cbn in Href |- *;
    [|done].
  by rewrite Href.
Qed.

Lemma body_fits_f64 ds tbl s n m c r acc :
  tbl !! c = Some r → shape3 acc = (s, n) → fits ds s r m = true →
  ∃ acc', body ds tbl m c acc = Ok acc' ∧ shape3 acc' = (s, n) ∧
    ∀ i j k,
      item3 acc' i j k = update_cell ds tbl i j k (item3 acc i j k) (m, c).
Proof.
  intros Hr Hs Hfit. unfold body. rewrite (row_term_rhs_of_f64 _ _ _ _ _ Hr).
  unfold update_cell, added, fits in *. cbn [fst snd]. rewrite Hr.
  destruct (rhs_of ds r m) as [[rhs|]|e] eqn:Hrhs; [| |done]; cbn.
  - unfold iadd_band. rewrite Hs. cbn [fst]. rewrite Hfit.
    eexists. split; [reflexivity|]. split; [reflexivity|].
    intros i j k. cbn. case_decide as Hk; [|done]. subst k. by rewrite Hrhs.
  - exists acc. split; [done|]. split; [done|].
    intros i j k. case_decide as Hk; [|done]. subst k. by rewrite Hrhs.
Qed.


(** The nested loops run the updates in order. *)
Lemma accumulate_updates_f64 ds names tbl acc :
  accumulate ds names tbl acc =
  for_each (λ u, attempt (body ds tbl u.1 u.2))
           (updates (length names) (length tbl)) acc.
Proof.
  unfold accumulate, updates. generalize (seq 0 (length names)) as ms.
  intros ms. revert acc. induction ms as [|m ms IH]; intros acc; [done|].
  cbn [for_each mbind list_bind]. rewrite for_each_app.
  assert (∀ cs acc, for_each (λ _c, attempt (body ds tbl m _c)) cs acc
    = for_each (λ u, attempt (body ds tbl u.1 u.2))
               (cs ≫= λ _c, [(m, _c)]) acc) as ->.
  { clear. induction cs as [|c cs IH]; intros acc; [done|]. simpl.
    destruct (attempt _ _) as [s' [e|]]; [done|]. apply IH. }
  destruct (for_each _ _ acc) as [s' [e|]]; [done|]. apply IH.
Qed.

(** A run of updates that all fit: it finishes, and every cell has taken
    the updates in order. *)
Lemma for_each_updates_f64 ds tbl s n us acc :
  shape3 acc = (s, n) →
  Forall (λ u, runnable ds tbl s u = true) us →
  ∃ acc', for_each (λ u, attempt (body ds tbl u.1 u.2)) us acc = (acc', None)
    ∧ shape3 acc' = (s, n)
    ∧ ∀ i j k,
        item3 acc' i j k
        = foldl (update_cell ds tbl i j k) (item3 acc i j k) us.
Proof.
  intros Hs Hus. revert acc Hs.
  induction Hus as [|[m c] us Hu _ IH]; intros acc Hs.
  - by exists acc.
  - unfold runnable in Hu. cbn [fst snd] in Hu.
    destruct (tbl !! c) as [r|] eqn:Hr; [|done].
    destruct (body_fits_f64 ds tbl s n m c r acc Hr Hs Hu)
      as (acc1 & Hbody & Hs1 & Hcells).
    destruct (IH acc1 Hs1) as (acc' & Hrun & Hs' & Hcells').
    exists acc'. cbn [for_each]. unfold attempt at 1. simpl. rewrite Hbody.
    split; [done|]. split; [done|]. intros i j k.
    rewrite Hcells'. simpl. by rewrite Hcells.
Qed.


Lemma foldl_update_block_f64 ds i j k m pre suf a :
  foldl (update_cell ds (pre ++ suf) i j k) a
        (seq (length pre) (length suf) ≫= λ _c, [(m, _c)])
  = if decide (k = m) then foldl add a (terms ds suf k i j) else a.
Proof.
  revert pre a. induction suf as [|r suf IH]; intros pre a.
  - simpl. by case_decide.
  - cbn [length seq mbind list_bind app foldl].
    replace (pre ++ r :: suf) with ((pre ++ [r]) ++ suf)
      by by rewrite <-app_assoc.
    replace (S (length pre)) with (length (pre ++ [r]))
      by (rewrite length_app; simpl; lia).
    rewrite IH. unfold update_cell. cbn [fst snd].
    rewrite <-app_assoc. cbn [app]. rewrite list_lookup_middle by done.
    case_decide; [|done]. unfold terms. cbn [omap list_omap].
    by destruct (added ds k i j r).
Qed.

Lemma foldl_updates_f64 ds tbl i j k a n_minerals :
  foldl (update_cell ds tbl i j k) a (updates n_minerals (length tbl))
  = if decide (k < n_minerals) then foldl add a (terms ds tbl k i j) else a.
Proof.
  induction n_minerals as [|m IH].
  - done.
  - rewrite updates_S, foldl_app, IH.
    pose proof (foldl_update_block_f64 ds i j k m [] tbl) as Hb. simpl in Hb.
    rewrite Hb.
    repeat case_decide; try lia; done.
Qed.

(** The updates all fit when every row fits for every mineral. *)
Lemma runnable_updates_f64 ds tbl s n :
  Forall (λ u, runnable ds tbl s u = true) (updates n (length tbl))
  ↔ ∀ m r, m < n → r ∈ tbl → fits ds s r m = true.
Proof.
  rewrite Forall_forall. split.
  - intros Hrun m r Hm [c Hc]%list_elem_of_lookup_1.
    specialize (Hrun (m, c)). unfold runnable in Hrun. cbn [fst snd] in Hrun.
    rewrite Hc in Hrun. apply Hrun.
    apply list_elem_of_bind. exists m. split; [|apply elem_of_seq; lia].
    apply list_elem_of_bind. exists c. split; [by apply list_elem_of_singleton|].
    apply elem_of_seq. apply lookup_lt_Some in Hc. lia.
  - intros Hfits [m c] Hu.
    apply list_elem_of_bind in Hu as (m' & Hu & Hm).
    apply list_elem_of_bind in Hu as (c' & Hu & Hc).
    apply list_elem_of_singleton in Hu as [= <- <-].
    apply elem_of_seq in Hm, Hc.
    destruct (lookup_lt_is_Some_2 tbl c) as [r Hr]; [lia|].
    unfold runnable. cbn [fst snd]. rewrite Hr.
    apply Hfits; [lia|]. by eapply list_elem_of_lookup_2.
Qed.

(** The loops when all updates fit: they finish, and have added at every
    cell, from left to right, the terms of the rows. *)
Lemma accumulate_runnable_f64 ds names tbl s :
  Forall (λ u, runnable ds tbl s u = true)
         (updates (length names) (length tbl)) →
  ∃ acc,
    accumulate ds names tbl (zeros s.1 s.2 (length names)) = (acc, None)
    ∧ shape3 acc = (s, length names)
    ∧ ∀ i j k, k < length names →
        item3 acc i j k = sum_list (terms ds tbl k i j).
Proof.
  intros Hrun. rewrite accumulate_updates_f64.
  assert (shape3 (zeros s.1 s.2 (length names)) = (s, length names)) as Hs
    by by destruct s.
  destruct (for_each_updates_f64 ds tbl _ _ _ _ Hs Hrun)
    as (acc & -> & Hs' & Hcells).
  exists acc. split; [done|]. split; [done|]. intros i j k Hk.
  by rewrite Hcells, foldl_updates_f64, decide_True.
Qed.


Lemma item3_mark_missing_clean_f64 acc i j k :
  item3 (mark_missing (clean acc)) i j k
  = reported (shape3 acc).2 (λ m, item3 acc i j m) k.
Proof. done. Qed.

(** The cell when all updates fit: it finishes, and reports at every cell
    the sums of the terms. *)
Lemma mineral_abundance_runnable_f64 ds names tbl depth :
  ds !! "group_1_band_depth" = Some depth →
  Forall (λ u, runnable ds tbl (shape depth) u = true)
         (updates (length names) (length tbl)) →
  ∃ acc out,
    accumulate ds names tbl
      (zeros (shape depth).1 (shape depth).2 (length names)) = (acc, None)
    ∧ mineral_abundance ds names tbl = Done out
    ∧ shape3 out = (shape depth, length names)
    ∧ (∀ i j k, k < length names →
         item3 acc i j k = sum_list (terms ds tbl k i j))
    ∧ ∀ i j k, k < length names →
        item3 out i j k
        = reported (length names) (λ m, item3 acc i j m) k.
Proof.
  intros Hd Hrun.
  destruct (accumulate_runnable_f64 ds names tbl _ Hrun)
    as (acc & Hacc & Hs & Hcells).
  exists acc. unfold mineral_abundance. rewrite Hd. cbn zeta. rewrite Hacc.
  eexists. split; [done|]. split; [done|]. split; [done|]. split; [done|].
  intros i j k Hk. by rewrite item3_mark_missing_clean_f64, Hs.
Qed.


(** *** Well-formed inputs *)

Lemma good_rhs_of_f64 ds s r m :
  good ds s r = true → m < length (abundances r) →
  (has_entry r m = false ∧ rhs_of ds r m = Ok None)
  ∨ (has_entry r m = true
     ∧ ∃ rhs, rhs_of ds r m = Ok (Some rhs) ∧ shape rhs = s
       ∧ ∀ i j, i < s.1 → j < s.2 → item rhs i j = term ds r m i j).
Proof.
  intros [(ids & Hids & Hsi)%has_shape_Some_f64
          (depth & Hdepth & Hsd)%has_shape_Some_f64]%andb_prop Hm.
  destruct (lookup_lt_is_Some_2 _ _ Hm) as [e He].
  unfold rhs_of, has_entry. rewrite He. cbn.
  destruct (isnan e); [by left|right]. split; [done|].
  rewrite Hids, Hdepth. cbn. unfold map2. cbn [map_scalar shape].
  rewrite Hsi, Hsd, broadcast_shape_same. cbn.
  eexists. split; [reflexivity|]. split; [done|]. intros i j Hi Hj. cbn.
  rewrite !stretch_lt by done.
  unfold term, matches, magnitude, layer. by rewrite Hids, Hdepth.
Qed.

Lemma good_fits_f64 ds s r m :
  good ds s r = true → m < length (abundances r) → fits ds s r m = true.
Proof.
  intros Hgood Hm. unfold fits.
  destruct (good_rhs_of_f64 ds s r m Hgood Hm)
    as [[_ ->]|(_ & rhs & -> & <- & _)]; [done|].
  apply broadcastable_to_same.
Qed.

Lemma good_added ds s r m i j :
  good ds s r = true → m < length (abundances r) → i < s.1 → j < s.2 →
  added ds m i j r
  = if has_entry r m then Some (term ds r m i j) else None.
Proof.
  intros Hgood Hm Hi Hj. unfold added.
  destruct (good_rhs_of_f64 ds s r m Hgood Hm)
    as [[-> ->]|(-> & rhs & -> & Hs & Hitem)]; [done|].
  rewrite Hs, !stretch_lt by done. by rewrite Hitem.
Qed.

Lemma well_formed_rows_f64 ds names tbl depth r :
  ds !! "group_1_band_depth" = Some depth →
  well_formed ds names tbl = true → r ∈ tbl →
  length (abundances r) = length names ∧ good ds (shape depth) r = true.
Proof.
  intros Hd Hwf Hr. unfold well_formed in Hwf. rewrite Hd in Hwf.
  rewrite forallb_forall in Hwf. apply list_elem_of_In, Hwf in Hr.
  by apply andb_prop in Hr as [Hlen%bool_decide_eq_true Hgood].
Qed.

Lemma well_formed_runnable_f64 ds names tbl depth :
  ds !! "group_1_band_depth" = Some depth →
  well_formed ds names tbl = true →
  Forall (λ u, runnable ds tbl (shape depth) u = true)
         (updates (length names) (length tbl)).
Proof.
  intros Hd Hwf. apply runnable_updates_f64. intros m r Hm Hr.
  destruct (well_formed_rows_f64 ds names tbl depth r Hd Hwf Hr) as [Hlen Hgood].
  apply good_fits_f64; [done|lia].
Qed.

Lemma well_formed_depth_f64 ds names tbl :
  well_formed ds names tbl = true →
  ∃ depth, ds !! "group_1_band_depth" = Some depth.
Proof. unfold well_formed. case_match; [eauto|done]. Qed.

(** *** The accumulated value as a sum over the matching rows *)

Lemma term_match_f64 ds r m i j :
  matches ds r i j = true → is_float64 (magnitude ds r i j) = true →
  term ds r m i j = mul (magnitude ds r i j) (weight r m).
Proof.
  intros Hm Hv. unfold term. rewrite Hm. cbn [of_bool].
  by rewrite mul_1_l_f64.
Qed.

Lemma term_no_match_f64 ds r m i j :
  matches ds r i j = false →
  isfinite (magnitude ds r i j) = true → isfinite (weight r m) = true →
  is_zero (term ds r m i j) = true.
Proof.
  intros Hm Hd Hw. unfold term. rewrite Hm. cbn [of_bool].
  apply mul_zero_l_f64; [|done]. apply mul_zero_l_f64; [|done]. by_compute.
Qed.

Lemma foldl_terms_weighted ds s tbl m i j a a' :
  (∀ r, r ∈ tbl → good ds s r = true ∧ m < length (abundances r)) →
  i < s.1 → j < s.2 →
  others_finite ds tbl m i j = true →
  same a a' →
  same (foldl add a (terms ds tbl m i j))
       (foldl add a' ((λ r, mul (magnitude ds r i j) (weight r m))
                        <$> matching_rows ds tbl m i j)).
Proof.
  intros Hgood Hi Hj. revert a a'.
  induction tbl as [|r tbl IH]; intros a a' Hfin Ha; [done|].
  cbn [others_finite forallb] in Hfin. apply andb_prop in Hfin as [Hr Hfin].
  destruct (Hgood r) as [Hg Hm]; [by left|].
  unfold terms, matching_rows. cbn [omap list_omap]. rewrite filter_cons.
  rewrite (good_added ds s) by done.
  specialize (IH (λ r' Hr', Hgood r' (list_elem_of_further _ _ _ Hr'))).
  destruct (has_entry r m) eqn:He; cbn [andb negb orb] in *.
  - destruct (matches ds r i j) eqn:Hmatch.
    + rewrite decide_True by done. cbn [fmap list_fmap foldl].
      apply IH; [done|]. rewrite term_match_f64 by done. by apply add_same_l.
    + rewrite decide_False by (by intros []). apply andb_prop in Hr as [Hd Hw].
      apply IH; [done|]. eapply same_trans; [|exact Ha].
      apply add_zero_r_f64. by apply term_no_match_f64.
  - rewrite decide_False by (by intros []). by apply IH.
Qed.

Lemma terms_weighted_sum ds names tbl depth m i j :
  ds !! "group_1_band_depth" = Some depth →
  well_formed ds names tbl = true →
  i < (shape depth).1 → j < (shape depth).2 → m < length names →
  others_finite ds tbl m i j = true →
  same (sum_list (terms ds tbl m i j)) (weighted_sum ds tbl m i j).
Proof.
  intros Hd Hwf Hi Hj Hm Hfin.
  apply (foldl_terms_weighted ds (shape depth)); try done; [|apply same_refl].
  intros r Hr.
  destruct (well_formed_rows_f64 ds names tbl depth r Hd Hwf Hr) as [-> Hg].
  done.
Qed.

(** *** The accumulated value and the reported value *)

Lemma grid_shape_f64 ds depth :
  ds !! "group_1_band_depth" = Some depth → grid ds = shape depth.
Proof. unfold grid. by intros ->. Qed.

(** C1, as amended.  On well-formed inputs the loops finish, having
    started from the all-zero array, and the cell reports at (i, j) the
    accumulated value of the mineral with NaN read as 0, or NaN for every
    mineral when the accumulated values of all minerals are zero or NaN
    there.  For a mineral such that the rows with an entry for it that do
    not match at (i, j) have a finite band depth there and a finite
    weight (the band depth of the rows that match being a binary64
    value), the accumulated value is, up to the sign of a zero, the
    float64 sum taken in the order of the table, from 0.0, of the
    products [depth * weight] of the matching rows with an entry for the
    mineral.  When this holds of every mineral, the reported value is the
    one computed from these sums. *)
Theorem mineral_abundance_float64_sum ds names tbl i j :
  well_formed ds names tbl = true →
  i < (grid ds).1 → j < (grid ds).2 →
  ∃ acc out,
    accumulate ds names tbl
      (zeros (grid ds).1 (grid ds).2 (length names)) = (acc, None)
    ∧ mineral_abundance ds names tbl = Done out
    ∧ (∀ k, k < length names →
         item3 out i j k
         = reported (length names) (λ m, item3 acc i j m) k)
    ∧ (∀ k, k < length names → others_finite ds tbl k i j = true →
         same (item3 acc i j k) (weighted_sum ds tbl k i j))
    ∧ ((∀ m, m < length names → others_finite ds tbl m i j = true) →
       ∀ k, k < length names →
         same (item3 out i j k)
              (reported (length names) (λ m, weighted_sum ds tbl m i j) k)).
Proof.
  intros Hwf. destruct (well_formed_depth_f64 _ _ _ Hwf) as [depth Hd].
  rewrite (grid_shape_f64 _ _ Hd). intros Hi Hj.
  destruct (mineral_abundance_runnable_f64 ds names tbl depth Hd
              (well_formed_runnable_f64 ds names tbl depth Hd Hwf))
    as (acc & out & Hacc & Hdone & _ & Hcells & Hout).
  exists acc, out. split; [done|]. split; [done|]. split; [by auto|].
  assert (∀ k, k < length names → others_finite ds tbl k i j = true →
            same (item3 acc i j k) (weighted_sum ds tbl k i j)) as Hsum.
  { intros k Hk Hfin. rewrite Hcells by done.
    by apply (terms_weighted_sum ds names tbl depth). }
  split; [done|]. intros Hall k Hk. rewrite Hout by done.
  apply reported_same; [|done]. intros m Hm. by apply Hsum, Hall.
Qed.

(** The theorem at the first cell of [scene_row], where 3 times 2 is
    accumulated and reported, and at the cell of [scene_nan_depth] with
    [table_two_minerals]: the row of group 2, whose band depth is NaN, has
    no entry for the first mineral, for which 3 times 2 is accumulated. *)
Lemma mineral_abundance_float64_sum_witness :
  (∃ acc out,
     accumulate scene_row ["Calcite"; "Hematite"]
       [mk_grouping 5 1 [of_Z 2; S754_nan]] (zeros 1 2 2) = (acc, None)
     ∧ mineral_abundance scene_row ["Calcite"; "Hematite"]
         [mk_grouping 5 1 [of_Z 2; S754_nan]] = Done out
     ∧ same (item3 acc 0 0 0) (of_Z 6)
     ∧ same (item3 out 0 0 0) (of_Z 6))
  ∧ (∃ acc out,
       accumulate scene_nan_depth ["Calcite"; "Hematite"] table_two_minerals
         (zeros 1 1 2) = (acc, None)
       ∧ mineral_abundance scene_nan_depth ["Calcite"; "Hematite"]
           table_two_minerals = Done out
       ∧ same (item3 acc 0 0 0) (of_Z 6)
       ∧ item3 out 0 0 0 = reported 2 (λ m, item3 acc 0 0 m) 0).
Proof.
  split.
  - destruct (mineral_abundance_float64_sum scene_row ["Calcite"; "Hematite"]
                [mk_grouping 5 1 [of_Z 2; S754_nan]] 0 0)
      as (acc & out & Hacc & Hdone & _ & Hsum & Hout);
      [by_compute|vm_compute; lia|vm_compute; lia|].
    exists acc, out. split; [exact Hacc|]. split; [exact Hdone|]. split.
    + replace (of_Z 6) with
        (weighted_sum scene_row [mk_grouping 5 1 [of_Z 2; S754_nan]] 0 0 0)
        by by_compute.
      apply Hsum; [simpl; lia|by_compute].
    + replace (of_Z 6) with
        (reported 2
           (λ m, weighted_sum scene_row [mk_grouping 5 1 [of_Z 2; S754_nan]]
                   m 0 0) 0)
        by by_compute.
      apply Hout; [|simpl; lia].
      intros m Hm.
      destruct m as [|[|m]]; [by_compute|by_compute|simpl in Hm; lia].
  - destruct (mineral_abundance_float64_sum scene_nan_depth
                ["Calcite"; "Hematite"] table_two_minerals 0 0)
      as (acc & out & Hacc & Hdone & Hrep & Hsum & _);
      [by_compute|vm_compute; lia|vm_compute; lia|].
    exists acc, out. split; [exact Hacc|]. split; [exact Hdone|]. split.
    + replace (of_Z 6) with
        (weighted_sum scene_nan_depth table_two_minerals 0 0 0)
        by by_compute.
      apply Hsum; [simpl; lia|by_compute].
    + apply Hrep. simpl; lia.
Defined.

(** C1 as stated fails where a band depth is NaN.  In [scene_nan_depth]
    the only matching row gives the sum 3 * 2 = 6, but the row of group 2,
    which does not match, adds 0 * NaN: the accumulated value is NaN, is
    replaced by 0, and the cell is reported as missing.  It fails at a
    cell no row matches, such as the second cell of [scene_row]: the sum
    is 0 and the cell is reported as missing.  And it fails of the
    rounded additions: the weights 2^53, 1 and -2^53 add up to 1, the
    band depth is 1, and the cell is reported as missing, since
    2^53 + 1 is rounded to 2^53. *)
Lemma weighted_sum_counterexample :
  well_formed scene_nan_depth ["Calcite"] table_two_groups = true
  ∧ weighted_sum scene_nan_depth table_two_groups 0 0 0 = of_Z 6
  ∧ finished (mineral_abundance scene_nan_depth ["Calcite"] table_two_groups)
    = Some [[[S754_nan]]]
  ∧ weighted_sum scene_row [mk_grouping 5 1 [of_Z 2]] 0 0 1 = of_Z 0
  ∧ finished (mineral_abundance scene_row ["Calcite"] [mk_grouping 5 1 [of_Z 2]])
    = Some [[[of_Z 6]; [S754_nan]]]
  ∧ well_formed scene_unit ["Calcite"] table_cancelling = true
  ∧ (9007199254740992 + 1 + - 9007199254740992 = 1)%Z
  ∧ finished (mineral_abundance scene_unit ["Calcite"] table_cancelling)
    = Some [[[S754_nan]]].
Proof. repeat split; by_compute. Qed.

(** *** Row order and duplicate rows *)










End float64.

(** ** The replacements after the loops *)

Lemma item3_clean acc i j k :
  item3 (clean acc) i j k
  = if isnan (item3 acc i j k) then of_Z 0 else item3 acc i j k.
Proof. done. Qed.

Lemma mineral_abundance_done ds names tbl depth acc :
  ds !! "group_1_band_depth" = Some depth →
  accumulate ds names tbl
    (zeros (shape depth).1 (shape depth).2 (length names)) = (acc, None) →
  mineral_abundance ds names tbl = Done (mark_missing (clean acc))
  ∧ shape3 acc = (shape depth, length names).
Proof.
  intros Hd Hacc. unfold mineral_abundance. rewrite Hd. cbn zeta.
  rewrite Hacc. split; [done|].
  pose proof (accumulate_shape ds names tbl
    (zeros (shape depth).1 (shape depth).2 (length names))) as Hs.
  rewrite Hacc in Hs. cbn [fst] in Hs. rewrite Hs. by destruct (shape depth).
Qed.

(** C8.  When the loops have finished, the cell first replaces every NaN
    of the accumulated array by 0 and only then marks cells as missing: a
    value that was NaN counts as a zero in the test for missing cells, and
    is reported as 0 where the cell is not missing. *)
Theorem nan_cleanup_before_missing ds names tbl acc :
  is_Some (ds !! "group_1_band_depth") →
  accumulate ds names tbl
    (zeros (grid ds).1 (grid ds).2 (length names)) = (acc, None) →
  mineral_abundance ds names tbl = Done (mark_missing (clean acc))
  ∧ (∀ i j k,
       item3 (clean acc) i j k
       = if isnan (item3 acc i j k) then of_Z 0 else item3 acc i j k)
  ∧ (∀ i j k,
       item3 (mark_missing (clean acc)) i j k
       = if forallb (λ m, isnan (item3 acc i j m)
                          || eqb (item3 acc i j m) (of_Z 0))
                    (seq 0 (length names))
         then NaN
         else if isnan (item3 acc i j k) then of_Z 0 else item3 acc i j k).
Proof.
  intros [depth Hd]. rewrite (grid_shape _ _ Hd). intros Hacc.
  destruct (mineral_abundance_done ds names tbl depth acc Hd Hacc) as [Hdone Hs].
  split; [done|]. split; [done|]. intros i j k.
  cbn [mark_missing item3]. rewrite all_zero_clean, Hs. done.
Qed.

(** The theorem on [scene_nan_depth]: the second mineral accumulates NaN
    and is reported as 0 beside the 6 of the first. *)
Lemma nan_cleanup_before_missing_witness :
  let acc := (accumulate scene_nan_depth ["Calcite"; "Hematite"]
                table_two_minerals (zeros 1 1 2)).1 in
  tolist3 acc = [[[of_Z 6; NaN]]]
  ∧ mineral_abundance scene_nan_depth ["Calcite"; "Hematite"] table_two_minerals
    = Done (mark_missing (clean acc))
  ∧ tolist3 (clean acc) = [[[of_Z 6; of_Z 0]]]
  ∧ tolist3 (mark_missing (clean acc)) = [[[of_Z 6; of_Z 0]]].
Proof.
  intros acc.
  destruct (nan_cleanup_before_missing scene_nan_depth ["Calcite"; "Hematite"]
              table_two_minerals acc) as (Hdone & _ & _).
  - by_compute.
  - by_compute.
  - split; [by_compute|]. split; [exact Hdone|]. split; by_compute.
Defined.

(** ** Cells without band depth *)

Lemma term_nan_depth ds r m i j :
  isnan (magnitude ds r i j) = true → term ds r m i j = NaN.
Proof.
  intros Hnan. unfold term. destruct (magnitude ds r i j); [done|].
  by rewrite mul_NaN_r.
Qed.

Lemma cell_acc_nan_depth ds tbl m i j :
  Forall (λ r, isnan (magnitude ds r i j) = true) tbl →
  cell_acc ds tbl m i j
  = if existsb (λ r, has_entry r m) tbl then NaN else of_Z 0.
Proof.
  intros Hnan. unfold cell_acc.
  assert (∀ a, foldl (cell_step ds m i j) a tbl
               = if existsb (λ r, has_entry r m) tbl then NaN else a) as ->; [|done].
  induction Hnan as [|r tbl Hr _ IH]; intros a; [done|].
  cbn [foldl existsb]. rewrite IH. unfold cell_step.
  destruct (has_entry r m); cbn [orb]; [|done].
  rewrite term_nan_depth, add_NaN_r by done. by case_match.
Qed.

Lemma reported_all_zero n acc k :
  (∀ m, m < n → nan_to_zero (acc m) = of_Z 0) → reported n acc k = NaN.
Proof.
  intros Hz. unfold reported.
  rewrite (forallb_seq_ext _ (λ _, true)).
  - by induction (seq 0 n).
  - intros m Hm. by rewrite Hz.
Qed.

Lemma reported_not_all_zero n acc k m :
  m < n → eqb (nan_to_zero (acc m)) (of_Z 0) = false →
  reported n acc k = nan_to_zero (acc k).
Proof.
  intros Hm Hnz. unfold reported.
  destruct (forallb _ _) eqn:Hall; [|done].
  rewrite forallb_forall in Hall. rewrite Hall in Hnz; [done|].
  apply list_elem_of_In, elem_of_seq. lia.
Qed.

(** C10.  At a cell where the band depth is NaN in every group the table
    refers to, every row adds NaN, the accumulated value of a mineral is
    NaN as soon as a row has an entry for it, every mineral is 0 after the
    replacement of NaN, and the cell is reported as missing for every
    mineral. *)
Theorem nan_depth_is_missing ds names tbl i j :
  well_formed ds names tbl = true →
  i < (grid ds).1 → j < (grid ds).2 →
  Forall (λ r, isnan (magnitude ds r i j) = true) tbl →
  Forall (λ r, ∀ m, term ds r m i j = NaN) tbl
  ∧ (∃ acc,
       accumulate ds names tbl
         (zeros (grid ds).1 (grid ds).2 (length names)) = (acc, None)
       ∧ ∀ k, k < length names →
           isnan (item3 acc i j k) = existsb (λ r, has_entry r k) tbl
           ∧ item3 (clean acc) i j k = of_Z 0)
  ∧ ∀ k, k < length names →
      result_at (mineral_abundance ds names tbl) i j k = Some NaN.
Proof.
  intros Hwf. destruct (well_formed_depth _ _ _ Hwf) as [depth Hd].
  rewrite (grid_shape _ _ Hd). intros Hi Hj Hnan.
  assert (∀ k, nan_to_zero (cell_acc ds tbl k i j) = of_Z 0) as Hzero.
  { intros k. rewrite cell_acc_nan_depth by done. by case_match. }
  split; [|split].
  - eapply Forall_impl; [exact Hnan|]. intros r Hr m. by apply term_nan_depth.
  - destruct (accumulate_cells ds names tbl depth Hd Hwf) as (acc & Hacc & _ & Hcells).
    exists acc. split; [done|]. intros k Hk.
    rewrite item3_clean, Hcells by done. split.
    + rewrite cell_acc_nan_depth by done. by case_match.
    + apply Hzero.
  - intros k Hk. rewrite (result_at_cells ds names tbl depth) by done.
    f_equal. by apply reported_all_zero.
Qed.

(** The theorem at the fill cell of [scene_with_fill]. *)
Lemma nan_depth_is_missing_witness :
  Forall (λ r, ∀ m, term scene_with_fill r m 0 0 = NaN) table_two_minerals
  ∧ (∃ acc,
       accumulate scene_with_fill ["Calcite"; "Hematite"] table_two_minerals
         (zeros 1 2 2) = (acc, None)
       ∧ ∀ k, k < 2 →
           isnan (item3 acc 0 0 k)
           = existsb (λ r, has_entry r k) table_two_minerals
           ∧ item3 (clean acc) 0 0 k = of_Z 0)
  ∧ ∀ k, k < 2 →
      result_at (mineral_abundance scene_with_fill ["Calcite"; "Hematite"]
                   table_two_minerals) 0 0 k = Some NaN.
Proof.
  apply (nan_depth_is_missing scene_with_fill ["Calcite"; "Hematite"]
           table_two_minerals 0 0).
  - by_compute.
  - vm_compute; lia.
  - vm_compute; lia.
  - by_compute.
Defined.

(** ** Missing cells *)

Lemma cell_acc_single ds r m i j :
  cell_acc ds [r] m i j = contribution ds m i j r.
Proof. by rewrite cell_acc_sum; cbn [fmap list_fmap]; rewrite sum_cons, add_0_r. Qed.

Lemma term_no_match_clean ds r m i j :
  matches ds r i j = false → nan_to_zero (term ds r m i j) = of_Z 0.
Proof.
  intros Hm. unfold term. rewrite Hm. cbn [of_bool].
  destruct (magnitude ds r i j) as [q|].
  - rewrite (mul_0_l (Fin q)) by done. by rewrite mul_0_l by apply isnan_weight.
  - by rewrite mul_NaN_r.
Qed.

Lemma Fin_inj a b : Fin a = Fin b → a = b.
Proof. by intros [= ?]. Qed.

Lemma nonneg_sum xs : Forall nonneg xs → nonneg (sum_list xs).
Proof.
  induction 1 as [|x xs Hx _ IH].
  - unfold sum_list. cbn [foldl]. rewrite of_Z_0. apply Qcle_refl.
  - rewrite sum_cons. destruct x as [q|], (sum_list xs) as [s|]; try done.
    unfold nonneg, add in *. rewrite <-(Qcplus_0_r 0). by apply Qcplus_le_compat.
Qed.

Lemma sum_nonneg_zero xs :
  Forall nonneg xs → sum_list xs = of_Z 0 → Forall (λ x, x = of_Z 0) xs.
Proof.
  induction 1 as [|x xs Hx Hxs IH]; [done|].
  rewrite sum_cons. pose proof (nonneg_sum xs Hxs) as Hs.
  destruct x as [q|], (sum_list xs) as [s|] eqn:Hsum; try done.
  rewrite of_Z_0 in *. unfold nonneg, add in *. intros Hqs%Fin_inj.
  assert (q = 0%Qc ∧ s = 0%Qc) as [-> ->].
  { split; apply Qcle_antisym; try done.
    - rewrite <-Hqs. rewrite <-(Qcplus_0_r q) at 1. by apply Qcplus_le_compat.
    - rewrite <-Hqs. rewrite <-(Qcplus_0_l s) at 1. by apply Qcplus_le_compat. }
  constructor; [done|]. by apply IH.
Qed.

(** After the loops: a cell that holds zero for every mineral is reported
    missing for every mineral, any other cell keeps its values. *)
Lemma zero_cells_missing ds names tbl acc i j :
  is_Some (ds !! "group_1_band_depth") →
  accumulate ds names tbl
    (zeros (grid ds).1 (grid ds).2 (length names)) = (acc, None) →
  i < (grid ds).1 → j < (grid ds).2 →
  ((∀ m, m < length names → item3 (clean acc) i j m = of_Z 0) →
   ∀ k, k < length names →
     result_at (mineral_abundance ds names tbl) i j k = Some NaN)
  ∧ ((∀ m, m < length names → nonneg (item3 (clean acc) i j m)) →
     total (length names) (item3 (clean acc) i j) = of_Z 0 →
     ∀ k, k < length names →
       result_at (mineral_abundance ds names tbl) i j k = Some NaN)
  ∧ (∀ m, m < length names → item3 (clean acc) i j m ≠ of_Z 0 →
     ∀ k, k < length names →
       result_at (mineral_abundance ds names tbl) i j k
       = Some (item3 (clean acc) i j k)).
Proof.
  intros [depth Hd]. rewrite (grid_shape _ _ Hd). intros Hacc Hi Hj.
  destruct (mineral_abundance_done ds names tbl depth acc Hd Hacc) as [-> Hs].
  assert (∀ k, k < length names →
    result_at (Done (mark_missing (clean acc))) i j k
    = Some (reported (length names) (λ m, item3 acc i j m) k)) as Hres.
  { intros k Hk. unfold result_at. cbn [mark_missing clean shape3]. rewrite Hs.
    cbn [fst snd]. rewrite bool_decide_true by done.
    by rewrite item3_mark_missing_clean, Hs. }
  assert ((∀ m, m < length names → item3 (clean acc) i j m = of_Z 0) →
   ∀ k, k < length names →
     result_at (Done (mark_missing (clean acc))) i j k = Some NaN) as Hzero.
  { intros Hz k Hk. rewrite Hres by done. f_equal.
    apply reported_all_zero. intros m Hm. by apply Hz. }
  split; [done|]. split.
  - intros Hnn Htot. apply Hzero. intros m Hm.
    unfold total in Htot. apply sum_nonneg_zero in Htot.
    + rewrite Forall_fmap, Forall_forall in Htot. apply Htot, elem_of_seq. lia.
    + apply Forall_fmap, Forall_forall. intros m' Hm'%elem_of_seq. apply Hnn. lia.
  - intros m Hm Hnz k Hk. rewrite Hres by done. f_equal.
    apply (reported_not_all_zero _ _ _ m); [done|].
    destruct (eqb _ _) eqn:He; [|done].
    apply eqb_eq in He as [He _]. by destruct Hnz.
Qed.

Lemma has_entry_single_row_0 n : has_entry (single_row n) 0 = true.
Proof. done. Qed.

Lemma has_entry_single_row_S n k : has_entry (single_row n) (S k) = false.
Proof.
  unfold has_entry, single_row. cbn [abundances lookup list_lookup].
  destruct (replicate n NaN !! k) as [e|] eqn:He; [|done].
  by apply lookup_replicate in He as [-> _].
Qed.

Lemma weight_single_row_0 n : weight (single_row n) 0 = of_Z 2.
Proof.
  unfold weight, single_row. cbn [abundances lookup list_lookup default].
  by_compute.
Qed.

(** The example: one row, of library entry 5 in group 1, with weight 2 for
    the first mineral. *)
Lemma single_row_cells ds names n i j :
  length names = S n →
  well_formed ds names [single_row n] = true →
  i < (grid ds).1 → j < (grid ds).2 →
  (layer ds "group_1_mineral_id" i j = of_Z 5 →
   layer ds "group_1_band_depth" i j = of_Z 3 →
   result_at (mineral_abundance ds names [single_row n]) i j 0 = Some (of_Z 6)
   ∧ ∀ k, 0 < k < S n →
       result_at (mineral_abundance ds names [single_row n]) i j k
       = Some (of_Z 0))
  ∧ (eqb (layer ds "group_1_mineral_id" i j) (of_Z 5) = false →
     ∀ k, k < S n →
       result_at (mineral_abundance ds names [single_row n]) i j k = Some NaN).
Proof.
  intros Hn Hwf. destruct (well_formed_depth _ _ _ Hwf) as [depth Hd].
  rewrite (grid_shape _ _ Hd). intros Hi Hj.
  assert (∀ k, k < S n →
    result_at (mineral_abundance ds names [single_row n]) i j k
    = Some (reported (S n) (λ m, contribution ds m i j (single_row n)) k)) as Hres.
  { intros k Hk. rewrite (result_at_cells ds names _ depth), Hn by (done || lia).
    f_equal. apply reported_ext; [|done]. intros m _. apply cell_acc_single. }
  assert (∀ k, contribution ds (S k) i j (single_row n) = of_Z 0) as Hother.
  { intros k. unfold contribution. by rewrite has_entry_single_row_S. }
  split.
  - intros Hid Hdepth.
    assert (contribution ds 0 i j (single_row n) = of_Z 6) as Hfirst.
    { unfold contribution, term, matches, magnitude.
      rewrite has_entry_single_row_0, weight_single_row_0.
      change (mineral_id_var (Group (single_row n))) with "group_1_mineral_id".
      change (band_depth_var (Group (single_row n))) with "group_1_band_depth".
      rewrite Hid, Hdepth. by_compute. }
    assert (∀ k, k < S n →
      reported (S n) (λ m, contribution ds m i j (single_row n)) k
      = nan_to_zero (contribution ds k i j (single_row n))) as Hrep.
    { intros k Hk.
      apply (reported_not_all_zero _ (λ m, contribution ds m i j (single_row n)) _ 0);
        [lia|].
      rewrite Hfirst. by_compute. }
    split.
    + rewrite Hres, Hrep, Hfirst by lia. f_equal.
    + intros [|k] Hk; [lia|]. rewrite Hres, Hrep, Hother by lia. done.
  - intros Hid k Hk. rewrite Hres by done. f_equal.
    apply reported_all_zero. intros [|m] Hm; [|by rewrite Hother].
    unfold contribution. rewrite has_entry_single_row_0.
    apply term_no_match_clean. unfold matches.
    by change (mineral_id_var (Group (single_row n))) with "group_1_mineral_id".
Qed.

(** C2, as amended.  A cell whose value after the replacement of NaN is
    exactly 0 for every mineral (for values that are not negative: whose
    total over the minerals is 0) is reported as missing for every
    mineral; a cell with a value other than 0 for some mineral keeps all
    its values, true zeros included.  In the example (one row, of library
    entry 5 in group 1, with weight 2 for the first mineral) a cell with
    id 5 and band depth 3 reports 6 for the first mineral and 0 for the
    other minerals, and every cell with another id is missing for every
    mineral. *)
Theorem zero_cells_are_missing :
  (∀ ds names tbl acc i j,
     is_Some (ds !! "group_1_band_depth") →
     accumulate ds names tbl
       (zeros (grid ds).1 (grid ds).2 (length names)) = (acc, None) →
     i < (grid ds).1 → j < (grid ds).2 →
     ((∀ m, m < length names → item3 (clean acc) i j m = of_Z 0) →
      ∀ k, k < length names →
        result_at (mineral_abundance ds names tbl) i j k = Some NaN)
     ∧ ((∀ m, m < length names → nonneg (item3 (clean acc) i j m)) →
        total (length names) (item3 (clean acc) i j) = of_Z 0 →
        ∀ k, k < length names →
          result_at (mineral_abundance ds names tbl) i j k = Some NaN)
     ∧ (∀ m, m < length names → item3 (clean acc) i j m ≠ of_Z 0 →
        ∀ k, k < length names →
          result_at (mineral_abundance ds names tbl) i j k
          = Some (item3 (clean acc) i j k)))
  ∧ (∀ ds names n i j,
       length names = S n →
       well_formed ds names [single_row n] = true →
       i < (grid ds).1 → j < (grid ds).2 →
       (layer ds "group_1_mineral_id" i j = of_Z 5 →
        layer ds "group_1_band_depth" i j = of_Z 3 →
        result_at (mineral_abundance ds names [single_row n]) i j 0
        = Some (of_Z 6)
        ∧ ∀ k, 0 < k < S n →
            result_at (mineral_abundance ds names [single_row n]) i j k
            = Some (of_Z 0))
       ∧ (eqb (layer ds "group_1_mineral_id" i j) (of_Z 5) = false →
          ∀ k, k < S n →
            result_at (mineral_abundance ds names [single_row n]) i j k
            = Some NaN)).
Proof. split; [apply zero_cells_missing|apply single_row_cells]. Qed.

(** The example on [scene_row] with two minerals. *)
Lemma zero_cells_are_missing_witness :
  result_at (mineral_abundance scene_row ["A"; "B"] [single_row 1]) 0 0 0
  = Some (of_Z 6)
  ∧ result_at (mineral_abundance scene_row ["A"; "B"] [single_row 1]) 0 0 1
    = Some (of_Z 0)
  ∧ result_at (mineral_abundance scene_row ["A"; "B"] [single_row 1]) 0 1 0
    = Some NaN
  ∧ result_at (mineral_abundance scene_row ["A"; "B"] [single_row 1]) 0 1 1
    = Some NaN.
Proof.
  destruct zero_cells_are_missing as [Hzero Hexample].
  destruct (Hexample scene_row ["A"; "B"] 1 0 0) as [Hcell _];
    [done|by_compute|vm_compute; lia|vm_compute; lia|].
  destruct Hcell as [Hfirst Hother]; [by_compute|by_compute|].
  pose (acc := (accumulate scene_row ["A"; "B"] [single_row 1] (zeros 1 2 2)).1).
  destruct (Hzero scene_row ["A"; "B"] [single_row 1] acc 0 1) as [Hmissing _];
    [by_compute|by_compute|vm_compute; lia|vm_compute; lia|].
  split; [exact Hfirst|]. split; [apply Hother; lia|].
  assert (∀ m, m < 2 → item3 (clean acc) 0 1 m = of_Z 0) as Hz.
  { intros [|[|m]] Hm; [by_compute|by_compute|lia]. }
  split; apply Hmissing; (exact Hz || (simpl; lia)).
Defined.

(** C2 as stated fails in its example as soon as the table has a second
    mineral: at the cell that reports 6 for the first mineral the second
    mineral is a true 0, not missing. *)
Lemma other_minerals_counterexample :
  result_at (mineral_abundance scene_row ["A"; "B"] [single_row 1]) 0 0 0
  = Some (of_Z 6)
  ∧ result_at (mineral_abundance scene_row ["A"; "B"] [single_row 1]) 0 0 1
    = Some (of_Z 0)
  ∧ result_at (mineral_abundance scene_row ["A"; "B"] [single_row 1]) 0 0 1
    ≠ Some missing.
Proof. split; [by_compute|]. split; by_compute. Qed.

(** ** The weights of the table *)

Lemma body_skip ds tbl m c r acc :
  tbl !! c = Some r → abundances r !! m = Some NaN →
  body ds tbl m c acc = Ok acc.
Proof. intros Hr He. unfold body, row_term. by rewrite Hr; cbn; rewrite He. Qed.

Lemma weight_sentinel r m :
  abundances r !! m = Some (of_Z (-1)) → weight r m = of_Z 1.
Proof. intros He. unfold weight. rewrite He. by_compute. Qed.

Lemma sentinel_cell ds names r i j k :
  well_formed ds names [r] = true →
  i < (grid ds).1 → j < (grid ds).2 → k < length names →
  abundances r !! k = Some (of_Z (-1)) →
  matches ds r i j = true →
  isnan (magnitude ds r i j) = false →
  eqb (magnitude ds r i j) (of_Z 0) = false →
  (∃ acc,
     accumulate ds names [r]
       (zeros (grid ds).1 (grid ds).2 (length names)) = (acc, None)
     ∧ item3 acc i j k = magnitude ds r i j)
  ∧ result_at (mineral_abundance ds names [r]) i j k
    = Some (magnitude ds r i j).
Proof.
  intros Hwf. destruct (well_formed_depth _ _ _ Hwf) as [depth Hd].
  rewrite (grid_shape _ _ Hd). intros Hi Hj Hk He Hm Hfin Hnz.
  assert (cell_acc ds [r] k i j = magnitude ds r i j) as Hcell.
  { rewrite cell_acc_single. unfold contribution, has_entry. rewrite He.
    change (negb (isnan (of_Z (-1)))) with true. cbn match.
    by rewrite term_match, weight_sentinel, mul_1_r. }
  split.
  - destruct (accumulate_cells ds names [r] depth Hd Hwf) as (acc & Hacc & _ & Hcells).
    exists acc. split; [done|]. by rewrite Hcells.
  - rewrite (result_at_cells ds names _ depth) by done. f_equal.
    rewrite (reported_not_all_zero _ (λ m, cell_acc ds [r] m i j) _ k);
      rewrite ?Hcell, ?nan_to_zero_Fin; done.
Qed.

(** C3.  In [mineral_abundance_ref] an entry -1 of the table has become the
    weight 1 and an empty (NaN) entry the weight 0, other entries are
    unchanged; the loop skips a row at a mineral it has no entry for, and
    a matching row with the entry -1 adds the full band depth, which the
    cell reports. *)
Theorem sentinel_and_missing_weights :
  (∀ tbl c r m e,
     tbl !! c = Some r → abundances r !! m = Some e →
     mineral_abundance_ref tbl !! c ≫= (.!! m)
     = Some (if isnan e then of_Z 0
             else if eqb e (of_Z (-1)) then of_Z 1 else e))
  ∧ (∀ ds tbl m c r acc,
       tbl !! c = Some r → abundances r !! m = Some NaN →
       body ds tbl m c acc = Ok acc)
  ∧ (∀ ds names r i j k,
       well_formed ds names [r] = true →
       i < (grid ds).1 → j < (grid ds).2 → k < length names →
       abundances r !! k = Some (of_Z (-1)) →
       matches ds r i j = true →
       isnan (magnitude ds r i j) = false →
       eqb (magnitude ds r i j) (of_Z 0) = false →
       (∃ acc,
          accumulate ds names [r]
            (zeros (grid ds).1 (grid ds).2 (length names)) = (acc, None)
          ∧ item3 acc i j k = magnitude ds r i j)
       ∧ result_at (mineral_abundance ds names [r]) i j k
         = Some (magnitude ds r i j)).
Proof.
  split; [|split; [apply body_skip|apply sentinel_cell]].
  intros tbl c r m e Hr He. rewrite (ref_lookup tbl c r m Hr), He. cbn.
  f_equal. unfold nan_to_zero. destruct (isnan e); [by_compute|done].
Qed.

(** The theorem on [scene_cell]: entry -1 and band depth 4 report 4. *)
Lemma sentinel_and_missing_weights_witness :
  mineral_abundance_ref [mk_grouping 5 1 [of_Z (-1); NaN; of_Z 2]]
  = [[of_Z 1; of_Z 0; of_Z 2]]
  ∧ magnitude scene_cell (mk_grouping 5 1 [of_Z (-1); NaN; of_Z 2]) 0 0 = of_Z 4
  ∧ result_at (mineral_abundance scene_cell ["Calcite"; "Chlorite"; "Dolomite"]
                 [mk_grouping 5 1 [of_Z (-1); NaN; of_Z 2]]) 0 0 0
    = Some (magnitude scene_cell (mk_grouping 5 1 [of_Z (-1); NaN; of_Z 2]) 0 0)
  ∧ result_at (mineral_abundance scene_cell ["Calcite"; "Chlorite"; "Dolomite"]
                 [mk_grouping 5 1 [of_Z (-1); NaN; of_Z 2]]) 0 0 1
    = Some (of_Z 0).
Proof.
  destruct sentinel_and_missing_weights as (_ & _ & Hcell).
  split; [by_compute|]. split; [by_compute|]. split; [|by_compute].
  apply Hcell; first [by_compute | vm_compute; lia].
Defined.

(** ** Shapes that do not fit *)

Lemma body_clash ds tbl s n m c r acc :
  tbl !! c = Some r → has_entry r m = true → clashes ds s r = true →
  shape3 acc = (s, n) →
  body ds tbl m c acc = Raise ValueError.
Proof.
  intros Hr He Hclash Hs.
  pose proof (ref_lookup tbl c r m Hr) as Href.
  unfold has_entry in He. destruct (abundances r !! m) as [e|] eqn:Hentry; [|done].
  apply negb_true_iff in He.
  unfold body, row_term. rewrite Hr. cbn. rewrite Hentry. cbn. rewrite He.
  unfold clashes in Hclash.
  destruct (ds !! mineral_id_var (Group r)) as [ids|]; [|done].
  destruct (ds !! band_depth_var (Group r)) as [depth|]; [|done]. cbn.
  unfold map2. cbn [map_scalar shape].
  destruct (broadcast_shape (shape ids) (shape depth)) as [t|]; [|done]. cbn.
  destruct (mineral_abundance_ref tbl !! c) as [ref_row|]; [|done].
  cbn in Href |- *. rewrite Href. cbn.
  unfold iadd_band. cbn [map_scalar shape]. rewrite Hs. cbn [fst].
  apply negb_true_iff in Hclash. by rewrite Hclash.
Qed.

Lemma for_each_clash ds tbl s n before m c r after acc :
  shape3 acc = (s, n) →
  Forall (λ u, runnable ds tbl s u = true) before →
  tbl !! c = Some r → has_entry r m = true → clashes ds s r = true →
  ∃ acc',
    for_each (λ u, attempt (body ds tbl u.1 u.2)) (before ++ (m, c) :: after) acc
    = (acc', Some ValueError)
    ∧ shape3 acc' = (s, n)
    ∧ ∀ i j k, i < s.1 → j < s.2 →
        item3 acc' i j k
        = foldl (update_cell ds tbl i j k) (item3 acc i j k) before.
Proof.
  intros Hs Hbefore Hr He Hclash.
  destruct (for_each_updates ds tbl s n before acc Hs Hbefore)
    as (acc' & Hrun & Hs' & Hcells).
  exists acc'. rewrite for_each_app, Hrun. cbn [for_each fst snd].
  unfold attempt. by rewrite (body_clash ds tbl s n m c r acc').
Qed.

(** C7, as amended.  The cell checks no shape before its loops.  It
    finishes exactly when the right-hand side of every update it runs can
    be computed and broadcast to the grid, whatever the shapes of the
    layers no update reads.  When the layers of a row with an entry cannot
    be broadcast together and to the grid, the cell raises [ValueError] at
    the first such update, after the updates before it have been
    accumulated into the array it leaves behind. *)
Theorem shapes_are_checked_by_the_updates ds names tbl :
  is_Some (ds !! "group_1_band_depth") →
  (Forall (λ u, runnable ds tbl (grid ds) u = true)
          (updates (length names) (length tbl))
   ↔ ∃ out, mineral_abundance ds names tbl = Done out)
  ∧ (∀ before m c r after,
       updates (length names) (length tbl) = before ++ (m, c) :: after →
       Forall (λ u, runnable ds tbl (grid ds) u = true) before →
       tbl !! c = Some r → has_entry r m = true →
       clashes ds (grid ds) r = true →
       ∃ partial,
         mineral_abundance ds names tbl = Raised ValueError (Some partial)
         ∧ shape3 partial = (grid ds, length names)
         ∧ ∀ i j k, i < (grid ds).1 → j < (grid ds).2 →
             item3 partial i j k
             = foldl (update_cell ds tbl i j k) (of_Z 0) before).
Proof.
  intros [depth Hd]. rewrite (grid_shape _ _ Hd).
  assert (shape3 (zeros (shape depth).1 (shape depth).2 (length names))
          = (shape depth, length names)) as Hs0 by by destruct (shape depth).
  split; [split|].
  - intros Hrun.
    destruct (mineral_abundance_runnable ds names tbl depth Hd Hrun)
      as (out & Hout & _).
    by exists out.
  - intros [out Hout].
    destruct (mineral_abundance_Done _ _ _ _ Hout) as (depth' & Hd' & Hrun).
    by simplify_eq.
  - unfold mineral_abundance. rewrite Hd. cbn zeta. rewrite accumulate_updates.
    intros before m c r after -> Hbefore Hr He Hclash.
    destruct (for_each_clash ds tbl _ _ before m c r after _ Hs0 Hbefore Hr He Hclash)
      as (acc & -> & Hs & Hcells).
    exists acc. split; [done|]. split; [done|]. intros i j k Hi Hj.
    by rewrite Hcells.
Qed.

(** The theorem on [scene_mismatched], without and with a row of the
    group whose layers do not fit. *)
Lemma shapes_are_checked_by_the_updates_witness :
  (∃ out, mineral_abundance scene_mismatched ["Calcite"]
            [mk_grouping 5 1 [of_Z 2]] = Done out)
  ∧ ∃ partial,
      mineral_abundance scene_mismatched ["Calcite"] table_two_groups
      = Raised ValueError (Some partial)
      ∧ shape3 partial = (grid scene_mismatched, 1)
      ∧ ∀ i j k, i < 2 → j < 2 →
          item3 partial i j k
          = foldl (update_cell scene_mismatched table_two_groups i j k)
                  (of_Z 0) [(0, 0)].
Proof.
  split.
  - destruct (shapes_are_checked_by_the_updates scene_mismatched ["Calcite"]
                [mk_grouping 5 1 [of_Z 2]]) as [Hdone _]; [by_compute|].
    apply Hdone. by_compute.
  - destruct (shapes_are_checked_by_the_updates scene_mismatched ["Calcite"]
                table_two_groups) as [_ Hraised]; [by_compute|].
    apply (Hraised [(0, 0)] 0 1 (mk_grouping 9 2 [of_Z 1]) []); by_compute.
Defined.

(** C7 as stated fails: in [scene_mismatched] the layers of group 2 differ
    in shape, yet the cell finishes when no row refers to group 2, and
    with such a row it raises only after the row of group 1 has been
    accumulated. *)
Lemma no_validation_counterexample :
  mismatched scene_mismatched 2 = true
  ∧ finished (mineral_abundance scene_mismatched ["Calcite"]
                [mk_grouping 5 1 [of_Z 2]])
    = Some [[[of_Z 6]; [NaN]]; [[NaN]; [NaN]]]
  ∧ left_behind (mineral_abundance scene_mismatched ["Calcite"] table_two_groups)
    = Some (ValueError, Some [[[of_Z 6]; [of_Z 0]]; [[of_Z 0]; [of_Z 0]]]).
Proof. split; [by_compute|]. split; by_compute. Qed.

(** ** Export *)

(** C9.  Each export cell writes one file with a single band and driver
    COG, whose samples are those of the layer with -9999 in place of every
    NaN.  The samples of the mineral id layer are cast to 64-bit integers,
    and its file declares no nodata value, although the cell sets -9999 on
    the array; the files of the band depth and of the abundance declare
    the nodata value -9999. *)
Theorem exports_carry_the_fill_value out_folder granule_id :
  (∀ ds layer,
     ds !! "group_1_mineral_id" = Some layer →
     ∃ cells,
       export_mineral_id out_folder granule_id ds
       = Ok (mk_raster_file
               (out_folder +:+ granule_id +:+ "_group_1_mineral_id.tif")
               "COG" [Ints cells] None)
       ∧ shape cells = shape layer
       ∧ ∀ i j, item cells i j
                = if isnan (item layer i j) then (-9999)%Z
                  else trunc (item layer i j))
  ∧ (∀ ds layer,
       ds !! "group_1_band_depth" = Some layer →
       ∃ cells,
         export_band_depth out_folder granule_id ds
         = Ok (mk_raster_file
                 (out_folder +:+ granule_id +:+ "_group_1_band_depth.tif")
                 "COG" [Floats cells] (Some (-9999)%Z))
         ∧ shape cells = shape layer
         ∧ ∀ i j, item cells i j
                  = if isnan (item layer i j) then of_Z (-9999)
                    else item layer i j)
  ∧ (∀ abundance layer,
       abundance !! "Calcite" = Some layer →
       ∃ cells,
         export_abundance out_folder granule_id abundance
         = Ok (mk_raster_file (out_folder +:+ granule_id +:+ "_Calcite.tif")
                 "COG" [Floats cells] (Some (-9999)%Z))
         ∧ shape cells = shape layer
         ∧ ∀ i j, item cells i j
                  = if isnan (item layer i j) then of_Z (-9999)
                    else item layer i j).
Proof.
  split; [|split].
  - intros ds layer Hl. unfold export_mineral_id. rewrite Hl. cbn.
    eexists. split; [reflexivity|]. split; [done|]. intros i j. cbn.
    destruct (item layer i j); [done|]. cbn [isnan]. by_compute.
  - intros ds layer Hl. unfold export_band_depth. rewrite Hl. cbn.
    eexists. split; [reflexivity|]. split; done.
  - intros ds layer Hl. unfold export_abundance. rewrite Hl. cbn.
    eexists. split; [reflexivity|]. split; done.
Qed.

(** The three export cells on layers with a missing cell. *)
Lemma exports_carry_the_fill_value_witness :
  (∃ cells,
     export_mineral_id "out/" "EMIT" scene_to_export
     = Ok (mk_raster_file "out/EMIT_group_1_mineral_id.tif" "COG"
             [Ints cells] None)
     ∧ tolist cells = [[5; -9999]]%Z)
  ∧ (∃ cells,
       export_band_depth "out/" "EMIT" scene_to_export
       = Ok (mk_raster_file "out/EMIT_group_1_band_depth.tif" "COG"
               [Floats cells] (Some (-9999)%Z))
       ∧ tolist cells = [[of_Z 3; of_Z (-9999)]])
  ∧ (∃ cells,
       export_abundance "out/" "EMIT" abundance_to_export
       = Ok (mk_raster_file "out/EMIT_Calcite.tif" "COG"
               [Floats cells] (Some (-9999)%Z))
       ∧ tolist cells = [[of_Z 6; of_Z (-9999)]]).
Proof.
  destruct (exports_carry_the_fill_value "out/" "EMIT") as (Hid & Hdepth & Habundance).
  split; [|split].
  - destruct (Hid scene_to_export (array NaN [[of_Z 5; NaN]]))
      as (cells & Hfile & Hshape & Hcells); [by_compute|].
    exists cells. split; [exact Hfile|].
    unfold tolist. rewrite Hshape. cbn. rewrite !Hcells. by_compute.
  - destruct (Hdepth scene_to_export (array NaN [[of_Z 3; NaN]]))
      as (cells & Hfile & Hshape & Hcells); [by_compute|].
    exists cells. split; [exact Hfile|].
    unfold tolist. rewrite Hshape. cbn. by rewrite !Hcells.
  - destruct (Habundance abundance_to_export
                (default (array NaN []) (abundance_to_export !! "Calcite")))
      as (cells & Hfile & Hshape & Hcells); [by_compute|].
    exists cells. split; [exact Hfile|].
    assert (shape cells = (1, 2)) as Hs by (rewrite Hshape; by_compute).
    unfold tolist. rewrite Hs. cbn. rewrite !Hcells. by_compute.
Defined.

(** The three export cells take the same steps for the nodata value, and
    the file of the mineral id is the one that does not declare it: on
    [scene_to_export] its band holds -9999 at the missing cell, as do the
    files of the band depth and of the abundance, which declare -9999. *)
Lemma mineral_id_file_declares_no_nodata :
  (∃ cells,
     export_mineral_id "out/" "EMIT" scene_to_export
     = Ok (mk_raster_file "out/EMIT_group_1_mineral_id.tif" "COG"
             [Ints cells] None)
     ∧ tolist cells = [[5; -9999]]%Z)
  ∧ declared_nodata (export_mineral_id "out/" "EMIT" scene_to_export) = None
  ∧ declared_nodata (export_band_depth "out/" "EMIT" scene_to_export)
    = Some (-9999)%Z
  ∧ declared_nodata (export_abundance "out/" "EMIT" abundance_to_export)
    = Some (-9999)%Z.
Proof.
  split; [|repeat split; by_compute].
  eexists. split; [reflexivity|by_compute].
Qed.

(** ** The remapper *)

Lemma remap_lookup source_layers index_map l source :
  source_layers !! l = Some source →
  remap source_layers index_map !! l
  = Some (mk_ndarray (shape index_map)
            (λ i j, remap_cell source (item index_map i j))).
Proof. intros Hl. unfold remap. by rewrite list_lookup_fmap, Hl. Qed.

Lemma decode_identity i j :
  decode (Z.of_nat i + 1, Z.of_nat j + 1)%Z = (i, j).
Proof. unfold decode. cbn [fst snd]. f_equal; lia. Qed.

(** C5.  Where the entry of the index map is valid and points inside the
    source, the output cell of every layer is the source sample it points
    to; with the identity index map every layer is returned as it is. *)
Theorem remap_is_a_gather :
  (∀ source_layers index_map l source i j,
     source_layers !! l = Some source →
     valid (item index_map i j) = true →
     in_bounds (shape source) (decode (item index_map i j)) = true →
     ∃ out,
       remap source_layers index_map !! l = Some out
       ∧ shape out = shape index_map
       ∧ item out i j
         = item source (decode (item index_map i j)).1
                       (decode (item index_map i j)).2)
  ∧ (∀ source_layers l source i j,
       source_layers !! l = Some source →
       i < (shape source).1 → j < (shape source).2 →
       ∃ out,
         remap source_layers (identity_map (shape source)) !! l = Some out
         ∧ shape out = shape source
         ∧ item out i j = item source i j).
Proof.
  split.
  - intros source_layers index_map l source i j Hl Hvalid Hin.
    eexists. split; [by apply remap_lookup|]. split; [done|].
    cbn. unfold remap_cell. by rewrite Hvalid, Hin.
  - intros source_layers l source i j Hl Hi Hj.
    eexists. split; [by apply remap_lookup|]. split; [done|].
    cbn. unfold remap_cell, valid, in_bounds. rewrite decode_identity.
    cbn [fst snd]. by rewrite !bool_decide_true by lia.
Qed.

(** The theorem on [source_2x2]. *)
Lemma remap_is_a_gather_witness :
  (∃ out, remap [source_2x2] glt_row !! 0 = Some out
          ∧ shape out = (1, 3) ∧ item out 0 0 = of_Z 12)
  ∧ (∃ out, remap [source_2x2] (identity_map (2, 2)) !! 0 = Some out
            ∧ shape out = (2, 2) ∧ item out 1 0 = item source_2x2 1 0).
Proof.
  destruct remap_is_a_gather as [Hgather Hidentity]. split.
  - destruct (Hgather [source_2x2] glt_row 0 source_2x2 0 0)
      as (out & Hout & Hshape & Hitem); [done..|].
    exists out. split; [done|]. split; [done|]. rewrite Hitem. by_compute.
  - apply (Hidentity [source_2x2] 0 source_2x2 1 0); [done|cbn; lia..].
Defined.

(** C6.  [remap] returns one layer per source layer, each in the shape of
    the index map, and a cell whose entry is invalid or points outside the
    source is missing in every layer, whatever the source holds. *)
Theorem remap_marks_missing source_layers index_map :
  length (remap source_layers index_map) = length source_layers
  ∧ ∀ l source,
      source_layers !! l = Some source →
      ∃ out,
        remap source_layers index_map !! l = Some out
        ∧ shape out = shape index_map
        ∧ ∀ i j,
            valid (item index_map i j) = false
            ∨ in_bounds (shape source) (decode (item index_map i j)) = false →
            item out i j = missing.
Proof.
  split; [apply length_fmap|]. intros l source Hl.
  eexists. split; [by apply remap_lookup|]. split; [done|].
  intros i j Hbad. cbn. unfold remap_cell.
  destruct Hbad as [-> | ->]; [done|]. by rewrite andb_false_r.
Qed.

(** The theorem on [glt_row]: the no-source marker and the entry outside
    the source. *)
Lemma remap_marks_missing_witness :
  ∃ out,
    remap [source_2x2] glt_row !! 0 = Some out
    ∧ shape out = (1, 3)
    ∧ item out 0 1 = missing ∧ item out 0 2 = missing.
Proof.
  destruct (remap_marks_missing [source_2x2] glt_row) as [_ Hcells].
  destruct (Hcells 0 source_2x2 eq_refl) as (out & Hout & Hshape & Hmissing).
  exists out. split; [exact Hout|]. split; [exact Hshape|]. split.
  - apply Hmissing. left. by_compute.
  - apply Hmissing. right. by_compute.
Defined.

(** ** Further properties of the cell *)

Lemma contribution_no_match_clean ds tbl m i j :
  Forall (λ r, matches ds r i j = false) tbl →
  nan_to_zero (cell_acc ds tbl m i j) = of_Z 0.
Proof.
  intros Hno. rewrite cell_acc_sum.
  assert (Forall (λ x, nan_to_zero x = of_Z 0) (contribution ds m i j <$> tbl)) as Hz.
  { apply Forall_fmap. eapply Forall_impl; [exact Hno|]. intros r Hr. cbn.
    unfold contribution. case_match; [by apply term_no_match_clean|done]. }
  induction Hz as [|x xs Hx _ IH]; [done|].
  rewrite sum_cons. destruct x as [q|], (sum_list xs) as [s|]; try done.
  unfold nan_to_zero in Hx, IH. cbn [isnan] in Hx, IH. rewrite Hx, IH.
  by rewrite add_0_l.
Qed.

(** X1.  On well-formed inputs the cell raises nothing and returns an array of
    the shape of the grid with one band per mineral name; an id that no
    row of the table matches is no error: a cell at which no row matches
    contributes nothing and is reported as missing. *)
Theorem unmatched_ids_are_no_error ds names tbl :
  well_formed ds names tbl = true →
  ∃ out,
    mineral_abundance ds names tbl = Done out
    ∧ shape3 out = (grid ds, length names)
    ∧ ∀ i j, i < (grid ds).1 → j < (grid ds).2 →
        Forall (λ r, matches ds r i j = false) tbl →
        ∀ k, k < length names → item3 out i j k = NaN.
Proof.
  intros Hwf. destruct (well_formed_depth _ _ _ Hwf) as [depth Hd].
  rewrite (grid_shape _ _ Hd).
  destruct (mineral_abundance_cells ds names tbl depth Hd Hwf)
    as (out & Hout & Hs & Hcells).
  exists out. split; [done|]. split; [done|]. intros i j Hi Hj Hno k Hk.
  rewrite Hcells by done. apply reported_all_zero. intros m _.
  by apply contribution_no_match_clean.
Qed.

(** The theorem on [scene_row], whose second cell holds an id without a
    row. *)
Lemma unmatched_ids_are_no_error_witness :
  ∃ out,
    mineral_abundance scene_row ["Calcite"] [mk_grouping 5 1 [of_Z 2]] = Done out
    ∧ shape3 out = (1, 2, 1)
    ∧ item3 out 0 1 0 = NaN.
Proof.
  destruct (unmatched_ids_are_no_error scene_row ["Calcite"]
              [mk_grouping 5 1 [of_Z 2]]) as (out & Hout & Hs & Hcells);
    [by_compute|].
  exists out. split; [exact Hout|]. split; [exact Hs|].
  apply Hcells; [vm_compute; lia..| |simpl; lia]. by_compute.
Defined.

(** * Further properties of the notebook *)

(** ** The finished array, cell by cell *)

Lemma mineral_abundance_reported ds names tbl out :
  mineral_abundance ds names tbl = Done out →
  ∃ depth,
    ds !! "group_1_band_depth" = Some depth
    ∧ shape3 out = (shape depth, length names)
    ∧ ∀ i j k, k < length names →
        item3 out i j k
        = reported (length names) (λ m, accumulated ds tbl m i j) k.
Proof.
  intros Hdone.
  destruct (mineral_abundance_Done _ _ _ _ Hdone) as (depth & Hd & Hrun).
  destruct (mineral_abundance_runnable ds names tbl depth Hd Hrun)
    as (out' & Hout & Hs & Hcells).
  rewrite Hdone in Hout. injection Hout as <-. by exists depth.
Qed.

Lemma forallb_false_elem {A} (f : A → bool) l :
  forallb f l = false → ∃ x, x ∈ l ∧ f x = false.
Proof.
  induction l as [|x l IH]; [done|]. cbn [forallb].
  destruct (f x) eqn:Hx.
  - intros (y & Hy & Hfy)%IH. exists y. split; [by right|done].
  - intros _. exists x. split; [by left|done].
Qed.

Lemma reported_cases n acc :
  (∀ k, reported n acc k = NaN)
  ∨ ((∀ k, reported n acc k = nan_to_zero (acc k))
     ∧ ∃ m, m < n ∧ nan_to_zero (acc m) ≠ of_Z 0).
Proof.
  unfold reported.
  destruct (forallb _ _) eqn:Hall; [by left|right]. split; [done|].
  apply forallb_false_elem in Hall as (m & Hm%elem_of_seq & Hne).
  exists m. split; [lia|]. intros Heq. by rewrite Heq in Hne.
Qed.

(** X3.  In the array of a run that finishes, a cell is NaN for every
    mineral or for none; in the second case some mineral has a value other
    than 0 at the cell. *)
Theorem cells_are_missing_for_all_minerals_or_none ds names tbl out i j :
  mineral_abundance ds names tbl = Done out →
  (∀ k, k < length names → item3 out i j k = NaN)
  ∨ ((∀ k, k < length names → isnan (item3 out i j k) = false)
     ∧ ∃ k, k < length names ∧ item3 out i j k ≠ of_Z 0).
Proof.
  intros Hdone.
  destruct (mineral_abundance_reported _ _ _ _ Hdone)
    as (depth & _ & _ & Hcells).
  destruct (reported_cases (length names) (λ m, accumulated ds tbl m i j))
    as [Hnan|[Hval (m & Hm & Hne)]].
  - left. intros k Hk. by rewrite Hcells.
  - right. split.
    + intros k Hk. rewrite Hcells, Hval by done. apply isnan_nan_to_zero.
    + exists m. split; [done|]. by rewrite Hcells, Hval.
Qed.

(** The theorem on the second cell of [scene_row], with two minerals. *)
Lemma cells_are_missing_for_all_minerals_or_none_witness :
  ∃ out,
    mineral_abundance scene_row ["Calcite"; "Chlorite"]
      [mk_grouping 5 1 [of_Z 2; NaN]] = Done out
    ∧ ((∀ k, k < 2 → item3 out 0 1 k = NaN)
       ∨ ((∀ k, k < 2 → isnan (item3 out 0 1 k) = false)
          ∧ ∃ k, k < 2 ∧ item3 out 0 1 k ≠ of_Z 0)).
Proof.
  destruct (mineral_abundance scene_row ["Calcite"; "Chlorite"]
              [mk_grouping 5 1 [of_Z 2; NaN]]) as [out|e p] eqn:Hrun;
    [|by vm_compute in Hrun].
  exists out. split; [done|].
  exact (cells_are_missing_for_all_minerals_or_none scene_row
           ["Calcite"; "Chlorite"] [mk_grouping 5 1 [of_Z 2; NaN]] out 0 1 Hrun).
Defined.

(** ** The total abundance *)

Lemma sum_list_zeros {A} (f : A → num) xs :
  (∀ x, x ∈ xs → f x = of_Z 0) → sum_list (f <$> xs) = of_Z 0.
Proof.
  induction xs as [|x xs IH]; intros Hz; [done|].
  cbn [fmap list_fmap]. rewrite sum_cons, Hz, add_0_l by left.
  apply IH. intros y Hy. apply Hz. by right.
Qed.



(** ** The bands by name *)

Lemma imap_keys {A B} (f : nat → A → B) l :
  (imap (λ i x, (x, f i x)) l).*1 = l.
Proof.
  revert f. induction l as [|x l IH]; intros f; [done|].
  cbn. f_equal. apply (IH (f ∘ S)).
Qed.

Lemma mineral_abundance_xarray_names (names : list string) (out : ndarray3) :
  (imap (λ _x name, (name, band out _x)) names).*1 = names.
Proof. apply (imap_keys (λ _x _, band out _x)). Qed.

Lemma mineral_abundance_xarray_lookup names out k name :
  NoDup names → names !! k = Some name →
  mineral_abundance_xarray names out !! name = Some (band out k).
Proof.
  intros Hnd Hk. unfold mineral_abundance_xarray.
  apply elem_of_list_to_map_1.
  - by rewrite mineral_abundance_xarray_names.
  - by apply (elem_of_lookup_imap_2 (λ _x name, (name, band out _x))).
Qed.

Lemma mineral_abundance_xarray_None names out name :
  name ∉ names → mineral_abundance_xarray names out !! name = None.
Proof.
  intros Hn. unfold mineral_abundance_xarray.
  apply not_elem_of_list_to_map_1. by rewrite mineral_abundance_xarray_names.
Qed.

(** X5.  With distinct mineral names, section 4.3 writes the band of the
    abundance array at the position of "Calcite" among [mineral_names],
    with -9999 in place of NaN; when no mineral is named "Calcite" the
    cell raises [KeyError]. *)
Theorem calcite_export_writes_its_band out_folder granule_id names out :
  NoDup names →
  (∀ k, names !! k = Some "Calcite" →
     ∃ cells,
       export_abundance out_folder granule_id (mineral_abundance_xarray names out)
       = Ok (mk_raster_file (out_folder +:+ granule_id +:+ "_Calcite.tif")
               "COG" [Floats cells] (Some (-9999)%Z))
       ∧ shape cells = (shape3 out).1
       ∧ ∀ i j, item cells i j
                = if isnan (item3 out i j k) then of_Z (-9999)
                  else item3 out i j k)
  ∧ ("Calcite" ∉ names →
     export_abundance out_folder granule_id (mineral_abundance_xarray names out)
     = Raise KeyError).
Proof.
  intros Hnd. split.
  - intros k Hk. unfold export_abundance.
    rewrite (mineral_abundance_xarray_lookup names out k) by done. cbn.
    eexists. split; [reflexivity|]. split; done.
  - intros Hn. unfold export_abundance.
    by rewrite mineral_abundance_xarray_None.
Qed.

(** The theorem on an array of two minerals, with "Calcite" second and
    with no "Calcite". *)
Lemma calcite_export_writes_its_band_witness :
  (∃ cells,
     export_abundance "out/" "EMIT"
       (mineral_abundance_xarray ["Hematite"; "Calcite"]
          (mk_ndarray3 (1, 2, 2)
             (λ _ j k, if decide (j = 0) then of_Z (Z.of_nat k + 6) else NaN)))
     = Ok (mk_raster_file "out/EMIT_Calcite.tif" "COG" [Floats cells]
             (Some (-9999)%Z))
     ∧ tolist cells = [[of_Z 7; of_Z (-9999)]])
  ∧ export_abundance "out/" "EMIT"
      (mineral_abundance_xarray ["Hematite"; "Goethite"]
         (mk_ndarray3 (1, 2, 2) (λ _ _ _, of_Z 1)))
    = Raise KeyError.
Proof.
  split.
  - destruct (calcite_export_writes_its_band "out/" "EMIT" ["Hematite"; "Calcite"]
      (mk_ndarray3 (1, 2, 2)
         (λ _ j k, if decide (j = 0) then of_Z (Z.of_nat k + 6) else NaN)))
      as [Hband _]; [by_compute|].
    destruct (Hband 1) as (cells & Hfile & Hs & Hcells); [done|].
    exists cells. split; [exact Hfile|].
    unfold tolist. rewrite Hs. cbn. rewrite !Hcells. by_compute.
  - destruct (calcite_export_writes_its_band "out/" "EMIT" ["Hematite"; "Goethite"]
      (mk_ndarray3 (1, 2, 2) (λ _ _ _, of_Z 1))) as [_ Hnone]; [by_compute|].
    apply Hnone. by_compute.
Defined.

(** ** Fill values, from section 2.1 to the files *)

Lemma trunc_of_Z z :
  (- 9223372036854775808 ≤ z < 9223372036854775808)%Z → trunc (of_Z z) = z.
Proof.
  intros Hz. unfold trunc, of_Z, Qc_of_Z, Q2Qc. cbn.
  rewrite Z.quot_1_r. by rewrite bool_decide_true.
Qed.

(** X6.  A layer that goes through section 2.1 (fill values to NaN) and
    then through an export cell is written with its own samples wherever
    it held no NaN at first, the fill values included: the band depth
    sample by sample, the mineral id, where its sample is a whole number
    of the 64-bit range, as that integer. *)
Theorem export_restores_the_fill_values out_folder granule_id ds :
  (∀ layer,
     ds !! "group_1_band_depth" = Some layer →
     ∃ cells,
       export_band_depth out_folder granule_id (fill_to_nan ds)
       = Ok (mk_raster_file
               (out_folder +:+ granule_id +:+ "_group_1_band_depth.tif")
               "COG" [Floats cells] (Some (-9999)%Z))
       ∧ shape cells = shape layer
       ∧ ∀ i j, isnan (item layer i j) = false →
                item cells i j = item layer i j)
  ∧ (∀ layer,
       ds !! "group_1_mineral_id" = Some layer →
       ∃ file cells,
         export_mineral_id out_folder granule_id (fill_to_nan ds) = Ok file
         ∧ raster_path file
           = out_folder +:+ granule_id +:+ "_group_1_mineral_id.tif"
         ∧ bands file = [Ints cells]
         ∧ shape cells = shape layer
         ∧ ∀ i j id,
             (- 9223372036854775808 ≤ id < 9223372036854775808)%Z →
             item layer i j = of_Z id → item cells i j = id).
Proof.
  split.
  - intros layer Hl. unfold export_band_depth, fill_to_nan.
    rewrite lookup_fmap, Hl. cbn.
    eexists. split; [reflexivity|]. split; [done|]. intros i j Hnan. cbn.
    destruct (eqb (item layer i j) (of_Z (-9999))) eqn:Heq.
    + apply eqb_eq in Heq as [-> _]. done.
    + by rewrite Hnan.
  - intros layer Hl. unfold export_mineral_id, fill_to_nan.
    rewrite lookup_fmap, Hl. cbn.
    eexists _, _. split; [reflexivity|]. split; [done|]. split; [done|].
    split; [done|]. intros i j id Hrange Hid. cbn.
    rewrite Hid.
    destruct (eqb (of_Z id) (of_Z (-9999))) eqn:Heq.
    + apply eqb_eq in Heq as [Heq _]. cbn [isnan]. rewrite <-Heq.
      by apply trunc_of_Z.
    + cbn [isnan of_Z]. by apply trunc_of_Z.
Qed.

(** The theorem on [scene_orthorectified]: the files hold the fill value
    again. *)
Lemma export_restores_the_fill_values_witness :
  (∃ cells,
     export_band_depth "out/" "EMIT" (fill_to_nan scene_orthorectified)
     = Ok (mk_raster_file "out/EMIT_group_1_band_depth.tif" "COG"
             [Floats cells] (Some (-9999)%Z))
     ∧ tolist cells = [[of_Z (-9999); of_Z 3]])
  ∧ (∃ file cells,
       export_mineral_id "out/" "EMIT" (fill_to_nan scene_orthorectified)
       = Ok file
       ∧ bands file = [Ints cells]
       ∧ tolist cells = [[-9999; 5]]%Z).
Proof.
  destruct (export_restores_the_fill_values "out/" "EMIT" scene_orthorectified)
    as [Hdepth Hid]. split.
  - destruct (Hdepth (array NaN [[of_Z (-9999); of_Z 3]]))
      as (cells & Hfile & Hs & Hcells); [by_compute|].
    exists cells. split; [exact Hfile|].
    unfold tolist. rewrite Hs. cbn. rewrite !Hcells by by_compute. by_compute.
  - destruct (Hid (array NaN [[of_Z (-9999); of_Z 5]]))
      as (file & cells & Hfile & _ & Hbands & Hs & Hcells); [by_compute|].
    exists file, cells. split; [exact Hfile|]. split; [exact Hbands|].
    unfold tolist. rewrite Hs. cbn.
    rewrite (Hcells 0 0 (-9999)%Z), (Hcells 0 1 5%Z) by (lia || by_compute).
    done.
Defined.

(** ** Layers that are not there *)

Lemma body_KeyError ds tbl m c r acc :
  tbl !! c = Some r → has_entry r m = true →
  ds !! mineral_id_var (Group r) = None
  ∨ ds !! band_depth_var (Group r) = None →
  body ds tbl m c acc = Raise KeyError.
Proof.
  intros Hr He Hnone.
  unfold has_entry in He. destruct (abundances r !! m) as [e|] eqn:Hentry; [|done].
  apply negb_true_iff in He.
  unfold body, row_term. rewrite Hr. cbn. rewrite Hentry. cbn. rewrite He.
  destruct (ds !! mineral_id_var (Group r)) as [ids|]; [|done]. cbn.
  by destruct Hnone as [?| ->].
Qed.

Lemma body_no_entry ds tbl m c r acc :
  tbl !! c = Some r → abundances r !! m = Some NaN →
  body ds tbl m c acc = Ok acc.
Proof.
  intros Hr Hentry. unfold body, row_term. rewrite Hr. cbn.
  by rewrite Hentry.
Qed.

Lemma fits_no_entry ds s r m :
  abundances r !! m = Some NaN → fits ds s r m = true.
Proof. intros Hentry. unfold fits, rhs_of. by rewrite Hentry. Qed.

Lemma addend_NaN_entry ds r m i j :
  abundances r !! m = Some NaN → addend ds r m i j = of_Z 0.
Proof. intros Hentry. unfold addend, rhs_of. by rewrite Hentry. Qed.

(** X7.  The cell raises [KeyError] before it allocates anything when the
    dataset has no band depth of group 1, and at the first update of a row
    with a defined weight whose group has no id layer or no band-depth
    layer, after the updates before it have been accumulated.  A table
    whose entries are all NaN reads no layer of its groups: the cell
    finishes, with every cell missing. *)
Theorem missing_layers_raise_KeyError ds names tbl :
  (ds !! "group_1_band_depth" = None →
   mineral_abundance ds names tbl = Raised KeyError None)
  ∧ (∀ before m c r after,
       is_Some (ds !! "group_1_band_depth") →
       updates (length names) (length tbl) = before ++ (m, c) :: after →
       Forall (λ u, runnable ds tbl (grid ds) u = true) before →
       tbl !! c = Some r → has_entry r m = true →
       ds !! mineral_id_var (Group r) = None
       ∨ ds !! band_depth_var (Group r) = None →
       ∃ partial,
         mineral_abundance ds names tbl = Raised KeyError (Some partial)
         ∧ shape3 partial = (grid ds, length names)
         ∧ ∀ i j k,
             item3 partial i j k
             = foldl (update_cell ds tbl i j k) (of_Z 0) before)
  ∧ (is_Some (ds !! "group_1_band_depth") →
     (∀ r m, r ∈ tbl → m < length names → abundances r !! m = Some NaN) →
     ∃ out,
       mineral_abundance ds names tbl = Done out
       ∧ shape3 out = (grid ds, length names)
       ∧ ∀ i j k, k < length names → item3 out i j k = NaN).
Proof.
  split; [|split].
  - intros Hd. unfold mineral_abundance. by rewrite Hd.
  - intros before m c r after [depth Hd] Hus Hbefore Hr He Hnone.
    rewrite (grid_shape _ _ Hd) in *.
    assert (shape3 (zeros (shape depth).1 (shape depth).2 (length names))
            = (shape depth, length names)) as Hs0 by by destruct (shape depth).
    unfold mineral_abundance. rewrite Hd. cbn zeta.
    rewrite accumulate_updates, Hus.
    destruct (for_each_updates ds tbl _ _ before _ Hs0 Hbefore)
      as (acc & Hrun & Hs & Hcells).
    rewrite for_each_app, Hrun. cbn [for_each fst snd]. unfold attempt.
    rewrite (body_KeyError ds tbl m c r acc) by done.
    exists acc. split; [done|]. split; [done|]. intros i j k.
    by rewrite Hcells.
  - intros [depth Hd] Hnan. rewrite (grid_shape _ _ Hd).
    destruct (mineral_abundance_runnable ds names tbl depth Hd)
      as (out & Hout & Hs & Hcells).
    { apply runnable_updates. intros m r Hm Hr.
      apply fits_no_entry. by apply Hnan. }
    exists out. split; [done|]. split; [done|]. intros i j k Hk.
    rewrite Hcells by done. apply reported_all_zero. intros m Hm.
    unfold accumulated. rewrite sum_list_zeros; [by_compute|].
    intros r Hr. apply addend_NaN_entry. by apply Hnan.
Qed.

(** The theorem on [scene_cell], which has no layer of group 2: a table
    with a row of group 2 after a row of group 1, and a table whose row of
    group 2 has no entry. *)
Lemma missing_layers_raise_KeyError_witness :
  mineral_abundance ∅ ["Calcite"] table_two_groups = Raised KeyError None
  ∧ (∃ partial,
       mineral_abundance scene_cell ["Calcite"] table_two_groups
       = Raised KeyError (Some partial)
       ∧ tolist3 partial = [[[of_Z 8]]])
  ∧ (∃ out,
       mineral_abundance scene_cell ["Calcite"] [mk_grouping 9 2 [NaN]]
       = Done out
       ∧ tolist3 out = [[[NaN]]]).
Proof.
  split; [|split].
  - by apply (missing_layers_raise_KeyError ∅ ["Calcite"] table_two_groups).
  - destruct (missing_layers_raise_KeyError scene_cell ["Calcite"]
                table_two_groups) as (_ & Hraised & _).
    destruct (Hraised [(0, 0)] 0 1 (mk_grouping 9 2 [of_Z 1]) [])
      as (partial & Hrun & Hs & Hcells);
      [by_compute..|by left|].
    exists partial. split; [exact Hrun|].
    assert (shape3 partial = (1, 1, 1)) as Hs' by (rewrite Hs; by_compute).
    unfold tolist3. rewrite Hs'. cbn. rewrite Hcells. by_compute.
  - destruct (missing_layers_raise_KeyError scene_cell ["Calcite"]
                [mk_grouping 9 2 [NaN]]) as (_ & _ & Hdone).
    destruct Hdone as (out & Hrun & Hs & Hcells); [by_compute|..].
    { intros r m ->%list_elem_of_singleton Hm. cbn in Hm.
      by replace m with 0 by lia. }
    exists out. split; [exact Hrun|].
    assert (shape3 out = (1, 1, 1)) as Hs' by (rewrite Hs; by_compute).
    unfold tolist3. rewrite Hs'. cbn. rewrite Hcells by (cbn; lia). done.
Defined.

(** ** Abundances are not negative *)

Lemma nan_or_nonneg_add x y :
  nan_or_nonneg x → nan_or_nonneg y → nan_or_nonneg (add x y).
Proof.
  destruct x as [a|], y as [b|]; cbn; try done. intros Ha Hb.
  rewrite <-(Qcplus_0_l 0). by apply Qcplus_le_compat.
Qed.

Lemma nan_or_nonneg_mul x y :
  nan_or_nonneg x → nan_or_nonneg y → nan_or_nonneg (mul x y).
Proof.
  destruct x as [a|], y as [b|]; cbn; try done. intros Ha Hb.
  rewrite <-(Qcmult_0_l b). by apply Qcmult_le_compat_r.
Qed.

Lemma nan_or_nonneg_of_bool b : nan_or_nonneg (of_bool b).
Proof. destruct b; by_compute. Qed.

Lemma nan_or_nonneg_sum xs :
  Forall nan_or_nonneg xs → nan_or_nonneg (sum_list xs).
Proof.
  induction 1 as [|x xs Hx _ IH]; [by_compute|].
  rewrite sum_cons. by apply nan_or_nonneg_add.
Qed.

Lemma nan_or_nonneg_nan_to_zero x :
  nan_or_nonneg x → nan_or_nonneg (nan_to_zero x).
Proof. destruct x; [done|]. intros _. by_compute. Qed.

Lemma nan_or_nonneg_weight r m :
  (∀ e, abundances r !! m = Some e → e = of_Z (-1) ∨ nan_or_nonneg e) →
  nan_or_nonneg (weight r m).
Proof.
  intros He. unfold weight.
  destruct (abundances r !! m) as [e|]; [|by_compute].
  destruct (He e eq_refl) as [->|Hn]; [by_compute|]. cbn [default].
  destruct e as [q|]; [|by_compute].
  unfold nan_to_zero. cbn [isnan]. unfold sentinel_to_one.
  by destruct (eqb _ _); [by_compute|].
Qed.

Lemma stretch_broadcast n m t s i :
  broadcast_dim n m = Some t → t = s ∨ t = 1 → i < s →
  stretch n (stretch t i) < n ∧ stretch m (stretch t i) < m.
Proof.
  unfold broadcast_dim, stretch. intros Ht Hs Hi.
  repeat case_decide; simplify_eq; lia.
Qed.

(** What a row adds at a cell of the grid is its weight times 0 or times a
    sample of its band depth. *)
Lemma addend_depth ds s r m i j :
  fits ds s r m = true → has_entry r m = true → i < s.1 → j < s.2 →
  ∃ depth i' j' b,
    ds !! band_depth_var (Group r) = Some depth
    ∧ i' < (shape depth).1 ∧ j' < (shape depth).2
    ∧ addend ds r m i j = mul (mul (of_bool b) (item depth i' j')) (weight r m).
Proof.
  intros Hfits He Hi Hj. unfold fits in Hfits. unfold addend.
  rewrite rhs_of_entry in * by done. unfold masked_depth in *.
  destruct (ds !! mineral_id_var (Group r)) as [ids|]; [|done].
  destruct (ds !! band_depth_var (Group r)) as [depth|]; [|done].
  cbn in *. unfold map2 in *. cbn [map_scalar shape item] in *.
  unfold broadcast_shape in *.
  destruct (broadcast_dim (shape ids).1 (shape depth).1) as [h|] eqn:Hh; [|done].
  destruct (broadcast_dim (shape ids).2 (shape depth).2) as [w|] eqn:Hw; [|done].
  cbn in *. unfold broadcastable_to in Hfits.
  apply bool_decide_eq_true in Hfits as [Hh' Hw']. cbn in Hh', Hw'.
  destruct (stretch_broadcast _ _ _ _ i Hh Hh' Hi) as [_ Hi'].
  destruct (stretch_broadcast _ _ _ _ j Hw Hw' Hj) as [_ Hj'].
  by eexists depth, _, _, _.
Qed.

(** X8.  When the band depths the table refers to are NaN or not negative
    inside their layers and every entry of the table is NaN, -1 or not
    negative, no abundance of a run that finishes is negative: inside the
    grid every value of the array is NaN or at least 0. *)
Theorem abundances_are_never_negative ds names tbl out :
  mineral_abundance ds names tbl = Done out →
  (∀ r m e, r ∈ tbl → abundances r !! m = Some e →
     e = of_Z (-1) ∨ nan_or_nonneg e) →
  (∀ r depth i j, r ∈ tbl → ds !! band_depth_var (Group r) = Some depth →
     i < (shape depth).1 → j < (shape depth).2 →
     nan_or_nonneg (item depth i j)) →
  ∀ i j k, i < (grid ds).1 → j < (grid ds).2 → k < length names →
    nan_or_nonneg (item3 out i j k).
Proof.
  intros Hdone Htbl Hdepth i j k Hi Hj Hk.
  destruct (mineral_abundance_Done _ _ _ _ Hdone) as (depth & Hd & Hrun).
  destruct (mineral_abundance_runnable ds names tbl depth Hd Hrun)
    as (out' & Hout & Hs & Hcells).
  rewrite Hdone in Hout. injection Hout as <-.
  rewrite (grid_shape _ _ Hd) in Hi, Hj.
  rewrite Hcells by done. unfold reported. case_match; [done|].
  apply nan_or_nonneg_nan_to_zero, nan_or_nonneg_sum, Forall_fmap, Forall_forall.
  intros r Hr. cbn.
  destruct (has_entry r k) eqn:He; [|by rewrite addend_no_entry by done].
  pose proof (proj1 (runnable_updates _ _ _ _) Hrun k r Hk Hr) as Hfits.
  destruct (addend_depth ds _ r k i j Hfits He Hi Hj)
    as (d & i' & j' & b & Hd' & Hi' & Hj' & ->).
  apply nan_or_nonneg_mul; [apply nan_or_nonneg_mul|].
  - apply nan_or_nonneg_of_bool.
  - by apply (Hdepth r d).
  - apply nan_or_nonneg_weight. intros e. by apply Htbl.
Qed.

(** The theorem on [scene_row] with weights 2 and -1. *)
Lemma abundances_are_never_negative_witness :
  finished (mineral_abundance scene_row ["Calcite"; "Chlorite"]
              [mk_grouping 5 1 [of_Z 2; NaN]; mk_grouping 7 1 [NaN; of_Z (-1)]])
  = Some [[[of_Z 6; of_Z 0]; [of_Z 0; of_Z 1]]]
  ∧ ∃ out,
      mineral_abundance scene_row ["Calcite"; "Chlorite"]
        [mk_grouping 5 1 [of_Z 2; NaN]; mk_grouping 7 1 [NaN; of_Z (-1)]]
      = Done out
      ∧ nan_or_nonneg (item3 out 0 1 1).
Proof.
  split; [by_compute|].
  destruct (mineral_abundance scene_row ["Calcite"; "Chlorite"]
      [mk_grouping 5 1 [of_Z 2; NaN]; mk_grouping 7 1 [NaN; of_Z (-1)]])
    as [out|e p] eqn:Hrun; [|by vm_compute in Hrun].
  exists out. split; [done|].
  apply (abundances_are_never_negative scene_row ["Calcite"; "Chlorite"]
      [mk_grouping 5 1 [of_Z 2; NaN]; mk_grouping 7 1 [NaN; of_Z (-1)]] out Hrun);
    [| |vm_compute; lia..].
  - intros r m e Hr He.
    apply elem_of_cons in Hr as [->|Hr];
      [|apply list_elem_of_singleton in Hr as ->];
      destruct m as [|[|m]]; cbn in He; simplify_eq;
      first [by left | right; by_compute].
  - intros r depth i j Hr Hd Hi Hj.
    assert (depth = array NaN [[of_Z 3; of_Z 1]]) as ->.
    { apply elem_of_cons in Hr as [->|Hr];
        [|apply list_elem_of_singleton in Hr as ->];
        vm_compute in Hd; by injection Hd as <-. }
    cbn in Hi, Hj. destruct i as [|i]; [|lia].
    destruct j as [|[|j]]; [by_compute..|lia].
Defined.

(** ** One mineral at a time *)

Lemma addend_same_column ds r r' k i j :
  Index r = Index r' → Group r = Group r' →
  abundances r !! k = abundances r' !! k →
  addend ds r k i j = addend ds r' k i j.
Proof.
  intros Hi Hg Hk. unfold addend, rhs_of, weight.
  by rewrite (masked_depth_same ds r r'), Hk.
Qed.

Lemma accumulated_same_column ds tbl tbl' k i j :
  Forall2 (λ r r', Index r = Index r' ∧ Group r = Group r'
                   ∧ abundances r !! k = abundances r' !! k) tbl tbl' →
  accumulated ds tbl k i j = accumulated ds tbl' k i j.
Proof.
  unfold accumulated. induction 1 as [|r r' tbl tbl' (Hi & Hg & Hk) _ IH];
    [done|].
  cbn [fmap list_fmap]. rewrite !sum_cons, IH.
  by rewrite (addend_same_column ds r r').
Qed.

(** X9.  The abundance of a mineral depends on the other columns of the
    table only through the missing cells: two runs that finish on tables
    with the same rows (index and group) and the same column for a mineral
    report the same value for that mineral at every cell, unless one of
    them reports the cell missing. *)
Theorem other_columns_only_decide_missing
    ds names names' tbl tbl' out out' k :
  mineral_abundance ds names tbl = Done out →
  mineral_abundance ds names' tbl' = Done out' →
  k < length names → k < length names' →
  Forall2 (λ r r', Index r = Index r' ∧ Group r = Group r'
                   ∧ abundances r !! k = abundances r' !! k) tbl tbl' →
  ∀ i j,
    item3 out i j k = item3 out' i j k
    ∨ item3 out i j k = NaN ∨ item3 out' i j k = NaN.
Proof.
  intros Hdone Hdone' Hk Hk' Hrows i j.
  destruct (mineral_abundance_reported _ _ _ _ Hdone)
    as (depth & _ & _ & Hcells).
  destruct (mineral_abundance_reported _ _ _ _ Hdone')
    as (depth' & _ & _ & Hcells').
  rewrite Hcells, Hcells' by done.
  destruct (reported_cases (length names) (λ m, accumulated ds tbl m i j))
    as [Hnan|[Hval _]]; [right; left; apply Hnan|].
  destruct (reported_cases (length names') (λ m, accumulated ds tbl' m i j))
    as [Hnan'|[Hval' _]]; [right; right; apply Hnan'|].
  left. rewrite Hval, Hval'. f_equal. by apply accumulated_same_column.
Qed.

(** The theorem on [scene_row]: a second mineral is added to the table;
    the first cell keeps its value for Calcite, the second is no longer
    missing. *)
Lemma other_columns_only_decide_missing_witness :
  finished (mineral_abundance scene_row ["Calcite"]
              [mk_grouping 5 1 [of_Z 2]; mk_grouping 7 1 [NaN]])
  = Some [[[of_Z 6]; [NaN]]]
  ∧ finished (mineral_abundance scene_row ["Calcite"; "Chlorite"]
                [mk_grouping 5 1 [of_Z 2; NaN]; mk_grouping 7 1 [NaN; of_Z 1]])
    = Some [[[of_Z 6; of_Z 0]; [of_Z 0; of_Z 1]]]
  ∧ ∃ out out',
      mineral_abundance scene_row ["Calcite"]
        [mk_grouping 5 1 [of_Z 2]; mk_grouping 7 1 [NaN]] = Done out
      ∧ mineral_abundance scene_row ["Calcite"; "Chlorite"]
          [mk_grouping 5 1 [of_Z 2; NaN]; mk_grouping 7 1 [NaN; of_Z 1]]
        = Done out'
      ∧ (item3 out 0 1 0 = item3 out' 0 1 0
         ∨ item3 out 0 1 0 = NaN ∨ item3 out' 0 1 0 = NaN).
Proof.
  split; [by_compute|]. split; [by_compute|].
  destruct (mineral_abundance scene_row ["Calcite"]
              [mk_grouping 5 1 [of_Z 2]; mk_grouping 7 1 [NaN]])
    as [out|e p] eqn:Hrun; [|by vm_compute in Hrun].
  destruct (mineral_abundance scene_row ["Calcite"; "Chlorite"]
              [mk_grouping 5 1 [of_Z 2; NaN]; mk_grouping 7 1 [NaN; of_Z 1]])
    as [out'|e p] eqn:Hrun'; [|by vm_compute in Hrun'].
  exists out, out'. split; [done|]. split; [done|].
  apply (other_columns_only_decide_missing scene_row
    ["Calcite"] ["Calcite"; "Chlorite"]
    [mk_grouping 5 1 [of_Z 2]; mk_grouping 7 1 [NaN]]
    [mk_grouping 5 1 [of_Z 2; NaN]; mk_grouping 7 1 [NaN; of_Z 1]]
    out out' 0 Hrun Hrun'); [cbn; lia..|repeat constructor].
Defined.

(** ** The table of library entries *)

Lemma imap_values {A B} (f : nat → A → B) l :
  (imap (λ i x, (f i x, x)) l).*2 = l.
Proof.
  revert f. induction l as [|x l IH]; intros f; [done|].
  cbn. f_equal. apply (IH (f ∘ S)).
Qed.

Lemma range_index_labels rows :
  (range_index rows).*1 = Z.of_nat <$> seq 0 (length rows).
Proof.
  unfold range_index. rewrite fmap_imap.
  rewrite <-(imap_seq_0 rows Z.of_nat). by apply imap_ext.
Qed.

Lemma range_index_values rows : (range_index rows).*2 = rows.
Proof. apply (imap_values (λ i _, Z.of_nat i)). Qed.

Lemma range_index_lookup rows k :
  range_index rows !! k = (λ row, (Z.of_nat k, row)) <$> rows !! k.
Proof. unfold range_index. by rewrite list_lookup_imap. Qed.

Lemma loc_set_new label row rows :
  (label < 0)%Z →
  loc_set label row (range_index rows) = range_index rows ++ [(label, row)].
Proof.
  intros Hneg. unfold loc_set. rewrite bool_decide_false; [done|].
  rewrite range_index_labels. intros (i & -> & _)%list_elem_of_fmap. lia.
Qed.

(** Sorting the rows labelled n, n+1, ... with a row of a smaller label
    behind them brings that row to the front. *)
Lemma sort_index_front (x : Z * entry) n rows :
  (x.1 < Z.of_nat n)%Z →
  foldr insert_row [x] (imap (λ i row, (Z.of_nat (n + i), row)) rows)
  = x :: imap (λ i row, (Z.of_nat (n + i), row)) rows.
Proof.
  revert n. induction rows as [|r rows IH]; intros n Hx; [done|].
  rewrite imap_cons. cbn [foldr].
  rewrite (imap_ext _ (λ i row, (Z.of_nat (S n + i), row)))
    by (intros i row _; cbn; do 2 f_equal; lia).
  rewrite IH by lia. cbn [insert_row].
  rewrite decide_False by (cbn; lia). f_equal.
  destruct rows as [|r' rows]; [done|].
  rewrite imap_cons. cbn [insert_row]. by rewrite decide_True by (cbn; lia).
Qed.

Lemma min_df_rows reference :
  min_df reference = range_index (No_Match :: reference).
Proof.
  unfold min_df. rewrite loc_set_new by done.
  unfold sort_index. rewrite foldr_app. cbn [foldr insert_row].
  unfold range_index at 1.
  rewrite (sort_index_front (-1, No_Match)%Z 0) by done.
  unfold reset_index. cbn [fmap list_fmap snd].
  by rewrite (imap_values (λ i _, Z.of_nat (0 + i))).
Qed.

(** X10.  [min_df] is the row No_Match followed by the entries of the
    library in their order, labelled 0, 1, 2, ...; when the library
    numbers its entries from 1 in that order, the position of every row of
    [min_df] is the value of its index column. *)
Theorem no_match_is_row_zero reference :
  min_df reference !! 0 = Some (0%Z, No_Match)
  ∧ (∀ k, min_df reference !! S k
          = (λ row, (Z.of_nat (S k), row)) <$> reference !! k)
  ∧ length (min_df reference) = S (length reference)
  ∧ ((∀ k row, reference !! k = Some row → index row = (Z.of_nat k + 1)%Z) →
     ∀ k label row, min_df reference !! k = Some (label, row) →
       label = Z.of_nat k ∧ index row = Z.of_nat k).
Proof.
  rewrite min_df_rows. split; [done|]. split; [|split].
  - intros k. by rewrite range_index_lookup.
  - unfold range_index. by rewrite length_imap.
  - intros Hindex k label row. rewrite range_index_lookup.
    destruct k as [|k]; cbn.
    + by intros [= <- <-].
    + destruct (reference !! k) as [row'|] eqn:Hk; [|done].
      intros [= <- <-]. split; [done|]. rewrite (Hindex k row') by done. lia.
Qed.

(** The theorem on [library_two_entries]. *)
Lemma no_match_is_row_zero_witness :
  min_df library_two_entries !! 2
  = Some (2%Z, mk_entry 2 "Calcite" (of_Z 12) "u2" (of_Z 2) "lib" 0)
  ∧ index (mk_entry 2 "Calcite" (of_Z 12) "u2" (of_Z 2) "lib" 0) = 2%Z.
Proof.
  destruct (no_match_is_row_zero library_two_entries)
    as (_ & Hrows & _ & Hindex).
  split; [by rewrite Hrows|].
  apply (Hindex ltac:(by intros [|[|k]] row [= <-]) 2 2%Z).
  by rewrite Hrows.
Defined.

(** ** The names of the dropdown list *)

Lemma prefix_empty s : String.prefix "" s = true.
Proof. by destruct s. Qed.

Lemma split_go_without sep s :
  sep ≠ "" → contains sep s = false → split_go sep 0 s = [s].
Proof.
  intros Hsep. induction s as [|c s IH]; [done|].
  cbn [contains]. intros [Hp Hc]%orb_false_iff.
  cbn [split_go]. by rewrite Hp, IH.
Qed.

Lemma contains_percent c p :
  contains "%" (String c p) = false →
  (∀ s, String.prefix "%: " (String c s) = false)
  ∧ (∀ s, String.prefix "%:" (String c s) = false)
  ∧ contains "%" p = false.
Proof.
  cbn [contains String.prefix]. intros [Hp Hc]%orb_false_iff.
  destruct (Ascii.ascii_dec _ c); [by rewrite prefix_empty in Hp|done].
Qed.

Lemma append_cons c s t : String c s +:+ t = String c (s +:+ t).
Proof. done. Qed.

Lemma split_go_name p x :
  contains "%" p = false →
  split_go "%: " 0 (p +:+ " %: " +:+ x) = (p +:+ " ") :: split_go "%: " 0 x.
Proof.
  induction p as [|c p IH]; intros Hp.
  - cbv [String.append]. cbn. by rewrite prefix_empty.
  - apply contains_percent in Hp as (Hpre & _ & Hp).
    rewrite (append_cons c p). cbn [split_go].
    by rewrite Hpre, IH.
Qed.

Lemma split_go_percent p x :
  contains "%" p = false →
  ∃ pieces, split_go " %:" 0 (p +:+ " %: " +:+ x) = p :: pieces.
Proof.
  induction p as [|c p IH]; intros Hp.
  - cbv [String.append]. cbn. by eexists.
  - apply contains_percent in Hp as (_ & _ & Hp).
    destruct (IH Hp) as [pieces Hpieces].
    rewrite (append_cons c p). cbn [split_go]. rewrite Hpieces.
    assert (String.prefix " %:" (String c (p +:+ " %: " +:+ x)) = false) as ->.
    { cbn [String.prefix]. destruct (Ascii.ascii_dec _ c); [|done].
      destruct p as [|c' p]; [done|].
      apply contains_percent in Hp as (_ & Hpre & _).
      rewrite (append_cons c' p). apply Hpre. }
    by eexists.
Qed.

Lemma selected_name_dropdown_name percent x :
  contains "%" percent = false → contains "%: " x = false →
  selected_name (dropdown_name percent x) = Ok x.
Proof.
  intros Hp Hx. unfold selected_name, dropdown_name, split.
  rewrite decide_False by done. cbn.
  by rewrite split_go_name, split_go_without.
Qed.

(** X11.  A name of the dropdown list splits back into its parts: the text
    before [" %:"] is the percentage text when that text holds no percent
    sign, and the text after the last ["%: "] is the mineral name when the
    name does not contain ["%: "]. *)
Theorem dropdown_names_split_back percent x :
  contains "%" percent = false →
  percent_of (dropdown_name percent x) = Ok percent
  ∧ (contains "%: " x = false →
     selected_name (dropdown_name percent x) = Ok x).
Proof.
  intros Hp. split; [|by apply selected_name_dropdown_name].
  unfold percent_of, dropdown_name, split. rewrite decide_False by done. cbn.
  by destruct (split_go_percent percent x Hp) as [pieces ->].
Qed.

(** The theorem on the name of a mineral that covers 12 percent. *)
Lemma dropdown_names_split_back_witness :
  dropdown_name "12.0" "Kaolinite+Smectite" = "12.0 %: Kaolinite+Smectite"
  ∧ percent_of "12.0 %: Kaolinite+Smectite" = Ok "12.0"
  ∧ selected_name "12.0 %: Kaolinite+Smectite" = Ok "Kaolinite+Smectite".
Proof.
  destruct (dropdown_names_split_back "12.0" "Kaolinite+Smectite")
    as [Hpercent Hname]; [by_compute|].
  split; [by_compute|]. split; [exact Hpercent|]. apply Hname. by_compute.
Defined.

(** ** The band depth of the selected mineral *)

Lemma list_index_first x l k :
  l !! k = Some x → (∀ j y, j < k → l !! j = Some y → y ≠ x) →
  list_index x l = Ok k.
Proof.
  intros Hk Hfirst. unfold list_index.
  assert (list_find (λ y, y = x) l = Some (k, x)) as ->; [|done].
  apply list_find_Some. split; [done|]. split; [done|].
  intros j y Hy Hj. by apply (Hfirst j).
Qed.

Lemma list_index_absent x l : x ∉ l → list_index x l = Raise ValueError.
Proof.
  intros Hx. unfold list_index.
  assert (list_find (λ y, y = x) l = None) as ->; [|done].
  apply list_find_None, Forall_forall. by intros y Hy ->.
Qed.

Lemma min_df_names reference :
  mineral_name <$> (min_df reference).*2
  = "No_Match" :: (mineral_name <$> reference).
Proof. by rewrite min_df_rows, range_index_values. Qed.

Lemma where_same_shape layer ids id :
  shape ids = shape layer →
  ∃ mask,
    where_ layer (map_scalar (λ v, eqb v (of_Z id)) ids) = Ok mask
    ∧ keeps mask layer ids id.
Proof.
  intros Hs. unfold where_, map2. cbn [map_scalar shape item].
  rewrite Hs, broadcast_shape_same. eexists. split; [done|].
  split; [done|]. intros i j Hi Hj. cbn [item].
  by rewrite !(stretch_lt _ i), !(stretch_lt _ j).
Qed.

(** The position in [min_df] of the name of the first entry that carries
    it. *)
Lemma selected_position reference k r :
  reference !! k = Some r → mineral_name r ≠ "No_Match" →
  (∀ j r', j < k → reference !! j = Some r' →
     mineral_name r' ≠ mineral_name r) →
  list_index (mineral_name r) (mineral_name <$> (min_df reference).*2)
  = Ok (S k).
Proof.
  intros Hk Hno Hfirst.
  rewrite min_df_names. apply list_index_first.
  - change ((mineral_name <$> reference) !! k = Some (mineral_name r)).
    by rewrite list_lookup_fmap, Hk.
  - intros [|j] y Hj Hy; [by injection Hy as <-|].
    change ((mineral_name <$> reference) !! j = Some y) in Hy.
    rewrite list_lookup_fmap in Hy.
    destruct (reference !! j) as [r'|] eqn:Hr'; [|done].
    injection Hy as <-. apply (Hfirst j); [lia|done].
Qed.

(** X12.  A selection made from the name of a library entry shows that
    entry: for the first entry of the library with that name, found at
    position [k] and numbered [k + 1], and a name that holds no ["%: "],
    the masks of [min_browse], [min_browse_g2] and [min_browse_fit_g2] keep
    the band depth of group 1, the band depth of group 2 and twice the fit
    of group 1 at the cells whose mineral id is the index of the entry, and
    are NaN at all others. *)
Theorem browse_masks_show_the_selected_entry
    ds_min ds_min_unc reference k r percent :
  reference !! k = Some r → index r = Z.of_nat (S k) →
  mineral_name r ≠ "No_Match" →
  (∀ j r', j < k → reference !! j = Some r' →
     mineral_name r' ≠ mineral_name r) →
  contains "%" percent = false → contains "%: " (mineral_name r) = false →
  (∀ depth ids,
     ds_min !! "group_1_band_depth" = Some depth →
     ds_min !! "group_1_mineral_id" = Some ids → shape ids = shape depth →
     ∃ mask,
       min_browse ds_min (min_df reference)
         (dropdown_name percent (mineral_name r)) = Ok mask
       ∧ keeps mask depth ids (index r))
  ∧ (∀ depth ids,
       ds_min !! "group_2_band_depth" = Some depth →
       ds_min !! "group_2_mineral_id" = Some ids → shape ids = shape depth →
       ∃ mask,
         min_browse_g2 ds_min (min_df reference)
           (dropdown_name percent (mineral_name r)) = Ok mask
         ∧ keeps mask depth ids (index r))
  ∧ (∀ fit ids,
       ds_min_unc !! "group_1_fit" = Some fit →
       ds_min !! "group_1_mineral_id" = Some ids → shape ids = shape fit →
       ∃ mask,
         min_browse_fit_g2 ds_min_unc ds_min (min_df reference)
           (dropdown_name percent (mineral_name r)) = Ok mask
         ∧ keeps mask (map_scalar (λ v, mul v (of_Z 2)) fit) ids (index r)).
Proof.
  intros Hk -> Hno Hfirst Hp Hx.
  pose proof (selected_name_dropdown_name percent (mineral_name r) Hp Hx)
    as Hname.
  pose proof (selected_position reference k r Hk Hno Hfirst) as Hpos.
  split; [|split].
  - intros depth ids Hd Hi Hs. unfold min_browse.
    rewrite Hd, Hi, Hname. cbn. rewrite Hpos. cbn.
    by apply where_same_shape.
  - intros depth ids Hd Hi Hs. unfold min_browse_g2.
    rewrite Hd, Hi, Hname. cbn. rewrite Hpos. cbn.
    by apply where_same_shape.
  - intros fit ids Hf Hi Hs. unfold min_browse_fit_g2.
    rewrite Hf, Hi, Hname. cbn. rewrite Hpos. cbn.
    destruct (where_same_shape fit ids (Z.of_nat (S k)) Hs)
      as (mask & -> & Hsm & Hcells). cbn.
    eexists. split; [done|]. split; [done|]. intros i j Hi' Hj'. cbn.
    rewrite Hcells by done. by destruct (eqb _ _).
Qed.

(** The theorem on [scene_two_groups], [scene_fit] and the selection of
    the second entry of [library_two_entries]. *)
Lemma browse_masks_show_the_selected_entry_witness :
  (∃ mask,
     min_browse scene_two_groups (min_df library_two_entries) "50.0 %: Calcite"
     = Ok mask
     ∧ tolist mask = [[of_Z 3; NaN]])
  ∧ (∃ mask,
       min_browse_g2 scene_two_groups (min_df library_two_entries)
         "50.0 %: Calcite" = Ok mask
       ∧ tolist mask = [[NaN; of_Z 5]])
  ∧ (∃ mask,
       min_browse_fit_g2 scene_fit scene_two_groups
         (min_df library_two_entries) "50.0 %: Calcite" = Ok mask
       ∧ tolist mask = [[of_Z 2; NaN]]).
Proof.
  destruct (browse_masks_show_the_selected_entry scene_two_groups scene_fit
              library_two_entries 1
              (mk_entry 2 "Calcite" (of_Z 12) "u2" (of_Z 2) "lib" 0) "50.0")
    as (H1 & H2 & H3); [done|done|done| |by_compute|by_compute|].
  { intros [|j] r' Hj; [|lia]. by intros [= <-]. }
  split; [|split].
  - destruct (H1 (array NaN [[of_Z 3; of_Z 4]]) (array NaN [[of_Z 2; of_Z 1]]))
      as (mask & Hmask & Hs & Hcells); [by_compute..|].
    exists mask. split; [exact Hmask|].
    unfold tolist. rewrite Hs. cbn. rewrite !Hcells by (cbn; lia). by_compute.
  - destruct (H2 (array NaN [[NaN; of_Z 5]]) (array NaN [[of_Z 0; of_Z 2]]))
      as (mask & Hmask & Hs & Hcells); [by_compute..|].
    exists mask. split; [exact Hmask|].
    unfold tolist. rewrite Hs. cbn. rewrite !Hcells by (cbn; lia). by_compute.
  - destruct (H3 (array NaN [[of_Z 1; of_Z 1]]) (array NaN [[of_Z 2; of_Z 1]]))
      as (mask & Hmask & Hs & Hcells); [by_compute..|].
    exists mask. split; [exact Hmask|].
    unfold tolist. rewrite Hs. cbn. rewrite !Hcells by (cbn; lia). by_compute.
Defined.

(** ** The columns of the weight table *)

Lemma bind_imap_shift (p : nat → bool) (f : nat → nat) (l : list string) :
  imap (λ i x, (f i, x)) l ≫= (λ c, if p c.1 then [c.2] else [])
  = imap (λ i x, (i, x)) l ≫= (λ c, if p (f c.1) then [c.2] else []).
Proof.
  revert p f. induction l as [|x l IH]; intros p f; [done|].
  rewrite !imap_cons. cbn [mbind list_bind fst snd]. f_equal.
  etrans; [exact (IH p (f ∘ S))|]. symmetry. exact (IH (p ∘ f) S).
Qed.

Lemma columns_where_cons p x columns :
  columns_where p (x :: columns)
  = (if p 0 then [x] else []) ++ columns_where (p ∘ S) columns.
Proof.
  unfold columns_where. rewrite imap_cons. cbn [mbind list_bind fst snd].
  f_equal. apply (bind_imap_shift p S).
Qed.

Lemma columns_where_ext p q columns :
  (∀ i, p i = q i) → columns_where p columns = columns_where q columns.
Proof.
  intros Hpq. unfold columns_where. apply list_bind_ext; [|done].
  intros c. by rewrite Hpq.
Qed.

Lemma columns_where_from n columns :
  columns_where (λ _x, bool_decide (n ≤ _x)) columns = drop n columns.
Proof.
  revert n. induction columns as [|x columns IH]; intros n.
  - by destruct n.
  - rewrite columns_where_cons.
    rewrite (columns_where_ext _ (λ _x, bool_decide (pred n ≤ _x)))
      by (intros i; cbn; apply bool_decide_ext; lia).
    rewrite IH. destruct n as [|n]; [done|].
    by rewrite bool_decide_false by lia.
Qed.

Lemma columns_where_range a b columns :
  columns_where (λ _x, bool_decide (a ≤ _x) && bool_decide (_x < b)) columns
  = take (b - a) (drop a columns).
Proof.
  revert a b. induction columns as [|x columns IH]; intros a b.
  - by rewrite drop_nil, take_nil.
  - rewrite columns_where_cons.
    rewrite (columns_where_ext _
      (λ _x, bool_decide (pred a ≤ _x) && bool_decide (_x < pred b)))
      by (intros i; cbn; f_equal; apply bool_decide_ext; lia).
    rewrite IH. destruct a as [|a].
    + destruct b as [|b]; [done|]. cbn. by rewrite Nat.sub_0_r.
    + rewrite bool_decide_false by lia. cbn. f_equal. lia.
Qed.

Lemma filter_all {A} (P : A → Prop) `{!∀ x, Decision (P x)} (l : list A) :
  (∀ x, x ∈ l → P x) → filter P l = l.
Proof.
  induction l as [|x l IH]; intros Hall; [done|].
  rewrite filter_cons_True by (apply Hall; left). f_equal.
  apply IH. intros y Hy. apply Hall. by right.
Qed.

Lemma filter_none {A} (P : A → Prop) `{!∀ x, Decision (P x)} (l : list A) :
  (∀ x, x ∈ l → ¬ P x) → filter P l = [].
Proof.
  induction l as [|x l IH]; intros Hall; [done|].
  rewrite filter_cons_False by (apply Hall; left).
  apply IH. intros y Hy. apply Hall. by right.
Qed.

Lemma filter_not_in_drop n (columns : list string) :
  NoDup columns →
  filter (λ x, x ∉ drop n columns) columns = take n columns.
Proof.
  intros Hnd. rewrite <-(take_drop n columns) in Hnd.
  apply NoDup_app in Hnd as (_ & Hdisj & _).
  transitivity (filter (λ x, x ∉ drop n columns)
                       (take n columns ++ drop n columns)).
  { by rewrite take_drop. }
  rewrite filter_app, filter_all by done.
  rewrite filter_none by (intros x Hx Hn; by apply Hn).
  apply app_nil_r.
Qed.

(** X13.  On the frame that [pd.read_csv] returns, whose columns are at
    least one and have distinct labels, the cell raises no exception: the
    frame keeps its first 17 columns, and [mineral_names] is the columns 7
    to 16 of the frame, in their order, at most ten names. *)
Theorem mineral_names_are_columns_7_to_16 frame_columns :
  NoDup frame_columns → frame_columns ≠ [] →
  kept_columns frame_columns = Ok (take 17 frame_columns)
  ∧ mineral_names frame_columns = Ok (take 10 (drop 7 frame_columns))
  ∧ length (take 10 (drop 7 frame_columns)) ≤ 10
  ∧ take 10 (drop 7 frame_columns) ⊆ frame_columns.
Proof.
  intros Hnd _.
  assert (∀ columns,
            columns_where (λ _x, bool_decide (6 < _x) && bool_decide (_x < 17))
                          columns
            = take 10 (drop 7 columns)) as Hnames.
  { intros columns. rewrite <-(columns_where_range 7 17).
    by apply columns_where_ext. }
  assert (kept_columns frame_columns = Ok (take 17 frame_columns)) as Hkept.
  { unfold kept_columns, drop_columns. rewrite columns_where_from.
    assert (forallb (λ x, bool_decide (x ∈ frame_columns))
                    (drop 17 frame_columns) = true) as ->.
    { apply forallb_forall. intros x Hx%list_elem_of_In.
      apply bool_decide_eq_true. apply (subseteq_drop 17 frame_columns), Hx. }
    by rewrite filter_not_in_drop. }
  split; [done|]. split.
  - unfold mineral_names. rewrite Hkept. cbn. rewrite Hnames.
    f_equal. rewrite (take_drop_commute frame_columns 10 7).
    rewrite (take_drop_commute (take 17 frame_columns) 10 7).
    by rewrite take_take.
  - split; [rewrite length_take; lia|].
    intros x Hx. by apply subseteq_take, subseteq_drop in Hx.
Qed.

(** The theorem on a frame of 19 columns. *)
Lemma mineral_names_are_columns_7_to_16_witness :
  mineral_names
    ["c0"; "Index"; "c2"; "c3"; "Group"; "c5"; "c6"; "Calcite"; "Chlorite";
     "Dolomite"; "Goethite"; "Gypsum"; "Hematite"; "Illite+Muscovite";
     "Kaolinite"; "Montmorillonite"; "Vermiculite"; "x1"; "x2"]
  = Ok ["Calcite"; "Chlorite"; "Dolomite"; "Goethite"; "Gypsum"; "Hematite";
        "Illite+Muscovite"; "Kaolinite"; "Montmorillonite"; "Vermiculite"].
Proof.
  destruct (mineral_names_are_columns_7_to_16
    ["c0"; "Index"; "c2"; "c3"; "Group"; "c5"; "c6"; "Calcite"; "Chlorite";
     "Dolomite"; "Goethite"; "Gypsum"; "Hematite"; "Illite+Muscovite";
     "Kaolinite"; "Montmorillonite"; "Vermiculite"; "x1"; "x2"])
    as (_ & -> & _); [by_compute|done|done].
Defined.

(** ** The lists of URLs *)

Lemma rstrip_cons c x s :
  x ≠ c → rstrip c (String x s) = String x (rstrip c s).
Proof.
  intros Hx. cbn [rstrip]. destruct (rstrip c s); [|done].
  by rewrite decide_False.
Qed.

Lemma min_urls_cons c text :
  min_urls (String c text)
  = if decide (c = newline) then "" :: min_urls text
    else match min_urls text with
         | [] => [String c ""]
         | u :: urls => String c u :: urls
         end.
Proof.
  unfold min_urls. cbn [readlines]. case_decide as Hc.
  - subst c. by rewrite fmap_cons.
  - destruct (readlines text) as [|line lines]; cbn [fmap list_fmap].
    + by rewrite rstrip_cons.
    + by rewrite rstrip_cons.
Qed.

Lemma min_urls_nil text : min_urls text = [] → text = "".
Proof.
  destruct text as [|c text]; [done|]. rewrite min_urls_cons.
  case_decide; [done|]. by destruct (min_urls text).
Qed.

Lemma concat_cons_head sep c u urls :
  String.concat sep (String c u :: urls) = String c (String.concat sep (u :: urls)).
Proof. by destruct urls. Qed.

Lemma contains_newline_cons c u :
  c ≠ newline → contains (String newline "") u = false →
  contains (String newline "") (String c u) = false.
Proof.
  intros Hc Hu. cbn [contains String.prefix]. rewrite Hu.
  by destruct (Ascii.ascii_dec newline c).
Qed.

(** X14.  The list of URLs holds the lines of the file, none left out: the
    URLs joined by newlines are the text of the file up to one newline at
    its end, and no URL holds a newline.  Only an empty file gives no URL,
    and then opening the first URL raises [IndexError]. *)
Theorem url_list_keeps_the_lines text :
  (∃ tail,
     (tail = "" ∨ tail = String newline "")
     ∧ text = String.concat (String newline "") (min_urls text) +:+ tail)
  ∧ Forall (λ u, contains (String newline "") u = false) (min_urls text)
  ∧ (first_url text = Raise IndexError ↔ text = "").
Proof.
  split; [|split].
  - induction text as [|c text (tail & Htail & IH)];
      [exists ""; split; [by left|done]|].
    rewrite min_urls_cons. case_decide as Hc.
    + subst c. destruct (min_urls text) as [|u urls] eqn:Hurls.
      * apply min_urls_nil in Hurls as ->. exists (String newline "").
        split; [by right|done].
      * exists tail. split; [done|].
        change (String newline text
                = String newline (String.concat (String newline "") (u :: urls)
                                  +:+ tail)).
        by rewrite <-IH.
    + destruct (min_urls text) as [|u urls] eqn:Hurls.
      * apply min_urls_nil in Hurls as ->. exists "". split; [by left|done].
      * exists tail. split; [done|].
        rewrite concat_cons_head, append_cons. by rewrite <-IH.
  - induction text as [|c text IH]; [done|].
    rewrite min_urls_cons. case_decide as Hc.
    + by constructor.
    + destruct (min_urls text) as [|u urls].
      * constructor; [|done]. by apply contains_newline_cons.
      * inversion_clear IH as [|?? Hu Hus]. constructor; [|done].
        by apply contains_newline_cons.
  - unfold first_url. split.
    + destruct (min_urls text) as [|u urls] eqn:Hurls; [|done].
      intros _. by apply min_urls_nil.
    + by intros ->.
Qed.

(** The theorem on a file of two lines, with an empty line between them. *)
Lemma url_list_keeps_the_lines_witness :
  min_urls ("https://a/1.nc" +:+ String newline (String newline
              ("https://a/2.nc" +:+ String newline "")))
  = ["https://a/1.nc"; ""; "https://a/2.nc"]
  ∧ first_url "" = Raise IndexError.
Proof.
  split; [by_compute|].
  by apply (url_list_keeps_the_lines "").
Defined.
